(** * FL-VCS client tooling: content store, commit identifier, deployment

    A shallow embedding of the Python operator tooling:
    - [src/ledger/ipfs_store.py]  ([LocalIPFS.add_bytes], [LocalIPFS.get]),
    - [src/ledger/interfaces.py]  (the class [FLVCSWeb3]),
    - [src/cli/flvcs.py]          (the group [cli], the [commit] command and
                                   the branch commands),
    - [scripts/deploy.py]         ([deploy]).

    The library calls the code delegates to ([hashlib.sha256],
    [Web3.keccak], [eth_abi.abi.encode], [bytes.fromhex], [str.replace],
    [Web3.to_bytes]) are given executable definitions so that the embedded
    functions run on concrete inputs. *)

From Stdlib Require Import ZArith NArith Ascii String List Lia.
From Stdlib Require Import Init.Byte.
From stdpp Require Import base option list gmap strings.
Import ListNotations.

Local Open Scope string_scope.
Local Open Scope list_scope.

(** Python [bytes] values. *)
Abbreviation bytes := (list byte).

(* ===================================================================== *)
(** ** Bytes, integers and hexadecimal text *)
(* ===================================================================== *)

Module Hex.

Definition Z_of_byte (b : byte) : Z := Z.of_N (Byte.to_N b).

Definition byte_of_Z (z : Z) : byte :=
  match Byte.of_N (Z.to_N (z mod 256)) with
  | Some b => b
  | None => x00
  end.

(** [n.to_bytes(len, 'big')] restricted to the low [len] bytes. *)
Fixpoint be_bytes (len : nat) (z : Z) : bytes :=
  match len with
  | O => []
  | S k => be_bytes k (Z.shiftr z 8) ++ [byte_of_Z z]
  end.

(** [n.to_bytes(len, 'little')] restricted to the low [len] bytes. *)
Fixpoint le_bytes (len : nat) (z : Z) : bytes :=
  match len with
  | O => []
  | S k => byte_of_Z z :: le_bytes k (Z.shiftr z 8)
  end.

Definition be_to_Z (bs : bytes) : Z :=
  fold_left (fun acc b => (acc * 256 + Z_of_byte b)%Z) bs 0%Z.

Definition le_to_Z (bs : bytes) : Z :=
  fold_right (fun b acc => (Z_of_byte b + 256 * acc)%Z) 0%Z bs.

(** The lowercase digit Python prints for a nibble. *)
Definition hex_digit (n : N) : ascii :=
  match n with
  | 0%N => "0" | 1%N => "1" | 2%N => "2" | 3%N => "3"
  | 4%N => "4" | 5%N => "5" | 6%N => "6" | 7%N => "7"
  | 8%N => "8" | 9%N => "9" | 10%N => "a" | 11%N => "b"
  | 12%N => "c" | 13%N => "d" | 14%N => "e" | _ => "f"
  end%char.

(** The value of a hexadecimal digit, either case ([_PyLong_DigitValue]). *)
Definition hex_val (c : ascii) : option N :=
  let n := N_of_ascii c in
  if ((48 <=? n) && (n <=? 57))%N then Some (n - 48)%N
  else if ((97 <=? n) && (n <=? 102))%N then Some (n - 87)%N
  else if ((65 <=? n) && (n <=? 70))%N then Some (n - 55)%N
  else None.

Definition is_hex_lower (c : ascii) : bool :=
  let n := N_of_ascii c in
  (((48 <=? n) && (n <=? 57)) || ((97 <=? n) && (n <=? 102)))%N.

Definition hex_of_byte (b : byte) : list ascii :=
  [hex_digit (Byte.to_N b / 16); hex_digit (Byte.to_N b mod 16)].

(** [bytes.hex()] / [hashlib.*.hexdigest()]: two lowercase digits a byte. *)
Definition hex (bs : bytes) : string :=
  string_of_list_ascii (concat (map hex_of_byte bs)).

Definition byte_of_nibbles (hi lo : N) : byte :=
  byte_of_Z (Z.of_N (hi * 16 + lo)).

(** Pairs of hexadecimal digits to bytes; [None] on a bad digit or an odd
    number of digits. *)
Fixpoint unhex_digits (cs : list ascii) : option bytes :=
  match cs with
  | [] => Some []
  | [_] => None
  | c1 :: c2 :: rest =>
      match hex_val c1, hex_val c2, unhex_digits rest with
      | Some hi, Some lo, Some bs => Some (byte_of_nibbles hi lo :: bs)
      | _, _, _ => None
      end
  end.

(** [Py_ISSPACE]: space, \t, \n, \v, \f, \r. *)
Definition is_space (c : ascii) : bool :=
  let n := N_of_ascii c in
  ((n =? 32) || ((9 <=? n) && (n <=? 13)))%N.

(** [bytes.fromhex(s)]: white space is skipped before each pair of digits,
    never inside a pair; anything else raises [ValueError] ([None]). *)
Fixpoint fromhex_chars (cs : list ascii) : option bytes :=
  match cs with
  | [] => Some []
  | c1 :: rest =>
      if is_space c1 then fromhex_chars rest
      else
        match rest with
        | [] => None
        | c2 :: rest' =>
            match hex_val c1, hex_val c2, fromhex_chars rest' with
            | Some hi, Some lo, Some bs => Some (byte_of_nibbles hi lo :: bs)
            | _, _, _ => None
            end
        end
  end.

Definition fromhex (s : string) : option bytes :=
  fromhex_chars (list_ascii_of_string s).

(** Consecutive slices [l[i:i+size]]; [fuel] bounds the number of slices
    (the length of [l] always suffices). *)
Fixpoint chunks {A} (fuel size : nat) (l : list A) : list (list A) :=
  match fuel with
  | O => []
  | S f =>
      match l with
      | [] => []
      | _ => firstn size l :: chunks f size (skipn size l)
      end
  end.

(** [text.encode("utf-8")] on the ASCII text this program hashes: one byte
    per character. *)
Definition utf8 (s : string) : bytes := list_byte_of_string s.

End Hex.

(* ===================================================================== *)
(** ** SHA-256 (FIPS 180-4), as [hashlib.sha256] computes it *)
(* ===================================================================== *)

Module SHA256.
Import Hex.
Local Open Scope Z_scope.

Definition mask32 : Z := 0xffffffff.
Definition add32 (a b : Z) : Z := (a + b) mod 2 ^ 32.
Definition rotr (n x : Z) : Z :=
  Z.lor (Z.shiftr x n) (Z.land (Z.shiftl x (32 - n)) mask32).
Definition shr (n x : Z) : Z := Z.shiftr x n.

Definition Ch (x y z : Z) : Z :=
  Z.lxor (Z.land x y) (Z.land (Z.lxor x mask32) z).
Definition Maj (x y z : Z) : Z :=
  Z.lxor (Z.lxor (Z.land x y) (Z.land x z)) (Z.land y z).
Definition Sigma0 (x : Z) : Z := Z.lxor (Z.lxor (rotr 2 x) (rotr 13 x)) (rotr 22 x).
Definition Sigma1 (x : Z) : Z := Z.lxor (Z.lxor (rotr 6 x) (rotr 11 x)) (rotr 25 x).
Definition sigma0 (x : Z) : Z := Z.lxor (Z.lxor (rotr 7 x) (rotr 18 x)) (shr 3 x).
Definition sigma1 (x : Z) : Z := Z.lxor (Z.lxor (rotr 17 x) (rotr 19 x)) (shr 10 x).

(** The first 64 primes. *)
Definition primes : list Z :=
  [   2;   3;   5;   7;  11;  13;  17;  19;  23;  29;  31;  37;  41;  43;  47;  53;
     59;  61;  67;  71;  73;  79;  83;  89;  97; 101; 103; 107; 109; 113; 127; 131;
    137; 139; 149; 151; 157; 163; 167; 173; 179; 181; 191; 193; 197; 199; 211; 223;
    227; 229; 233; 239; 241; 251; 257; 263; 269; 271; 277; 281; 283; 293; 307; 311 ].

(** The largest [r] with [r ^ 3 <= n], built bit by bit below [2 ^ bits]. *)
Fixpoint cube_root (bits : nat) (n r : Z) : Z :=
  match bits with
  | O => r
  | S b =>
      let r' := r + 2 ^ Z.of_nat b in
      cube_root b n (if r' ^ 3 <=? n then r' else r)
  end.

(** The first 32 bits of the fractional part of the cube root of [p]. *)
Definition frac_cube_root (p : Z) : Z := cube_root 40 (p * 2 ^ 96) 0 mod 2 ^ 32.

(** The first 32 bits of the fractional part of the square root of [p]. *)
Definition frac_square_root (p : Z) : Z := Z.sqrt (p * 2 ^ 64) mod 2 ^ 32.

(** The round constants (section 4.2.2): cube roots of the first 64 primes. *)
Definition K : list Z := Eval vm_compute in map frac_cube_root primes.

(** The initial hash value (section 5.3.3): square roots of the first 8 primes. *)
Definition H0 : list Z := Eval vm_compute in map frac_square_root (firstn 8 primes).

(** Message padding: 0x80, zeros up to 56 mod 64, the bit length on 8 bytes. *)
Definition pad (msg : bytes) : bytes :=
  let len := Z.of_nat (length msg) in
  msg ++ [x80] ++ repeat x00 (Z.to_nat ((55 - len) mod 64)) ++ be_bytes 8 (8 * len).

Definition words_of_block (blk : bytes) : list Z :=
  map be_to_Z (chunks 16 4 blk).

(** The message schedule, extended from 16 to 64 words. *)
Fixpoint extend (n : nat) (W : list Z) : list Z :=
  match n with
  | O => W
  | S n' =>
      let t := length W in
      let at_ k := nth (t - k) W 0 in
      extend n' (W ++ [add32 (add32 (sigma1 (at_ 2%nat)) (at_ 7%nat))
                              (add32 (sigma0 (at_ 15%nat)) (at_ 16%nat))])
  end.

Record regs := Regs { ra : Z; rb : Z; rc : Z; rd : Z; re : Z; rf : Z; rg : Z; rh : Z }.

Definition round (s : regs) (kw : Z * Z) : regs :=
  let '(k, w) := kw in
  let t1 := add32 (add32 (add32 (add32 (rh s) (Sigma1 (re s))) (Ch (re s) (rf s) (rg s))) k) w in
  let t2 := add32 (Sigma0 (ra s)) (Maj (ra s) (rb s) (rc s)) in
  Regs (add32 t1 t2) (ra s) (rb s) (rc s) (add32 (rd s) t1) (re s) (rf s) (rg s).

Definition regs_of (h : list Z) : regs :=
  Regs (nth 0 h 0) (nth 1 h 0) (nth 2 h 0) (nth 3 h 0)
       (nth 4 h 0) (nth 5 h 0) (nth 6 h 0) (nth 7 h 0).

Definition list_of (s : regs) : list Z :=
  [ra s; rb s; rc s; rd s; re s; rf s; rg s; rh s].

Definition compress (h : list Z) (blk : bytes) : list Z :=
  let W := extend 48 (words_of_block blk) in
  let s := fold_left round (combine K W) (regs_of h) in
  map (fun p => add32 (fst p) (snd p)) (combine h (list_of s)).

(** [hashlib.sha256(data).digest()] *)
Definition digest (msg : bytes) : bytes :=
  let m := pad msg in
  let h := fold_left compress (chunks (length m) 64 m) H0 in
  concat (map (be_bytes 4) h).

(** [hashlib.sha256(data).hexdigest()] *)
Definition hexdigest (msg : bytes) : string := hex (digest msg).

End SHA256.

(* ===================================================================== *)
(** ** Keccak-256 (the Ethereum hash), as [Web3.keccak] computes it *)
(* ===================================================================== *)

Module Keccak.
Import Hex.
Local Open Scope Z_scope.

Definition mask64 : Z := 0xffffffffffffffff.

Definition rol64 (n x : Z) : Z :=
  Z.lor (Z.land (Z.shiftl x n) mask64) (Z.shiftr x (64 - n)).

(** The state is 25 lanes of 64 bits; lane (x, y) sits at index x + 5 y. *)
Definition lane (A : list Z) (x y : nat) : Z :=
  nth ((x mod 5) + 5 * (y mod 5))%nat A 0.

Definition lanes (f : nat -> nat -> Z) : list Z :=
  map (fun i => f (i mod 5)%nat (i / 5)%nat) (seq 0 25).

Definition RC : list Z :=
  [ 0x0000000000000001; 0x0000000000008082; 0x800000000000808A;
    0x8000000080008000; 0x000000000000808B; 0x0000000080000001;
    0x8000000080008081; 0x8000000000008009; 0x000000000000008A;
    0x0000000000000088; 0x0000000080008009; 0x000000008000000A;
    0x000000008000808B; 0x800000000000008B; 0x8000000000008089;
    0x8000000000008003; 0x8000000000008002; 0x8000000000000080;
    0x000000000000800A; 0x800000008000000A; 0x8000000080008081;
    0x8000000000008080; 0x0000000080000001; 0x8000000080008008 ].

(** Rotation offsets, laid out like the state (index x + 5 y). *)
Definition ROT : list Z :=
  [  0;  1; 62; 28; 27;
    36; 44;  6; 55; 20;
     3; 10; 43; 25; 39;
    41; 45; 15; 21;  8;
    18;  2; 61; 56; 14 ].

Definition theta (A : list Z) : list Z :=
  let C := map (fun x => Z.lxor (Z.lxor (Z.lxor (Z.lxor (lane A x 0) (lane A x 1))
                                   (lane A x 2)) (lane A x 3)) (lane A x 4)) (seq 0 5) in
  let D := map (fun x => Z.lxor (nth ((x + 4) mod 5)%nat C 0)
                                (rol64 1 (nth ((x + 1) mod 5)%nat C 0))) (seq 0 5) in
  lanes (fun x y => Z.lxor (lane A x y) (nth x D 0)).

Definition rho_pi (A : list Z) : list Z :=
  lanes (fun x y => rol64 (lane ROT (x + 3 * y) x) (lane A (x + 3 * y) x)).

Definition chi (B : list Z) : list Z :=
  lanes (fun x y => Z.lxor (lane B x y)
                      (Z.land (Z.lxor (lane B (x + 1) y) mask64) (lane B (x + 2) y))).

Definition iota (rc : Z) (A : list Z) : list Z :=
  match A with
  | [] => []
  | a :: rest => Z.lxor a rc :: rest
  end.

Definition keccak_round (A : list Z) (rc : Z) : list Z :=
  iota rc (chi (rho_pi (theta A))).

Definition keccak_f (A : list Z) : list Z := fold_left keccak_round RC A.

(** Rate of Keccak-256 in bytes (1088 bits). *)
Definition rate : nat := 136.

(** Multi-rate padding pad10*1 with no domain suffix (first byte 0x01). *)
Definition pad (msg : bytes) : bytes :=
  let q := (rate - (length msg) mod rate)%nat in
  match q with
  | 1%nat => msg ++ [x81]
  | _ => msg ++ [x01] ++ repeat x00 (q - 2) ++ [x80]
  end.

(** The lanes a block is XORed into: 17 lanes of rate, zeros over the
    capacity. *)
Definition block_lanes (blk : bytes) : list Z :=
  let ls := map le_to_Z (chunks 17 8 blk) in
  ls ++ repeat 0 (25 - length ls).

Definition absorb (A : list Z) (blk : bytes) : list Z :=
  keccak_f (map (fun p => Z.lxor (fst p) (snd p)) (combine A (block_lanes blk))).

(** [Web3.keccak(primitive=data)]: the 32-byte Keccak-256 digest. *)
Definition keccak256 (msg : bytes) : bytes :=
  let m := pad msg in
  let A := fold_left absorb (chunks (length m) rate m) (repeat 0 25) in
  concat (map (le_bytes 8) (firstn 4 A)).

(** [Web3.keccak(text=s)] *)
Definition keccak_text (s : string) : bytes := keccak256 (utf8 s).

End Keccak.

(* ===================================================================== *)
(** ** Python exceptions and text helpers *)
(* ===================================================================== *)

Module Py.

(** The exception classes this program can meet. *)
Inductive exn : Set :=
  | Exception
  | OSError
  | FileNotFoundError
  | PermissionError
  | IsADirectoryError
  | ValueError
  | RuntimeError
  | IndexError
  | KeyError
  | EncodingError
  | ValueOutOfBounds.

#[global] Instance exn_eq_dec : EqDecision exn.
Proof. solve_decision. Defined.



(** [s[n:]] *)
Fixpoint slice_from (n : nat) (s : string) : string :=
  match n, s with
  | O, _ => s
  | S k, String _ rest => slice_from k rest
  | S _, EmptyString => EmptyString
  end.

(** [s[:n]] *)
Fixpoint slice_to (n : nat) (s : string) : string :=
  match n, s with
  | O, _ => EmptyString
  | S k, String c rest => String c (slice_to k rest)
  | S _, EmptyString => EmptyString
  end.

(** [s.replace(old, new)] for a non-empty [old]: left to right, matches do
    not overlap.  [skip] counts the characters of the current match still to
    be dropped. *)
Fixpoint replace_skip (old new : string) (skip : nat) (s : string) : string :=
  match s with
  | EmptyString => EmptyString
  | String c rest =>
      match skip with
      | S k => replace_skip old new k rest
      | O =>
          if String.prefix old s
          then new +:+ replace_skip old new (String.length old - 1) rest
          else String c (replace_skip old new 0 rest)
      end
  end.

Definition replace (old new s : string) : string := replace_skip old new 0 s.

(** [all(f(c) for c in s)] *)
Fixpoint all_chars (f : ascii -> bool) (s : string) : bool :=
  match s with
  | EmptyString => true
  | String c rest => f c && all_chars f rest
  end.

End Py.

(* ===================================================================== *)
(** ** Contract ABI encoding, as [eth_abi.abi.encode] computes it *)
(* ===================================================================== *)

Module ABI.
Import Hex.

Inductive abi_type : Set :=
  | T_uint (bits : Z)            (* uint<bits> *)
  | T_bytesN (n : nat)           (* bytes<n> *)
  | T_string                     (* string *)
  | T_array (elem : abi_type).   (* elem[] *)

#[local] Unset Elimination Schemes.
Inductive abi_value : Type :=
  | V_int (z : Z)
  | V_bytes (b : bytes)
  | V_str (s : string)
  | V_list (l : list abi_value).
#[local] Set Elimination Schemes.

Definition is_dynamic (t : abi_type) : bool :=
  match t with
  | T_uint _ | T_bytesN _ => false
  | T_string | T_array _ => true
  end.

Definition uint256 (z : Z) : bytes := be_bytes 32 z.

Definition zpad_right (n : nat) (b : bytes) : bytes := b ++ repeat x00 (n - length b).

Definition ceil32 (n : nat) : nat := (n + 31) / 32 * 32.

(** Head/tail layout of a sequence of encoded parts: a static part sits in
    the head, a dynamic part leaves its offset there and goes to the tail. *)
Definition head_length (parts : list (bool * bytes)) : nat :=
  fold_right (fun (p : bool * bytes) acc =>
                (if fst p then 32 else length (snd p)) + acc) 0 parts.

Fixpoint heads_tails (off : nat) (parts : list (bool * bytes)) : bytes * bytes :=
  match parts with
  | [] => ([] : bytes, [] : bytes)
  | (true, e) :: rest =>
      let '(h, t) := heads_tails (off + length e) rest in
      (uint256 (Z.of_nat off) ++ h, e ++ t)
  | (false, e) :: rest =>
      let '(h, t) := heads_tails off rest in
      (e ++ h, t)
  end.

Definition pack (parts : list (bool * bytes)) : bytes :=
  let '(h, t) := heads_tails (head_length parts) parts in h ++ t.

(** One value under its type; [None] is [ValueOutOfBounds] (or a value of
    the wrong Python type). A [bytes<n>] value may be shorter than [n]: it
    is padded with zeros on the right. *)
Fixpoint encode_value (t : abi_type) (v : abi_value) {struct v} : option bytes :=
  match t, v with
  | T_uint bits, V_int z =>
      if ((0 <=? z) && (z <? 2 ^ bits))%Z then Some (uint256 z) else None
  | T_bytesN n, V_bytes b =>
      if (length b <=? n)%nat then Some (zpad_right 32 b) else None
  | T_string, V_str s =>
      let b := utf8 s in
      Some (uint256 (Z.of_nat (length b)) ++ zpad_right (ceil32 (length b)) b)
  | T_array elem, V_list l =>
      let items :=
        (fix each (l : list abi_value) : option (list bytes) :=
           match l with
           | [] => Some []
           | x :: rest =>
               match encode_value elem x, each rest with
               | Some e, Some es => Some (e :: es)
               | _, _ => None
               end
           end) l in
      match items with
      | Some es =>
          Some (uint256 (Z.of_nat (length l)) ++ pack (map (pair (is_dynamic elem)) es))
      | None => None
      end
  | _, _ => None
  end.

(** The element loop of [encode_value] for an array, by itself. *)
Fixpoint encode_each (elem : abi_type) (l : list abi_value) : option (list bytes) :=
  match l with
  | [] => Some []
  | x :: rest =>
      match encode_value elem x, encode_each elem rest with
      | Some e, Some es => Some (e :: es)
      | _, _ => None
      end
  end.

Fixpoint encode_parts (ts : list abi_type) (vs : list abi_value)
  : option (list (bool * bytes)) :=
  match ts, vs with
  | [], [] => Some []
  | t :: ts', v :: vs' =>
      match encode_value t v, encode_parts ts' vs' with
      | Some e, Some ps => Some ((is_dynamic t, e) :: ps)
      | _, _ => None
      end
  | _, _ => None
  end.

(** [abi.encode(types, args)] *)
Definition encode (ts : list abi_type) (vs : list abi_value) : option bytes :=
  match encode_parts ts vs with
  | Some parts => Some (pack parts)
  | None => None
  end.

End ABI.

(* ===================================================================== *)
(** ** [src/ledger/ipfs_store.py]: class [LocalIPFS] *)
(* ===================================================================== *)

Module LocalIPFS.

(** The directory [self.root]: one regular file per entry, file name to
    contents.  [self.root / name] is the entry called [name]. *)
Abbreviation store := (gmap string bytes).

(** [LocalIPFS.add_bytes]: returns [(h, "ipfs://" + h)] and the directory
    afterwards; the file is written only when no entry [h] exists. *)
Definition add_bytes (data : bytes) (root : store) : (string * string) * store :=
  let h := SHA256.hexdigest data in
  let root' :=
    match root !! h with
    | None => <[h := data]> root       (* p.write_bytes(data) *)
    | Some _ => root                   (* p.exists() *)
    end in
  ((h, "ipfs://" +:+ h), root').

(** [LocalIPFS.get] on an argument whose key names an entry of the
    directory, as every digest does: [read_bytes] raises
    [FileNotFoundError] when the directory has no such entry.  For the
    other arguments see [get_path] below. *)
Definition get (cid : string) (root : store) : Py.exn + bytes :=
  let cid := Py.replace "ipfs://" "" cid in
  match root !! cid with
  | Some data => inr data
  | None => inl Py.FileNotFoundError
  end.

(** The keys for which [self.root / key] is the entry called [key]: one
    path component that is a file name (not empty, no '/', no NUL, not "."
    or "..", at most 255 bytes). *)
Definition plain_name (key : string) : bool :=
  negb (String.eqb key "") && negb (String.eqb key ".") && negb (String.eqb key "..")
  && Py.all_chars (fun c => negb (Ascii.eqb c "/") && negb (Ascii.eqb c "000")) key
  && (String.length key <=? 255)%nat.

(** [LocalIPFS.get] on any argument, on a POSIX file system.  [self.root / cid]
    is joined as a path and read:
    - a plain name is the entry of that name;
    - the empty key and "." are the directory itself, which cannot be read
      as a file: [IsADirectoryError];
    - any other key (with a '/', "..", a NUL, a name too long) leaves the
      flat directory: what [read_bytes] does then is up to the rest of the
      file system, [outside], which may answer bytes or raise. *)
Definition get_path (outside : string -> Py.exn + bytes) (cid : string) (root : store)
  : Py.exn + bytes :=
  let cid := Py.replace "ipfs://" "" cid in
  if plain_name cid then
    match root !! cid with
    | Some data => inr data
    | None => inl Py.FileNotFoundError
    end
  else if String.eqb cid "" || String.eqb cid "." then inl Py.IsADirectoryError
  else outside cid.

End LocalIPFS.

(* ===================================================================== *)
(** ** [src/cli/flvcs.py]: the [commit] command *)
(* ===================================================================== *)

Module CLI.
Import Py ABI.

Record Scores : Type := { accTimes1e4 : Z; lossTimes1e4 : Z }.

(** The dictionary [commit_input] handed to [addCommit]. *)
Record CommitInput : Type := {
  id : bytes;
  parents : list bytes;
  round : Z;
  clientsHash : bytes;
  hyperparamsHash : bytes;
  artifactHash : bytes;
  artifactURI : string;
  scores : Scores;
  aggregatorSig : bytes
}.

(** What the command acts on: the directory [./.ipfs_local] and the
    [addCommit] transactions sent to the ledger contract so far. *)
Record world : Type := {
  ipfs_local : gmap string bytes;
  ledger : list CommitInput
}.

(** [ctx.obj]: [w3_interface.account] is set when a private key was given. *)
Record context : Type := { has_account : bool }.

(** Commands run in a state and exception monad: an exception keeps the
    effects that happened before it. *)
Definition M (A : Type) : Type := world -> (exn + A) * world.

#[global] Instance M_ret : MRet M := fun A a w => (inr a, w).
#[global] Instance M_bind : MBind M := fun A B k m w =>
  match m w with
  | (inr a, w') => k a w'
  | (inl e, w') => (inl e, w')
  end.

Definition raise {A} (e : exn) : M A := fun w => (inl e, w).

(** A library call that either answers or raises [e]. *)
Definition try_ {A} (e : exn) (r : option A) : M A :=
  match r with
  | Some a => mret a
  | None => raise e
  end.

(** [ipfs = LocalIPFS(); ipfs.add_bytes(data)] *)
Definition ipfs_add_bytes (data : bytes) : M (string * string) := fun w =>
  let '(r, root') := LocalIPFS.add_bytes data (ipfs_local w) in
  (inr r, {| ipfs_local := root'; ledger := ledger w |}).

(** [Web3.to_bytes(hexstr=h)]: an optional 0x prefix is dropped, an odd
    number of digits gets a leading zero, then [binascii.unhexlify]. *)
Definition remove_0x_prefix (h : string) : string :=
  if String.prefix "0x" h || String.prefix "0X" h then slice_from 2 h else h.

Definition to_bytes_hexstr (h : string) : option bytes :=
  let digits := list_ascii_of_string (remove_0x_prefix h) in
  Hex.unhex_digits (if Nat.odd (length digits) then "0"%char :: digits else digits).

(** Lines 48-52: the parents given on the command line, or the placeholder
    parent of a root commit. *)
Definition parent_bytes_of (parents : list string) : option (list bytes) :=
  match parents with
  | [] => Some [repeat x00 32]
  | _ :: _ => mapM (fun p => Hex.fromhex (slice_from 2 p)) parents
  end.

(** The type list of line 57. *)
Definition commit_types : list abi_type :=
  [T_array (T_bytesN 32); T_uint 64; T_bytesN 32; T_bytesN 32; T_bytesN 32; T_string].

(** The value list of line 58. *)
Definition commit_values (parent_bytes : list bytes) (round : Z)
    (clients_hash hparams_hash artifact_hash : bytes) (artifact_uri : string)
  : list abi_value :=
  [V_list (map V_bytes parent_bytes); V_int round; V_bytes clients_hash;
   V_bytes hparams_hash; V_bytes artifact_hash; V_str artifact_uri].

(** [FLVCSWeb3.send(contracts.commit_ledger.functions.addCommit(commit_input))]:
    refused without an account, otherwise the transaction reaches the ledger. *)
Definition send_addCommit (ctx : context) (commit_input : CommitInput) : M unit := fun w =>
  if has_account ctx
  then (inr tt, {| ipfs_local := ipfs_local w; ledger := ledger w ++ [commit_input] |})
  else (inl RuntimeError, w).

(** The world once [ipfs.add_bytes(data)] has run. *)
Definition stored (data : bytes) (w : world) : world :=
  {| ipfs_local := snd (LocalIPFS.add_bytes data (ipfs_local w)); ledger := ledger w |}.

(** Lines 62-72: the dictionary [commit_input]. *)
Definition commit_input_of (commit_id : bytes) (parent_bytes : list bytes) (round : Z)
    (clients_hash hparams_hash artifact_hash : bytes) (artifact_uri : string)
  : CommitInput :=
  {| id := commit_id;
     parents := parent_bytes;
     round := round;
     clientsHash := clients_hash;
     hyperparamsHash := hparams_hash;
     artifactHash := artifact_hash;
     artifactURI := artifact_uri;
     scores := {| accTimes1e4 := 0; lossTimes1e4 := 0 |};
     aggregatorSig := [] |}.

(** [commit(ctx, artifact, round, parents)] from the artifact bytes on:
    [data] is the content of the artifact file, once read.  The console, the
    file read, web3's matching of the record against the ABI and the node
    are not part of this function: they can only make a run fail, and
    [send_addCommit] stands for a node that takes every transaction.
    [Client.commit] below is the command with all of them. *)
Definition commit (ctx : context) (data : bytes) (round : Z) (parents : list string)
  : M unit :=
  '(artifact_hash_str, artifact_uri) ← ipfs_add_bytes data;
  let clients_hash := Keccak.keccak_text "client1,client2" in
  let hparams_hash := Keccak.keccak_text "lr=0.01,bs=32" in
  parent_bytes ← try_ ValueError (parent_bytes_of parents);
  artifact_hash ← try_ ValueError (to_bytes_hexstr artifact_hash_str);
  encoded ← try_ ValueOutOfBounds
    (encode commit_types
       (commit_values parent_bytes round clients_hash hparams_hash
          artifact_hash artifact_uri));
  let commit_id := Keccak.keccak256 encoded in
  let commit_input :=
    commit_input_of commit_id parent_bytes round clients_hash hparams_hash
      artifact_hash artifact_uri in
  send_addCommit ctx commit_input.

(** The identifier line 55 computes from the six hashed fields. *)
Definition derive_id (parent_bytes : list bytes) (round : Z)
    (clients_hash hparams_hash artifact_hash : bytes) (artifact_uri : string)
  : option bytes :=
  Keccak.keccak256 <$>
    encode commit_types
      (commit_values parent_bytes round clients_hash hparams_hash
         artifact_hash artifact_uri).

(** The identifier that belongs to the six hashed fields of a record. *)
Definition id_of_fields (r : CommitInput) : option bytes :=
  derive_id (parents r) (round r) (clientsHash r) (hyperparamsHash r)
    (artifactHash r) (artifactURI r).

End CLI.

(* ===================================================================== *)
(** ** [scripts/deploy.py]: function [deploy] *)
(* ===================================================================== *)

Module Deploy.
Import Py.

(** One entry of a contract's ABI; only its ['name'] key is read. *)
Record abi_entry : Type := { entry_name : option string }.
Abbreviation abi := (list abi_entry).

Record account : Type := { acct_address : string }.
Record receipt : Type := { contractAddress : string }.

(** A [w3.eth.contract(...)] object. *)
Record contract : Type := {
  address : option string;
  contract_abi : abi;
  bytecode : option string
}.

Inductive transaction : Type :=
  (* contract.constructor( *args).transact({"from": sender}) *)
  | Construct (code : option string) (args : list string) (sender : string)
  (* registry.functions.set(key, addr).transact({'from': sender}) *)
  | RegistrySet (registry : option string) (key : bytes) (addr : string) (sender : string).

(** The calls that leave the process; each is answered or raises. *)
Inductive call : Type -> Type :=
  | from_key (pk : string) : call account
  | load_abi_bytecode (name : string) : call (abi * string)
  | transact (tx : transaction) : call string
  | wait_for_transaction_receipt (tx_hash : string) : call receipt.

Inductive event : Type :=
  | Called {T : Type} (c : call T) (r : exn + T)
  | Printed (line : string).

Abbreviation trace := (list event).

(** The node, the key store and the artifact files: how a call is answered
    after a given history. *)
Definition environment : Type := trace -> forall T : Type, call T -> exn + T.

(** How a statement ends: it falls through to the next one, it executes
    [return], or it raises. *)
Inductive outcome (R A : Type) : Type :=
  | Next (a : A)
  | Returned (r : R)
  | Raised (e : exn).
Arguments Next {R A} a.
Arguments Returned {R A} r.
Arguments Raised {R A} e.

Definition M (R A : Type) : Type := trace -> outcome R A * trace.

#[global] Instance M_ret {R} : MRet (M R) := fun A a t => (Next a, t).
#[global] Instance M_bind {R} : MBind (M R) := fun A B k m t =>
  match m t with
  | (Next a, t') => k a t'
  | (Returned r, t') => (Returned r, t')
  | (Raised e, t') => (Raised e, t')
  end.

Definition return_ {R A} (r : R) : M R A := fun t => (Returned r, t).
Definition raise {R A} (e : exn) : M R A := fun t => (Raised e, t).
Definition print {R} (line : string) : M R unit := fun t => (Next tt, t ++ [Printed line]).

Definition nl : string := String (ascii_of_nat 10) EmptyString.

(** The dictionary [deploy] returns, in insertion order. *)
Abbreviation addresses := (list (string * string)).

Section WithEnvironment.
Variable env : environment.

Definition invoke {R T} (c : call T) : M R T := fun t =>
  match env t T c with
  | inr v => (Next v, t ++ [Called c (inr v)])
  | inl e => (Raised e, t ++ [Called c (inl e)])
  end.

(** [w3.eth.contract(abi=a, bytecode=b)] *)
Definition contract_factory (a : abi) (b : string) : contract :=
  {| address := None; contract_abi := a; bytecode := Some b |}.

(** [w3.eth.contract(address=addr, abi=a)] *)
Definition contract_at (addr : string) (a : abi) : contract :=
  {| address := Some addr; contract_abi := a; bytecode := None |}.

Definition address_of (c : contract) : string := default "" (address c).

(** Lines 22-27: the first [send_tx], which prints the name it is given. *)
Definition send_tx {R} (acct : account) (contract_name : string) (c : contract)
    (constructor_args : list string) : M R contract :=
  tx_hash ← invoke (transact (Construct (bytecode c) constructor_args (acct_address acct)));
  rcpt ← invoke (wait_for_transaction_receipt tx_hash);
  _ ← print ("✅ " +:+ contract_name +:+ " deployed at: " +:+ contractAddress rcpt);
  mret (contract_at (contractAddress rcpt) (contract_abi c)).

(** Lines 70-74: the second [send_tx], which prints [contract.abi[0]['name']]. *)
Definition send_tx' {R} (acct : account) (c : contract)
    (constructor_args : list string) : M R contract :=
  tx_hash ← invoke (transact (Construct (bytecode c) constructor_args (acct_address acct)));
  rcpt ← invoke (wait_for_transaction_receipt tx_hash);
  name ← match contract_abi c with
         | [] => raise IndexError
         | e :: _ => match entry_name e with
                     | Some n => mret n
                     | None => raise KeyError
                     end
         end;
  _ ← print ("✅ " +:+ name +:+ " deployed at: " +:+ contractAddress rcpt);
  mret (contract_at (contractAddress rcpt) (contract_abi c)).

(** Lines 53-56 and 96-99: [register_contract]. *)
Definition register_contract {R} (acct : account) (registry : contract)
    (name addr : string) : M R unit :=
  tx_hash ← invoke (transact (RegistrySet (address registry) (Keccak.keccak_text name)
                                          addr (acct_address acct)));
  _ ← invoke (wait_for_transaction_receipt tx_hash);
  print ("Registered " +:+ name +:+ " -> " +:+ addr).

(** Lines 18-66: the statements up to and including the first [return]. *)
Definition first_body (pk : string) : M addresses unit :=
  acct ← invoke (from_key pk);
  _ ← print ("Deploying contracts from account: " +:+ acct_address acct);
  _ ← print (nl +:+ "--- Starting Deployment ---");
  '(reg_abi, reg_bin) ← invoke (load_abi_bytecode "Registry");
  registry ← send_tx acct "Registry" (contract_factory reg_abi reg_bin) [];
  '(pol_abi, pol_bin) ← invoke (load_abi_bytecode "PolicyRegistry");
  policy_registry ← send_tx acct "PolicyRegistry" (contract_factory pol_abi pol_bin) [];
  '(cl_abi, cl_bin) ← invoke (load_abi_bytecode "CommitLedger");
  commit_ledger ← send_tx acct "CommitLedger" (contract_factory cl_abi cl_bin) [];
  '(bm_abi, bm_bin) ← invoke (load_abi_bytecode "BranchManager");
  branch_manager ← send_tx acct "BranchManager" (contract_factory bm_abi bm_bin)
                     [address_of commit_ledger; address_of policy_registry];
  _ ← print (nl +:+ "--- Configuring Registry ---");
  _ ← register_contract acct registry "CommitLedger" (address_of commit_ledger);
  _ ← register_contract acct registry "BranchManager" (address_of branch_manager);
  _ ← register_contract acct registry "PolicyRegistry" (address_of policy_registry);
  _ ← print (nl +:+ "--- Deployment Complete ---");
  return_ [("REGISTRY_ADDRESS", address_of registry);
           ("DEPLOYER_ADDRESS", acct_address acct)].

(** Lines 67-109: the statements after the first [return]. *)
Definition second_body (pk : string) : M addresses unit :=
  acct ← invoke (from_key pk);
  _ ← print ("Deploying contracts from account: " +:+ acct_address acct);
  _ ← print (nl +:+ "--- Starting Deployment ---");
  '(reg_abi, reg_bin) ← invoke (load_abi_bytecode "Registry");
  registry ← send_tx' acct (contract_factory reg_abi reg_bin) [];
  '(pol_abi, pol_bin) ← invoke (load_abi_bytecode "PolicyRegistry");
  policy_registry ← send_tx' acct (contract_factory pol_abi pol_bin) [];
  '(cl_abi, cl_bin) ← invoke (load_abi_bytecode "CommitLedger");
  commit_ledger ← send_tx' acct (contract_factory cl_abi cl_bin) [];
  '(bm_abi, bm_bin) ← invoke (load_abi_bytecode "BranchManager");
  branch_manager ← send_tx' acct (contract_factory bm_abi bm_bin)
                     [address_of commit_ledger; address_of policy_registry];
  _ ← print (nl +:+ "--- Configuring Registry ---");
  _ ← register_contract acct registry "CommitLedger" (address_of commit_ledger);
  _ ← register_contract acct registry "BranchManager" (address_of branch_manager);
  _ ← register_contract acct registry "PolicyRegistry" (address_of policy_registry);
  _ ← print (nl +:+ "--- Deployment Complete ---");
  return_ [("REGISTRY_ADDRESS", address_of registry);
           ("DEPLOYER_ADDRESS", acct_address acct)].

(** [deploy(w3, pk)], lines 17-109: the whole body as the source has it. *)
Definition deploy (pk : string) : M addresses unit :=
  _ ← first_body pk; second_body pk.

(** The function cut after its first [return] (line 66). *)
Definition deploy_truncated (pk : string) : M addresses unit :=
  first_body pk.

End WithEnvironment.

(** The registry transactions of a history that went through, in order:
    (registry contract, name hash, registered address). *)
Fixpoint registrations (t : trace) : list (option string * bytes * string) :=
  match t with
  | [] => []
  | Called (transact (RegistrySet registry key addr _)) (inr _) :: rest =>
      (registry, key, addr) :: registrations rest
  | _ :: rest => registrations rest
  end.

(** What is known once a statement has run from the history [t]: [QN] if it
    fell through, [QR] if it returned; nothing is asked when it raised. *)
Definition triple {R A} (m : M R A) (t : trace)
    (QN : A -> trace -> Prop) (QR : R -> trace -> Prop) : Prop :=
  match m t with
  | (Next a, t') => QN a t'
  | (Returned r, t') => QR r t'
  | (Raised _, _) => True
  end.

(** A node that accepts every call, for running [deploy]: the hash of a
    transaction names what it does, a contract lives at its hash. *)
Definition accepting : environment := fun _ T c =>
  match c in call T return exn + T with
  | from_key pk => inr {| acct_address := "0xD" +:+ pk |}
  | load_abi_bytecode name =>
      inr ([{| entry_name := Some name |}], "code:" +:+ name)
  | transact (Construct code _ _) => inr ("tx:" +:+ default "" code)
  | transact (RegistrySet _ _ addr _) => inr ("set:" +:+ addr)
  | wait_for_transaction_receipt tx_hash => inr {| contractAddress := "@" +:+ tx_hash |}
  end.

(** A node on which the artifact of [missing] cannot be read. *)
Definition lacking (missing : string) : environment := fun t T c =>
  match c in call T return exn + T with
  | load_abi_bytecode name =>
      if String.eqb name missing then inl FileNotFoundError
      else accepting t _ (load_abi_bytecode name)
  | c' => accepting t _ c'
  end.

End Deploy.

(* ===================================================================== *)
(** ** [src/ledger/interfaces.py]: class [FLVCSWeb3]; the group [cli] and
       the branch commands of [src/cli/flvcs.py] *)
(* ===================================================================== *)

Module Client.
Import Py.

(** [int(addr, 16)] on the text of an address as web3 returns it: an
    optional 0x and hexadecimal digits, at least one; other text is
    [ValueError] ([None]). *)
Fixpoint hex_number (acc : Z) (cs : list ascii) : option Z :=
  match cs with
  | [] => Some acc
  | c :: rest =>
      match Hex.hex_val c with
      | Some v => hex_number (acc * 16 + Z.of_N v) rest
      | None => None
      end
  end.

Definition int16 (s : string) : option Z :=
  match list_ascii_of_string (CLI.remove_0x_prefix s) with
  | [] => None
  | c :: rest => hex_number 0 (c :: rest)
  end.

(** The call a contract function object stands for. *)
Inductive function_call : Type :=
  | fn_createBranch (name : string) (head parent : bytes)
  | fn_advance (name : string) (new_head : bytes)
  | fn_rollback (name : string) (to_commit : bytes)
  | fn_addCommit (commit_input : CLI.CommitInput).

(** The dictionary [send] builds and signs; what the node fills in (gas,
    chain id) is left out. *)
Record transaction : Type := {
  tx_to : Deploy.contract;
  tx_function : function_call;
  tx_from : string;
  tx_nonce : Z
}.

Record receipt : Type := { transactionHash : string }.

(** What leaves the process, or depends on files and on the contract ABI. *)
Inductive call : Type -> Type :=
  (* w3.eth.account.from_key(private_key) *)
  | from_key (pk : string) : call Deploy.account
  (* _load_abi(name): the "abi" of artifacts/contracts/FLLedger.sol/<name>.json *)
  | load_abi (name : string) : call Deploy.abi
  (* w3.to_checksum_address(address) *)
  | to_checksum_address (a : string) : call string
  (* registry.functions.get(key).call() *)
  | registry_get (registry : Deploy.contract) (key : bytes) : call string
  (* contract.functions.<name>: the function is looked up in the ABI *)
  | function_named (target : Deploy.contract) (name : string) : call unit
  (* contract.functions.<name>(args): the arguments are matched to the ABI *)
  | contract_function (target : Deploy.contract) (f : function_call) : call unit
  (* w3.eth.get_transaction_count(address) *)
  | get_transaction_count (a : string) : call Z
  (* tx_fn.build_transaction({...}) *)
  | build_transaction (tx : transaction) : call unit
  (* w3.eth.send_raw_transaction(account.sign_transaction(tx).rawTransaction) *)
  | send_raw_transaction (tx : transaction) : call string
  (* w3.eth.wait_for_transaction_receipt(tx_hash) *)
  | wait_for_transaction_receipt (tx_hash : string) : call receipt
  (* LocalIPFS(): self.root.mkdir(parents=True, exist_ok=True) *)
  | ipfs_mkdir : call unit
  (* console.print(text): rich renders the markup of the text and writes it *)
  | console_print (text : string) : call unit
  (* pathlib.Path(path).read_bytes() *)
  | read_bytes (path : string) : call bytes.

Inductive event : Type :=
  | Called {T : Type} (c : call T) (r : exn + T)
  | Printed (line : string).

Abbreviation trace := (list event).

Definition environment : Type := trace -> forall T : Type, call T -> exn + T.

(** How a command ends early: [exit(code)] or an exception. *)
Inductive failure : Type :=
  | SystemExit (code : Z)
  | Raise (e : exn).

Definition M (A : Type) : Type := trace -> (failure + A) * trace.

#[global] Instance M_ret : MRet M := fun A a t => (inr a, t).
#[global] Instance M_bind : MBind M := fun A B k m t =>
  match m t with
  | (inr a, t') => k a t'
  | (inl f, t') => (inl f, t')
  end.

Definition raise {A} (e : exn) : M A := fun t => (inl (Raise e), t).
Definition exit {A} (code : Z) : M A := fun t => (inl (SystemExit code), t).
Definition print (line : string) : M unit := fun t => (inr tt, t ++ [Printed line]).

Definition try_ {A} (e : exn) (r : option A) : M A :=
  match r with
  | Some a => mret a
  | None => raise e
  end.

(** [HexBytes.hex()] of the hexbytes releases web3 6 runs on (the client
    reads [signed.rawTransaction], which later releases do not have): the
    hexadecimal digits behind 0x.  The receipt's [transactionHash] is kept
    as this text. *)
Definition hexbytes_hex (b : bytes) : string := "0x" +:+ Hex.hex b.

(** The object [FLVCSWeb3]: [self.account] is [None] without a key. *)
Record FLVCSWeb3 : Type := { account : option Deploy.account }.

Record Contracts : Type := {
  registry : Deploy.contract;
  commit_ledger : Deploy.contract;
  branch_manager : Deploy.contract;
  policy_registry : Deploy.contract
}.

(** [ctx.obj] as [cli] fills it. *)
Record session : Type := {
  w3_interface : FLVCSWeb3;
  contracts : Contracts;
  pk : option string;
  rpc : string
}.

Section WithEnvironment.
Variable env : environment.

Definition invoke {T} (c : call T) : M T := fun t =>
  match env t T c with
  | inr v => (inr v, t ++ [Called c (inr v)])
  | inl e => (inl (Raise e), t ++ [Called c (inl e)])
  end.

(** [FLVCSWeb3.__init__], lines 18-22: a key that is [None] or empty sets
    no account. *)
Definition new_FLVCSWeb3 (rpc_url : string) (private_key : option string) : M FLVCSWeb3 :=
  match private_key with
  | None | Some EmptyString => mret {| account := None |}
  | Some key =>
      acct ← invoke (from_key key);
      mret {| account := Some acct |}
  end.

(** [FLVCSWeb3._contract], lines 30-32. *)
Definition _contract (address name : string) : M Deploy.contract :=
  abi ← invoke (load_abi name);
  a ← invoke (to_checksum_address address);
  mret (Deploy.contract_at a abi).

(** [get_addr], lines 36-41: the zero address means the name is missing. *)
Definition get_addr (registry : Deploy.contract) (name : string) : M string :=
  let key := Keccak.keccak_text name in
  addr ← invoke (registry_get registry key);
  n ← try_ ValueError (int16 addr);
  if (n =? 0)%Z then raise RuntimeError else mret addr.

(** [FLVCSWeb3.load_contracts], lines 34-46. *)
Definition load_contracts (registry_addr : string) : M Contracts :=
  registry ← _contract registry_addr "Registry";
  a ← get_addr registry "CommitLedger";
  commit_ledger ← _contract a "CommitLedger";
  a ← get_addr registry "BranchManager";
  branch_manager ← _contract a "BranchManager";
  a ← get_addr registry "PolicyRegistry";
  policy_registry ← _contract a "PolicyRegistry";
  mret {| registry := registry; commit_ledger := commit_ledger;
          branch_manager := branch_manager; policy_registry := policy_registry |}.

(** [FLVCSWeb3.send], lines 48-59, for a function [f] of the contract
    [target]. *)
Definition send (self : FLVCSWeb3) (target : Deploy.contract) (f : function_call)
  : M receipt :=
  match account self with
  | None => raise RuntimeError
  | Some acct =>
      nonce ← invoke (get_transaction_count (Deploy.acct_address acct));
      let tx := {| tx_to := target; tx_function := f;
                   tx_from := Deploy.acct_address acct; tx_nonce := nonce |} in
      _ ← invoke (build_transaction tx);
      tx_hash ← invoke (send_raw_transaction tx);
      invoke (wait_for_transaction_receipt tx_hash)
  end.

(** The group [cli] of flvcs.py, lines 17-25. *)
Definition cli (rpc : string) (pk registry : option string) : M session :=
  match registry with
  | None | Some EmptyString =>
      _ ← print "[bold red]Error:[/bold red] --registry address is required. Set FLVCS_REGISTRY env var.";
      exit 1
  | Some registry_addr =>
      w3 ← new_FLVCSWeb3 rpc pk;
      cs ← load_contracts registry_addr;
      mret {| w3_interface := w3; contracts := cs; pk := pk; rpc := rpc |}
  end.

(** [branch_create], lines 85-91; the line printed at the end is left out,
    here and in [advance] and [rollback]. *)
Definition branch_create (obj : session) (name head : string) : M unit :=
  _ ← invoke (function_named (branch_manager (contracts obj)) "createBranch");
  head_bytes ← try_ ValueError (CLI.to_bytes_hexstr head);
  let f := fn_createBranch name head_bytes (repeat x00 32) in
  _ ← invoke (contract_function (branch_manager (contracts obj)) f);
  _ ← send (w3_interface obj) (branch_manager (contracts obj)) f;
  mret tt.

(** [advance], lines 97-103. *)
Definition advance (obj : session) (name new_head : string) : M unit :=
  _ ← invoke (function_named (branch_manager (contracts obj)) "advance");
  head_bytes ← try_ ValueError (CLI.to_bytes_hexstr new_head);
  let f := fn_advance name head_bytes in
  _ ← invoke (contract_function (branch_manager (contracts obj)) f);
  _ ← send (w3_interface obj) (branch_manager (contracts obj)) f;
  mret tt.

(** [rollback], lines 109-115. *)
Definition rollback (obj : session) (name to_commit : string) : M unit :=
  _ ← invoke (function_named (branch_manager (contracts obj)) "rollback");
  head_bytes ← try_ ValueError (CLI.to_bytes_hexstr to_commit);
  let f := fn_rollback name head_bytes in
  _ ← invoke (contract_function (branch_manager (contracts obj)) f);
  _ ← send (w3_interface obj) (branch_manager (contracts obj)) f;
  mret tt.

(** [commit], lines 36-39: the store object is made, the first line is
    printed with the path of the artifact inside the markup, the artifact
    file is read. *)
Definition read_artifact (artifact : string) : M bytes :=
  _ ← invoke ipfs_mkdir;
  _ ← invoke (console_print ("Reading artifact from [cyan]" +:+ artifact +:+ "[/cyan]..."));
  invoke (read_bytes artifact).

(** [commit], lines 41-78, once [ipfs.add_bytes(data)] has returned
    [(artifact_hash_str, artifact_uri)]. *)
Definition submit (obj : session) (artifact_hash_str artifact_uri : string)
    (round : Z) (parents : list string) : M unit :=
  _ ← invoke (console_print
       ("Stored artifact. Hash: [green]" +:+ slice_to 12 artifact_hash_str
        +:+ "[/green], URI: [yellow]" +:+ artifact_uri +:+ "[/yellow]"));
  let clients_hash := Keccak.keccak_text "client1,client2" in
  let hparams_hash := Keccak.keccak_text "lr=0.01,bs=32" in
  parent_bytes ← try_ ValueError (CLI.parent_bytes_of parents);
  artifact_hash ← try_ ValueError (CLI.to_bytes_hexstr artifact_hash_str);
  encoded ← try_ ValueOutOfBounds
    (ABI.encode CLI.commit_types
       (CLI.commit_values parent_bytes round clients_hash hparams_hash
          artifact_hash artifact_uri));
  let commit_id := Keccak.keccak256 encoded in
  let commit_input :=
    CLI.commit_input_of commit_id parent_bytes round clients_hash hparams_hash
      artifact_hash artifact_uri in
  _ ← invoke (console_print
       ("Submitting commit to ledger. ID: [green]" +:+ hexbytes_hex commit_id
        +:+ "[/green]"));
  _ ← invoke (function_named (commit_ledger (contracts obj)) "addCommit");
  _ ← invoke (contract_function (commit_ledger (contracts obj)) (fn_addCommit commit_input));
  receipt ← send (w3_interface obj) (commit_ledger (contracts obj)) (fn_addCommit commit_input);
  _ ← invoke (console_print
       ("✅ Commit added. Tx: [bold blue]" +:+ transactionHash receipt
        +:+ "[/bold blue]"));
  _ ← invoke (console_print
       ("New commit ID: [bold green]" +:+ hexbytes_hex commit_id +:+ "[/bold green]"));
  mret tt.

(** The command [commit], lines 32-78, run on the directory [root] of the
    store: an exception keeps what was stored and sent before it. *)
Definition commit (obj : session) (artifact : string) (round : Z) (parents : list string)
    (root : gmap string bytes) (t : trace)
  : ((failure + unit) * gmap string bytes) * trace :=
  match read_artifact artifact t with
  | (inl f, t') => ((inl f, root), t')
  | (inr data, t') =>
      let '((artifact_hash_str, artifact_uri), root') := LocalIPFS.add_bytes data root in
      let '(out, t'') := submit obj artifact_hash_str artifact_uri round parents t' in
      ((out, root'), t'')
  end.

End WithEnvironment.

(** The registry look-ups of a history that were answered: (key, answer). *)
Fixpoint queries (t : trace) : list (bytes * string) :=
  match t with
  | [] => []
  | Called (registry_get _ key) (inr addr) :: rest => (key, addr) :: queries rest
  | _ :: rest => queries rest
  end.

(** The transactions of a history that the node took. *)
Fixpoint sent (t : trace) : list transaction :=
  match t with
  | [] => []
  | Called (send_raw_transaction tx) (inr _) :: rest => tx :: sent rest
  | _ :: rest => sent rest
  end.

(** The records handed to [functions.addCommit] in a history, whether web3
    and the node took them or not. *)
Fixpoint drafts (t : trace) : list CLI.CommitInput :=
  match t with
  | [] => []
  | Called (contract_function _ (fn_addCommit r)) _ :: rest => r :: drafts rest
  | _ :: rest => drafts rest
  end.

(** The contents of the artifact files read in a history. *)
Fixpoint reads (t : trace) : list bytes :=
  match t with
  | [] => []
  | Called (read_bytes _) (inr data) :: rest => data :: reads rest
  | _ :: rest => reads rest
  end.

(** The calls of a history, answered or not. *)
Fixpoint calls (t : trace) : nat :=
  match t with
  | [] => 0
  | Called _ _ :: rest => S (calls rest)
  | Printed _ :: rest => calls rest
  end.

(** What [commit] reads of a session: whether a key was set. *)
Definition context_of (obj : session) : CLI.context :=
  {| CLI.has_account := bool_decide (account (w3_interface obj) <> None) |}.

(** A node and registry that answer every call; the registry maps a key to
    the address [answer key]. *)
Definition answering (answer : bytes -> string) : environment := fun _ T c =>
  match c in call T return exn + T with
  | from_key k => inr {| Deploy.acct_address := "0xD" +:+ k |}
  | load_abi name => inr [{| Deploy.entry_name := Some name |}]
  | to_checksum_address a => inr a
  | registry_get _ key => inr (answer key)
  | function_named _ _ => inr tt
  | contract_function _ _ => inr tt
  | get_transaction_count _ => inr 7%Z
  | build_transaction _ => inr tt
  | send_raw_transaction tx => inr "0xhash"
  | wait_for_transaction_receipt h => inr {| transactionHash := h |}
  | ipfs_mkdir => inr tt
  | console_print _ => inr tt
  | read_bytes _ => inr []
  end.

(** A session on four contracts at fixed addresses; the account is that of
    the key, when one is given. *)
Definition session_at (key : option string) : session :=
  {| w3_interface :=
       {| account := (fun k => {| Deploy.acct_address := "0xD" +:+ k |}) <$> key |};
     contracts := {| registry := Deploy.contract_at "0xa0" [];
                     commit_ledger := Deploy.contract_at "0xa1" [];
                     branch_manager := Deploy.contract_at "0xa2" [];
                     policy_registry := Deploy.contract_at "0xa3" [] |};
     pk := key;
     rpc := "http://127.0.0.1:8545" |}.

(** The environment [env] with a console that refuses every line, as rich
    refuses a line whose markup closes a tag that was never opened. *)
Definition refusing_console (env : environment) : environment := fun t T c =>
  match c in call T return (exn + T) -> exn + T with
  | console_print _ => fun _ => inl Exception
  | _ => fun answer => answer
  end (env t T c).

(** The environment [env] with a web3 that takes no record whose parents
    are not all 32 bytes long, as web3 matches [bytes32[]] strictly. *)
Definition strict_bytes32 (env : environment) : environment := fun t T c =>
  match c in call T return (exn + T) -> exn + T with
  | contract_function _ (fn_addCommit r) => fun answer =>
      if forallb (fun b : bytes => (length b =? 32)%nat) (CLI.parents r)
      then answer else inl Exception
  | _ => fun answer => answer
  end (env t T c).

(** The environment [env] with the file [data] behind every path read. *)
Definition with_file (data : bytes) (env : environment) : environment := fun t T c =>
  match c in call T return (exn + T) -> exn + T with
  | read_bytes _ => fun _ => inr data
  | _ => fun answer => answer
  end (env t T c).

End Client.

(** The transactions of a deployment history that the node took, in order. *)
Fixpoint deploy_transactions (t : Deploy.trace) : list Deploy.transaction :=
  match t with
  | [] => []
  | Deploy.Called (Deploy.transact tx) (inr _) :: rest => tx :: deploy_transactions rest
  | _ :: rest => deploy_transactions rest
  end.

(** The calls of a deployment history, answered or not, without the lines
    printed. *)
Fixpoint deploy_calls (t : Deploy.trace) : Deploy.trace :=
  match t with
  | [] => []
  | Deploy.Called c r :: rest => Deploy.Called c r :: deploy_calls rest
  | Deploy.Printed _ :: rest => deploy_calls rest
  end.

(** The ["from"] of a transaction. *)
Definition tx_sender (tx : Deploy.transaction) : string :=
  match tx with
  | Deploy.Construct _ _ sender => sender
  | Deploy.RegistrySet _ _ _ sender => sender
  end.

(** The content-addressing invariant of a store directory: every entry is
    named by the SHA-256 of its contents. *)
Definition content_addressed (root : gmap string bytes) : Prop :=
  forall name data, root !! name = Some data -> name = SHA256.hexdigest data.

(* ===================================================================== *)
(** * Properties *)
(* ===================================================================== *)

(** ** Test vectors of the hash functions *)

Example sha256_constants :
  nth 0 SHA256.K 0%Z = 0x428a2f98%Z /\ nth 63 SHA256.K 0%Z = 0xc67178f2%Z
  /\ nth 0 SHA256.H0 0%Z = 0x6a09e667%Z /\ nth 7 SHA256.H0 0%Z = 0x5be0cd19%Z
  /\ length SHA256.K = 64 /\ length SHA256.H0 = 8.
Proof. vm_compute. repeat split. Qed.

Example sha256_abc :
  SHA256.hexdigest (Hex.utf8 "abc")
  = "ba7816bf8f01cfea414140de5dae2223b00361a396177a9cb410ff61f20015ad".
Proof. vm_compute. reflexivity. Qed.

Example sha256_two_blocks :
  SHA256.hexdigest (repeat "a"%byte 200)
  = "c2a908d98f5df987ade41b5fce213067efbcc21ef2240212a41e54b5e7c28ae5".
Proof. vm_compute. reflexivity. Qed.

Example keccak256_empty :
  Hex.hex (Keccak.keccak256 [])
  = "c5d2460186f7233c927e7db2dcc703c0e500b653ca82273b7bfad8045d85a470".
Proof. vm_compute. reflexivity. Qed.

Example keccak256_abc :
  Hex.hex (Keccak.keccak_text "abc")
  = "4e03657aea45a94fc7d47ba826c8d667c0d1e6e33a64a036ec44f58fa12d6c45".
Proof. vm_compute. reflexivity. Qed.

Example keccak256_full_rate_block :
  Hex.hex (Keccak.keccak256 (repeat "a"%byte 136))
  = "a6c4d403279fe3e0af03729caada8374b5ca54d8065329a3ebcaeb4b60aa386e".
Proof. vm_compute. reflexivity. Qed.

(** ** Hexadecimal text *)

Section HexFacts.
Import Hex.

Lemma hex_of_byte_digits (b : byte) :
  hex_val (hex_digit (Byte.to_N b / 16)) = Some (Byte.to_N b / 16)%N
  /\ hex_val (hex_digit (Byte.to_N b mod 16)) = Some (Byte.to_N b mod 16)%N
  /\ byte_of_nibbles (Byte.to_N b / 16) (Byte.to_N b mod 16) = b.
Proof. destruct b; vm_compute; auto. Qed.

Lemma hex_of_byte_lower (b : byte) :
  is_hex_lower (hex_digit (Byte.to_N b / 16)) = true
  /\ is_hex_lower (hex_digit (Byte.to_N b mod 16)) = true.
Proof. destruct b; vm_compute; auto. Qed.

Lemma hex_cons (b : byte) (bs : bytes) :
  hex (b :: bs)
  = String (hex_digit (Byte.to_N b / 16))
      (String (hex_digit (Byte.to_N b mod 16)) (hex bs)).
Proof. reflexivity. Qed.

(** Every character of [hex bs] is a lowercase hexadecimal digit. *)
Lemma hex_all_lower (bs : bytes) : Py.all_chars is_hex_lower (hex bs) = true.
Proof.
  induction bs as [|b bs IH]; [reflexivity|].
  rewrite hex_cons. cbn [Py.all_chars].
  destruct (hex_of_byte_lower b) as [-> ->]. exact IH.
Qed.

Lemma hex_chars (bs : bytes) :
  list_ascii_of_string (hex bs) = concat (map hex_of_byte bs).
Proof. unfold hex. apply list_ascii_of_string_of_list_ascii. Qed.

Lemma unhex_hex_chars (bs : bytes) :
  unhex_digits (concat (map hex_of_byte bs)) = Some bs.
Proof.
  induction bs as [|b bs IH]; [reflexivity|].
  cbn [map concat hex_of_byte app unhex_digits].
  destruct (hex_of_byte_digits b) as (-> & -> & ->).
  rewrite IH. reflexivity.
Qed.

Lemma hex_chars_even (bs : bytes) :
  Nat.odd (length (concat (map hex_of_byte bs))) = false.
Proof.
  induction bs as [|b bs IH]; [reflexivity|].
  cbn [map concat hex_of_byte app length]. exact IH.
Qed.

Lemma be_bytes_length (n : nat) (z : Z) : length (be_bytes n z) = n.
Proof.
  revert z; induction n as [|n IH]; intros z; [reflexivity|].
  cbn [be_bytes]. rewrite length_app, IH. cbn. lia.
Qed.

Lemma le_bytes_length (n : nat) (z : Z) : length (le_bytes n z) = n.
Proof.
  revert z; induction n as [|n IH]; intros z; [reflexivity|].
  cbn [le_bytes length]. now rewrite IH.
Qed.

End HexFacts.

(** ** [str.replace] *)

Section ReplaceFacts.
Import Py.

Lemma prefix_append (old s : string) : String.prefix old (old +:+ s) = true.
Proof.
  induction old as [|c old IH]; [destruct s; reflexivity|].
  change (String c old +:+ s) with (String c (old +:+ s)).
  cbn [String.prefix]. destruct (ascii_dec c c); [exact IH | congruence].
Qed.

(** While a match is being dropped, its characters are skipped. *)
Lemma replace_skip_drop (old new m s : string) :
  replace_skip old new (String.length m) (m +:+ s) = replace_skip old new 0 s.
Proof.
  induction m as [|c m IH]; [reflexivity|].
  change (String c m +:+ s) with (String c (m +:+ s)).
  cbn [String.length replace_skip]. exact IH.
Qed.

(** A leading occurrence of [old] is replaced and the scan goes on behind it. *)
Lemma replace_prefix (c : ascii) (old new s : string) :
  replace (String c old) new (String c old +:+ s) = new +:+ replace (String c old) new s.
Proof.
  unfold replace.
  change (String c old +:+ s) with (String c (old +:+ s)).
  cbn [replace_skip].
  change (String c (old +:+ s)) with (String c old +:+ s).
  rewrite prefix_append.
  replace (String.length (String c old) - 1) with (String.length old)
    by (cbn [String.length]; lia).
  now rewrite replace_skip_drop.
Qed.

(** A text that never shows the first character of [old] is left as it is. *)
Lemma replace_absent (c : ascii) (old new s : string) :
  all_chars (fun a => negb (Ascii.eqb c a)) s = true ->
  replace (String c old) new s = s.
Proof.
  unfold replace. induction s as [|a s IH]; [reflexivity|].
  cbn [all_chars replace_skip String.prefix]. intros H.
  apply andb_prop in H as [Ha Hs].
  destruct (ascii_dec c a) as [->|_].
  - rewrite Ascii.eqb_refl in Ha. discriminate.
  - f_equal. exact (IH Hs).
Qed.

Lemma all_chars_impl (f g : ascii -> bool) (s : string) :
  (forall a, f a = true -> g a = true) ->
  all_chars f s = true -> all_chars g s = true.
Proof.
  intros Hfg. induction s as [|a s IH]; [reflexivity|].
  cbn. intros H. apply andb_prop in H as [Ha Hs].
  rewrite (Hfg _ Ha), (IH Hs). reflexivity.
Qed.

Lemma hex_lower_not_i (a : ascii) :
  Hex.is_hex_lower a = true -> negb (Ascii.eqb "i" a) = true.
Proof.
  destruct (Ascii.eqb_spec "i"%char a) as [<-|]; [vm_compute; discriminate | reflexivity].
Qed.

(** A hexadecimal digest holds no scheme prefix: [replace] returns it whole. *)
Lemma replace_hex (bs : bytes) :
  replace "ipfs://" "" (Hex.hex bs) = Hex.hex bs.
Proof.
  apply replace_absent.
  exact (all_chars_impl _ _ _ hex_lower_not_i (hex_all_lower bs)).
Qed.

End ReplaceFacts.

(** ** The content store *)

Section StoreFacts.
Import LocalIPFS.
Implicit Types (p q : bytes) (root : gmap string bytes) (cid : string).

Lemma add_bytes_result p root :
  (add_bytes p root).1 = (SHA256.hexdigest p, "ipfs://" +:+ SHA256.hexdigest p).
Proof. reflexivity. Qed.

(** After [add_bytes] the entry of the digest holds what was there before,
    or [p] when nothing was. *)
Lemma add_bytes_lookup p root :
  (add_bytes p root).2 !! SHA256.hexdigest p
  = Some (default p (root !! SHA256.hexdigest p)).
Proof.
  unfold add_bytes; cbn [snd].
  destruct (root !! SHA256.hexdigest p) as [q|] eqn:E; cbn [default from_option id].
  - exact E.
  - apply lookup_insert_eq.
Qed.

(** Entries under other names are not touched. *)
Lemma add_bytes_lookup_ne p root (name : string) :
  name ≠ SHA256.hexdigest p -> (add_bytes p root).2 !! name = root !! name.
Proof.
  intros Hne. unfold add_bytes; cbn [snd].
  destruct (root !! SHA256.hexdigest p); [reflexivity|].
  now apply lookup_insert_ne.
Qed.

Lemma add_bytes_present p root q :
  root !! SHA256.hexdigest p = Some q -> (add_bytes p root).2 = root.
Proof. intros E. unfold add_bytes; cbn [snd]. now rewrite E. Qed.

(** [get] looks the argument up once every "ipfs://" is taken out of it. *)
Lemma get_lookup cid root :
  get cid root
  = match root !! Py.replace "ipfs://" "" cid with
    | Some data => inr data
    | None => inl Py.FileNotFoundError
    end.
Proof. reflexivity. Qed.

Lemma get_digest (bs : bytes) root :
  get (Hex.hex bs) root
  = match root !! Hex.hex bs with
    | Some data => inr data
    | None => inl Py.FileNotFoundError
    end.
Proof. rewrite get_lookup, replace_hex. reflexivity. Qed.

Lemma get_strips_scheme cid root : get ("ipfs://" +:+ cid) root = get cid root.
Proof.
  rewrite !get_lookup.
  rewrite (replace_prefix "i" "pfs://" "" cid). reflexivity.
Qed.

Lemma hex_length (bs : bytes) : String.length (Hex.hex bs) = 2 * length bs.
Proof.
  induction bs as [|b bs IH]; [reflexivity|].
  rewrite hex_cons. cbn [String.length length]. rewrite IH. lia.
Qed.

Lemma hex_lower_in_name (a : ascii) :
  Hex.is_hex_lower a = true ->
  negb (Ascii.eqb a "/") && negb (Ascii.eqb a "000") = true.
Proof.
  destruct (Ascii.eqb_spec a "/"%char) as [->|];
    [vm_compute; discriminate|].
  destruct (Ascii.eqb_spec a "000"%char) as [->|];
    [vm_compute; discriminate|].
  reflexivity.
Qed.

Lemma hex_lower_not_dot (a : ascii) :
  Hex.is_hex_lower a = true -> Ascii.eqb a "." = false.
Proof.
  destruct (Ascii.eqb_spec a "."%char) as [->|]; [vm_compute; discriminate | reflexivity].
Qed.

(** The hexadecimal text of 1 to 127 bytes is a plain file name. *)
Lemma plain_name_hex (bs : bytes) :
  0 < length bs <= 127 -> plain_name (Hex.hex bs) = true.
Proof.
  intros Hlen. unfold plain_name.
  rewrite (all_chars_impl _ _ _ hex_lower_in_name (hex_all_lower bs)).
  assert ((String.length (Hex.hex bs) <=? 255)%nat = true) as ->
    by (apply Nat.leb_le; rewrite hex_length; lia).
  destruct bs as [|b bs]; [cbn [length] in Hlen; lia|].
  rewrite hex_cons. destruct (hex_of_byte_lower b) as [Hhi _].
  cbn [String.eqb]. rewrite (hex_lower_not_dot _ Hhi). reflexivity.
Qed.

Lemma filter_key_singleton root (k : string) (v : bytes) :
  root !! k = Some v ->
  filter (fun kv : string * bytes => kv.1 = k) root = {[ k := v ]}.
Proof.
  intros Hk. apply map_eq. intros i.
  destruct (decide (i = k)) as [->|Hne].
  - rewrite lookup_singleton_eq. apply map_lookup_filter_Some. split; [exact Hk | reflexivity].
  - rewrite lookup_singleton_ne by congruence.
    apply map_lookup_filter_None. right. intros x _ Hx. cbn in Hx. congruence.
Qed.

(** C2: [add_bytes] returns the lowercase hexadecimal SHA-256 digest of the
    payload and the text "ipfs://" followed by that digest, whatever the
    directory holds; for the payload b"hello" these are
    2cf24dba5fb0a30e26e83b2ac5b9e29e1b161e5c1fa7425e73043362938b9824 and
    ipfs://2cf24dba5fb0a30e26e83b2ac5b9e29e1b161e5c1fa7425e73043362938b9824. *)
Theorem add_bytes_content_address :
  (forall p root,
      (add_bytes p root).1
      = (Hex.hex (SHA256.digest p), "ipfs://" +:+ Hex.hex (SHA256.digest p))
      /\ Py.all_chars Hex.is_hex_lower (add_bytes p root).1.1 = true)
  /\ (forall root,
        (add_bytes (Hex.utf8 "hello") root).1
        = ("2cf24dba5fb0a30e26e83b2ac5b9e29e1b161e5c1fa7425e73043362938b9824",
           "ipfs://2cf24dba5fb0a30e26e83b2ac5b9e29e1b161e5c1fa7425e73043362938b9824")).
Proof.
  split.
  - intros p root. split; [reflexivity|].
    rewrite add_bytes_result. cbn [fst]. apply hex_all_lower.
  - intros root. rewrite add_bytes_result.
    assert (SHA256.hexdigest (Hex.utf8 "hello")
            = "2cf24dba5fb0a30e26e83b2ac5b9e29e1b161e5c1fa7425e73043362938b9824") as ->
      by (vm_compute; reflexivity).
    reflexivity.
Qed.

(** C3, as stated, fails: when the directory already holds other bytes under
    the digest of b"hello" (a stale or truncated earlier write), [add_bytes]
    skips the write and [get] returns those other bytes. *)
Lemma roundtrip_counterexample :
  let p := Hex.utf8 "hello" in
  let root : gmap string bytes :=
    {[ "2cf24dba5fb0a30e26e83b2ac5b9e29e1b161e5c1fa7425e73043362938b9824"
       := Hex.utf8 "hell" ]} in
  get (add_bytes p root).1.2 (add_bytes p root).2 = inr (Hex.utf8 "hell")
  /\ get (add_bytes p root).1.2 (add_bytes p root).2 <> inr p.
Proof.
  assert (E : let p := Hex.utf8 "hello" in
              let root : gmap string bytes :=
                {[ "2cf24dba5fb0a30e26e83b2ac5b9e29e1b161e5c1fa7425e73043362938b9824"
                   := Hex.utf8 "hell" ]} in
              get (add_bytes p root).1.2 (add_bytes p root).2 = inr (Hex.utf8 "hell"))
    by (vm_compute; reflexivity).
  cbv zeta in *. split; [exact E|]. rewrite E. discriminate.
Qed.

(** C3, amended: [get] of the address [add_bytes] returned always answers
    with bytes: the payload when the directory had no entry under the
    payload's digest, and otherwise the bytes that entry already held.  So
    it gives back exactly the payload if and only if, before the call, the
    directory had no entry under the digest or that entry already held the
    payload; when other bytes [q] were stored under the digest, [get]
    returns [q]. *)
Theorem roundtrip_iff p root :
  let uri := (add_bytes p root).1.2 in
  let root' := (add_bytes p root).2 in
  get uri root'
  = inr (match root !! SHA256.hexdigest p with Some q => q | None => p end)
  /\ (forall q, root !! SHA256.hexdigest p = Some q -> get uri root' = inr q)
  /\ (get uri root' = inr p
      <-> (root !! SHA256.hexdigest p = None \/ root !! SHA256.hexdigest p = Some p)).
Proof.
  cbv zeta.
  assert (E : get (add_bytes p root).1.2 (add_bytes p root).2
              = inr (match root !! SHA256.hexdigest p with Some q => q | None => p end)).
  { rewrite add_bytes_result. cbn [snd].
    rewrite get_strips_scheme. unfold SHA256.hexdigest at 1 2.
    rewrite get_digest. fold (SHA256.hexdigest p).
    rewrite add_bytes_lookup.
    destruct (root !! SHA256.hexdigest p) as [q|]; reflexivity. }
  split; [exact E|]. rewrite E. split.
  - intros q ->. reflexivity.
  - destruct (root !! SHA256.hexdigest p) as [q|].
    + split.
      * intros H. right. congruence.
      * intros [H|H]; congruence.
    + split; auto.
Qed.

Lemma roundtrip_fresh_witness :
  get (add_bytes (Hex.utf8 "hello") ∅).1.2 (add_bytes (Hex.utf8 "hello") ∅).2
  = inr (Hex.utf8 "hello").
Proof.
  apply (proj2 (proj2 (proj2 (roundtrip_iff (Hex.utf8 "hello") ∅)))).
  left. apply lookup_empty.
Defined.

(** C4: a second [add_bytes] of the same payload returns the same pair,
    leaves the directory as the first call left it, with exactly one entry
    under the payload's digest; whatever bytes that entry held before the
    calls are still there, equal to the payload or not. *)
Theorem add_bytes_idempotent p root :
  let first := add_bytes p root in
  let second := add_bytes p first.2 in
  second.1 = first.1
  /\ second.2 = first.2
  /\ size (filter (fun kv : string * bytes => kv.1 = SHA256.hexdigest p) second.2) = 1
  /\ (forall q, root !! SHA256.hexdigest p = Some q ->
                first.2 !! SHA256.hexdigest p = Some q
                /\ second.2 !! SHA256.hexdigest p = Some q).
Proof.
  cbv zeta.
  pose proof (add_bytes_lookup p root) as Hfirst.
  assert (Hsame : (add_bytes p (add_bytes p root).2).2 = (add_bytes p root).2)
    by exact (add_bytes_present _ _ _ Hfirst).
  split; [reflexivity|]. split; [exact Hsame|]. split.
  - rewrite Hsame, (filter_key_singleton _ _ _ Hfirst). apply map_size_singleton.
  - intros q Hq. rewrite Hsame, Hfirst, Hq. now split.
Qed.

(** C7: [get] takes the digest bare or behind "ipfs://": the prefix is taken
    off whatever follows it, and for a stored payload both forms of its
    digest return the same stored bytes. *)
Theorem get_accepts_digest_or_uri :
  (forall cid root, get ("ipfs://" +:+ cid) root = get cid root)
  /\ (forall p root,
        let d := (add_bytes p root).1.1 in
        let root' := (add_bytes p root).2 in
        (add_bytes p root).1.2 = "ipfs://" +:+ d
        /\ exists data, root' !! d = Some data
                        /\ get d root' = inr data
                        /\ get ("ipfs://" +:+ d) root' = inr data).
Proof.
  split; [exact get_strips_scheme|].
  intros p root. cbv zeta. rewrite add_bytes_result. cbn [fst snd].
  split; [reflexivity|].
  exists (default p (root !! SHA256.hexdigest p)).
  pose proof (add_bytes_lookup p root) as Hl.
  split; [exact Hl|].
  rewrite get_strips_scheme. unfold SHA256.hexdigest at 1 3.
  rewrite get_digest. fold (SHA256.hexdigest p). rewrite Hl. now split.
Qed.

End StoreFacts.

(** ** Lengths of the digests *)

Section DigestFacts.

Lemma fold_left_preserves {A B} (P : A -> Prop) (f : A -> B -> A) (l : list B) (a : A) :
  (forall a b, P a -> P (f a b)) -> P a -> P (fold_left f l a).
Proof.
  intros Hf. revert a. induction l as [|b l IH]; intros a Ha; [exact Ha|].
  cbn. apply IH, Hf, Ha.
Qed.

Lemma concat_be_bytes_length (n : nat) (h : list Z) :
  length (concat (map (Hex.be_bytes n) h)) = n * length h.
Proof.
  induction h as [|z h IH]; cbn [map concat length]; [lia|].
  rewrite length_app, be_bytes_length, IH. lia.
Qed.

Lemma concat_le_bytes_length (n : nat) (h : list Z) :
  length (concat (map (Hex.le_bytes n) h)) = n * length h.
Proof.
  induction h as [|z h IH]; cbn [map concat length]; [lia|].
  rewrite length_app, le_bytes_length, IH. lia.
Qed.

Lemma compress_length (h : list Z) (blk : bytes) :
  length h = 8 -> length (SHA256.compress h blk) = 8.
Proof.
  intros Hh. unfold SHA256.compress, SHA256.list_of.
  rewrite length_map, length_combine, Hh. reflexivity.
Qed.

(** A SHA-256 digest is 32 bytes long. *)
Lemma sha256_digest_length (msg : bytes) : length (SHA256.digest msg) = 32.
Proof.
  unfold SHA256.digest. rewrite concat_be_bytes_length.
  rewrite (fold_left_preserves (fun h => length h = 8) SHA256.compress);
    [reflexivity | intros; now apply compress_length | reflexivity].
Qed.

Lemma lanes_length (f : nat -> nat -> Z) : length (Keccak.lanes f) = 25.
Proof. unfold Keccak.lanes. now rewrite length_map, length_seq. Qed.

Lemma keccak_round_length (A : list Z) (rc : Z) :
  length (Keccak.keccak_round A rc) = 25.
Proof.
  unfold Keccak.keccak_round, Keccak.chi.
  pose proof (lanes_length (fun x y =>
    Z.lxor (Keccak.lane (Keccak.rho_pi (Keccak.theta A)) x y)
      (Z.land (Z.lxor (Keccak.lane (Keccak.rho_pi (Keccak.theta A)) (x + 1) y) Keccak.mask64)
              (Keccak.lane (Keccak.rho_pi (Keccak.theta A)) (x + 2) y)))) as HL.
  destruct (Keccak.lanes _) as [|a rest]; [discriminate HL | exact HL].
Qed.

Lemma keccak_f_length (A : list Z) : length A = 25 -> length (Keccak.keccak_f A) = 25.
Proof.
  intros HA. unfold Keccak.keccak_f.
  apply (fold_left_preserves (fun A => length A = 25)); [|exact HA].
  intros a rc _. apply keccak_round_length.
Qed.

(** A Keccak-256 digest is 32 bytes long. *)
Lemma keccak256_length (msg : bytes) : length (Keccak.keccak256 msg) = 32.
Proof.
  unfold Keccak.keccak256. rewrite concat_le_bytes_length.
  assert (H : length (fold_left Keccak.absorb
                        (Hex.chunks (length (Keccak.pad msg)) Keccak.rate (Keccak.pad msg))
                        (repeat 0%Z 25)) = 25).
  { apply (fold_left_preserves (fun A => length A = 25)); [|reflexivity].
    intros a blk Ha. unfold Keccak.absorb. apply keccak_f_length.
    rewrite length_map, length_combine, Ha.
    unfold Keccak.block_lanes. cbv zeta. rewrite length_app, repeat_length.
    lia. }
  rewrite length_take, H. reflexivity.
Qed.

End DigestFacts.

(** ** The ABI encoding of a commit *)

Section EncodingFacts.
Import ABI.

Lemma uint256_length (z : Z) : length (uint256 z) = 32.
Proof. apply be_bytes_length. Qed.

Lemma zpad_right_length (n : nat) (b : bytes) :
  length b <= n -> length (zpad_right n b) = n.
Proof. intros H. unfold zpad_right. rewrite length_app, repeat_length. lia. Qed.

Lemma zpad_right_full (n : nat) (b : bytes) : length b = n -> zpad_right n b = b.
Proof.
  intros H. unfold zpad_right. rewrite H, Nat.sub_diag. apply app_nil_r.
Qed.

Lemma heads_tails_static (off : nat) (es : list bytes) :
  heads_tails off (map (pair false) es) = (concat es, []).
Proof.
  induction es as [|e es IH]; [reflexivity|].
  cbn [map heads_tails concat]. now rewrite IH.
Qed.

(** Static elements are laid out one after the other. *)
Lemma pack_static (es : list bytes) : pack (map (pair false) es) = concat es.
Proof. unfold pack. rewrite heads_tails_static. apply app_nil_r. Qed.

Lemma concat_bytes32_length (pb : list bytes) :
  forallb (fun b : bytes => (length b <=? 32)%nat) pb = true ->
  length (concat (map (zpad_right 32) pb)) = 32 * length pb.
Proof.
  induction pb as [|b pb IH]; [reflexivity|].
  cbn [forallb map concat length]. intros H.
  apply andb_prop in H as [Hb Hpb]. apply Nat.leb_le in Hb.
  rewrite length_app, zpad_right_length, IH by assumption. lia.
Qed.

Lemma encode_value_array (elem : abi_type) (l : list abi_value) :
  encode_value (T_array elem) (V_list l)
  = match encode_each elem l with
    | Some es =>
        Some (uint256 (Z.of_nat (length l)) ++ pack (map (pair (is_dynamic elem)) es))
    | None => None
    end.
Proof.
  cbn [encode_value].
  match goal with
  | |- match ?each l with _ => _ end = _ =>
      assert (E : each l = encode_each elem l)
  end.
  { induction l as [|x l IH]; [reflexivity|].
    cbn [encode_each]. rewrite <- IH. reflexivity. }
  rewrite E. reflexivity.
Qed.

(** A [bytes32[]] value: the number of elements, then each element padded
    to 32 bytes; refused when an element is longer than 32 bytes. *)
Lemma encode_bytes32_array (pb : list bytes) :
  encode_value (T_array (T_bytesN 32)) (V_list (map V_bytes pb))
  = if forallb (fun b : bytes => (length b <=? 32)%nat) pb
    then Some (uint256 (Z.of_nat (length pb)) ++ concat (map (zpad_right 32) pb))
    else None.
Proof.
  rewrite encode_value_array.
  assert (E : encode_each (T_bytesN 32) (map V_bytes pb)
              = if forallb (fun b : bytes => (length b <=? 32)%nat) pb
                then Some (map (zpad_right 32) pb) else None).
  { induction pb as [|b pb IH]; [reflexivity|].
    cbn [map forallb encode_each encode_value]. rewrite IH.
    destruct (length b <=? 32)%nat; [|reflexivity].
    destruct (forallb _ pb); reflexivity. }
  rewrite E, length_map.
  destruct (forallb _ pb); [|reflexivity].
  cbn [is_dynamic]. now rewrite pack_static.
Qed.

(** The byte layout behind the commit identifier (line 56): six head words,
    the parents array, the URI. *)
Lemma encode_commit_values (pb : list bytes) (round : Z) (c h a : bytes) (uri : string) :
  encode CLI.commit_types (CLI.commit_values pb round c h a uri)
  = if forallb (fun b : bytes => (length b <=? 32)%nat) pb
       && ((0 <=? round)%Z && (round <? 2 ^ 64)%Z)
       && (length c <=? 32)%nat && (length h <=? 32)%nat && (length a <=? 32)%nat
    then Some (uint256 192 ++ uint256 round
               ++ zpad_right 32 c ++ zpad_right 32 h ++ zpad_right 32 a
               ++ uint256 (Z.of_nat (192 + (32 + 32 * length pb)))
               ++ (uint256 (Z.of_nat (length pb)) ++ concat (map (zpad_right 32) pb))
               ++ uint256 (Z.of_nat (length (Hex.utf8 uri)))
               ++ zpad_right (ceil32 (length (Hex.utf8 uri))) (Hex.utf8 uri))
    else None.
Proof.
  unfold encode, CLI.commit_types, CLI.commit_values.
  cbn [encode_parts]. rewrite encode_bytes32_array.
  destruct (forallb _ pb) eqn:Hpb; [|reflexivity].
  cbn [encode_value andb].
  destruct ((0 <=? round)%Z && (round <? 2 ^ 64)%Z); [|reflexivity].
  destruct (length c <=? 32)%nat eqn:Hc; [|reflexivity].
  destruct (length h <=? 32)%nat eqn:Hh; [|reflexivity].
  destruct (length a <=? 32)%nat eqn:Ha; [|reflexivity].
  apply Nat.leb_le in Hc, Hh, Ha.
  cbn [andb is_dynamic]. f_equal.
  unfold pack. cbn [head_length fold_right fst snd].
  rewrite uint256_length, !zpad_right_length by assumption.
  cbn [heads_tails].
  rewrite length_app, uint256_length, (concat_bytes32_length _ Hpb).
  change (32 + (32 + (32 + (32 + (32 + (32 + 0)))))) with 192.
  rewrite <- !app_assoc, app_nil_r. reflexivity.
Qed.

(** Where the parents sit in the hashed bytes: after the six head words
    (192 bytes) comes the number of parents, then one word per parent. *)
Lemma encoded_parents_words (pb : list bytes) (round : Z) (c h a : bytes) (uri : string)
    (enc : bytes) :
  encode CLI.commit_types (CLI.commit_values pb round c h a uri) = Some enc ->
  take (32 + 32 * length pb) (drop 192 enc)
  = uint256 (Z.of_nat (length pb)) ++ concat (map (zpad_right 32) pb)
  /\ take 192 enc
     = uint256 192 ++ uint256 round ++ zpad_right 32 c ++ zpad_right 32 h
       ++ zpad_right 32 a ++ uint256 (Z.of_nat (192 + (32 + 32 * length pb))).
Proof.
  rewrite encode_commit_values.
  destruct (forallb _ pb) eqn:Hpb; [|discriminate].
  destruct ((0 <=? round)%Z && (round <? 2 ^ 64)%Z); [|discriminate].
  destruct (length c <=? 32)%nat eqn:Hc; [|discriminate].
  destruct (length h <=? 32)%nat eqn:Hh; [|discriminate].
  destruct (length a <=? 32)%nat eqn:Ha; [|discriminate].
  apply Nat.leb_le in Hc, Hh, Ha.
  cbn [andb]. intros E. apply (inj Some) in E. subst enc.
  set (head := uint256 192 ++ uint256 round ++ zpad_right 32 c ++ zpad_right 32 h
               ++ zpad_right 32 a ++ uint256 (Z.of_nat (192 + (32 + 32 * length pb)))).
  set (body := uint256 (Z.of_nat (length pb)) ++ concat (map (zpad_right 32) pb)).
  set (rest := uint256 (Z.of_nat (length (Hex.utf8 uri))) ++ _).
  assert (Hhead : length head = 192).
  { subst head. rewrite !length_app, !uint256_length, !zpad_right_length by assumption.
    reflexivity. }
  assert (Hbody : length body = 32 + 32 * length pb).
  { subst body. rewrite length_app, uint256_length, (concat_bytes32_length _ Hpb).
    reflexivity. }
  assert (Hall : uint256 192 ++ uint256 round ++ zpad_right 32 c ++ zpad_right 32 h
                 ++ zpad_right 32 a ++ uint256 (Z.of_nat (192 + (32 + 32 * length pb)))
                 ++ body ++ rest
                 = head ++ body ++ rest).
  { subst head. now rewrite <- !app_assoc. }
  rewrite Hall. split.
  - rewrite (drop_app_length' head) by (symmetry; exact Hhead).
    apply take_app_length'. symmetry; exact Hbody.
  - apply take_app_length'. symmetry; exact Hhead.
Qed.

End EncodingFacts.

(** ** The [commit] command *)

Section CommitFacts.
Import CLI.

Lemma hex_no_0x_prefix (bs : bytes) : remove_0x_prefix (Hex.hex bs) = Hex.hex bs.
Proof.
  unfold remove_0x_prefix.
  destruct bs as [|b bs]; [reflexivity|].
  rewrite hex_cons. cbn [String.prefix].
  destruct (hex_of_byte_lower b) as [_ Hlo].
  destruct (ascii_dec "0" _); cbn [orb]; [|reflexivity].
  destruct (ascii_dec "x" _) as [E|_].
  { rewrite <- E in Hlo. vm_compute in Hlo. discriminate. }
  destruct (ascii_dec "X" _) as [E|_].
  { rewrite <- E in Hlo. vm_compute in Hlo. discriminate. }
  reflexivity.
Qed.

(** [Web3.to_bytes(hexstr=...)] undoes [hexdigest]. *)
Lemma to_bytes_hex (bs : bytes) : to_bytes_hexstr (Hex.hex bs) = Some bs.
Proof.
  unfold to_bytes_hexstr.
  rewrite hex_no_0x_prefix, hex_chars, hex_chars_even.
  apply unhex_hex_chars.
Qed.

Lemma to_bytes_hexdigest (data : bytes) :
  to_bytes_hexstr (SHA256.hexdigest data) = Some (SHA256.digest data).
Proof. apply to_bytes_hex. Qed.

(** What one invocation does, step by step: the record it sends depends
    on the artifact bytes, the round and the parents only. *)
Lemma commit_run (ctx : context) (data : bytes) (rnd : Z) (ps : list string) (w : world) :
  commit ctx data rnd ps w
  = match parent_bytes_of ps with
    | None => (inl Py.ValueError, stored data w)
    | Some pb =>
        match ABI.encode commit_types
                (commit_values pb rnd
                   (Keccak.keccak_text "client1,client2")
                   (Keccak.keccak_text "lr=0.01,bs=32")
                   (SHA256.digest data)
                   ("ipfs://" +:+ SHA256.hexdigest data)) with
        | None => (inl Py.ValueOutOfBounds, stored data w)
        | Some enc =>
            send_addCommit ctx
              (commit_input_of (Keccak.keccak256 enc) pb rnd
                 (Keccak.keccak_text "client1,client2")
                 (Keccak.keccak_text "lr=0.01,bs=32")
                 (SHA256.digest data)
                 ("ipfs://" +:+ SHA256.hexdigest data))
              (stored data w)
        end
    end.
Proof.
  unfold commit, mbind, M_bind, ipfs_add_bytes, LocalIPFS.add_bytes, stored.
  cbn [fst snd].
  destruct (parent_bytes_of ps) as [pb|]; [|reflexivity].
  rewrite to_bytes_hexdigest.
  unfold try_, mret, M_ret, raise; cbn beta iota.
  destruct (ABI.encode _ _) as [enc|]; reflexivity.
Qed.

Lemma parent_bytes_of_length (ps : list string) (pb : list bytes) :
  parent_bytes_of ps = Some pb -> length pb = Nat.max 1 (length ps).
Proof.
  destruct ps as [|p ps]; cbn [parent_bytes_of].
  - intros [= <-]. reflexivity.
  - intros H. apply length_mapM in H. rewrite <- H. cbn [length]. lia.
Qed.

(** When the checks of the encoder pass and a key is set, the record is
    sent: [commit] does produce a submission. *)
Lemma commit_submits (ctx : context) (data : bytes) (rnd : Z) (ps : list string)
    (pb : list bytes) (w : world) :
  has_account ctx = true ->
  (0 <= rnd < 2 ^ 64)%Z ->
  parent_bytes_of ps = Some pb ->
  forallb (fun b : bytes => (length b <=? 32)%nat) pb = true ->
  exists r, commit ctx data rnd ps w
            = (inr tt, {| ipfs_local := ipfs_local (stored data w);
                          ledger := ledger w ++ [r] |})
            /\ parents r = pb /\ round r = rnd.
Proof.
  intros Hacc Hrnd Hps Hpb.
  rewrite commit_run, Hps, encode_commit_values, Hpb.
  assert ((0 <=? rnd)%Z && (rnd <? 2 ^ 64)%Z = true) as ->
    by (apply andb_true_intro; split; [apply Z.leb_le | apply Z.ltb_lt]; lia).
  unfold Keccak.keccak_text.
  rewrite !keccak256_length, sha256_digest_length. cbn [Nat.leb andb].
  unfold send_addCommit. rewrite Hacc.
  eexists. split; [reflexivity|].
  cbn [parents round commit_input_of]. split; reflexivity.
Qed.

Lemma metadata_hash_values :
  Hex.hex (Keccak.keccak_text "client1,client2")
  = "ce1b7d4ddf60829420e754cbecd5e2418abe6e8e408835cfacf50837158491d2"
  /\ Hex.hex (Keccak.keccak_text "lr=0.01,bs=32")
     = "53bee57b4d68985ae1a017598967e23cfcf082e91de82ac15a8256149bfe3a2a".
Proof. split; vm_compute; reflexivity. Qed.

(** C10: the record [commit] sends always carries Keccak-256 of the text
    "client1,client2" as clientsHash and of "lr=0.01,bs=32" as
    hyperparamsHash, so two invocations that succeed on the same artifact
    bytes, round and parents send the same record, the same id included,
    whatever the store, the ledger and the key are. *)
Theorem commit_id_deterministic (ctx1 ctx2 : context) (data : bytes) (rnd : Z)
    (ps : list string) (w1 w2 w1' w2' : world) :
  commit ctx1 data rnd ps w1 = (inr tt, w1') ->
  commit ctx2 data rnd ps w2 = (inr tt, w2') ->
  exists r,
    ledger w1' = ledger w1 ++ [r]
    /\ ledger w2' = ledger w2 ++ [r]
    /\ clientsHash r = Keccak.keccak_text "client1,client2"
    /\ hyperparamsHash r = Keccak.keccak_text "lr=0.01,bs=32"
    /\ id_of_fields r = Some (id r).
Proof.
  rewrite !commit_run.
  destruct (parent_bytes_of ps) as [pb|]; [|discriminate].
  destruct (ABI.encode _ _) as [enc|] eqn:E; [|discriminate].
  unfold send_addCommit.
  destruct (has_account ctx1); [|discriminate].
  destruct (has_account ctx2); [|discriminate].
  intros [= <-] [= <-].
  eexists. cbn [ledger stored]. split; [reflexivity|]. split; [reflexivity|].
  unfold id_of_fields, derive_id.
  cbn [id parents round clientsHash hyperparamsHash artifactHash artifactURI
       commit_input_of].
  rewrite E. repeat split.
Qed.

Lemma commit_id_deterministic_witness :
  let ctx := {| has_account := true |} in
  let data := Hex.utf8 "hello" in
  let w1 := {| ipfs_local := ∅; ledger := [] |} in
  let w2 := {| ipfs_local := {[ "readme" := Hex.utf8 "notes" ]}; ledger := [] |} in
  exists r,
    ledger (commit ctx data 1 [] w1).2 = ledger w1 ++ [r]
    /\ ledger (commit ctx data 1 [] w2).2 = ledger w2 ++ [r]
    /\ clientsHash r = Keccak.keccak_text "client1,client2"
    /\ hyperparamsHash r = Keccak.keccak_text "lr=0.01,bs=32"
    /\ id_of_fields r = Some (id r).
Proof.
  cbv zeta.
  apply (commit_id_deterministic {| has_account := true |} {| has_account := true |}
           (Hex.utf8 "hello") 1 []
           {| ipfs_local := ∅; ledger := [] |}
           {| ipfs_local := {[ "readme" := Hex.utf8 "notes" ]}; ledger := [] |});
    vm_compute; reflexivity.
Defined.

(** A root commit of the artifact b"hello" in round 1, run. *)
Example commit_hello_root :
  let '(res, w') := commit {| has_account := true |} (Hex.utf8 "hello") 1 []
                      {| ipfs_local := ∅; ledger := [] |} in
  res = inr tt
  /\ map (fun r => (Hex.hex (id r), map Hex.hex (parents r), artifactURI r)) (ledger w')
     = [("3ceabf51406d3cae04b18d9e3bb9db9d2ba37eb7a0f23ee030f766e37f8ef922",
         ["0000000000000000000000000000000000000000000000000000000000000000"],
         "ipfs://2cf24dba5fb0a30e26e83b2ac5b9e29e1b161e5c1fa7425e73043362938b9824")].
Proof. vm_compute. split; reflexivity. Qed.

(** Without a key nothing reaches the ledger, but the artifact is stored. *)
Example commit_without_key :
  let '(res, w') := commit {| has_account := false |} (Hex.utf8 "hello") 1 []
                      {| ipfs_local := ∅; ledger := [] |} in
  res = inl Py.RuntimeError /\ ledger w' = [] /\ size (ipfs_local w') = 1.
Proof. vm_compute. repeat split. Qed.

(** A round outside uint64 and a parent that is not hexadecimal are refused. *)
Example commit_refusals :
  (commit {| has_account := true |} (Hex.utf8 "hello") (-1) []
     {| ipfs_local := ∅; ledger := [] |}).1 = inl Py.ValueOutOfBounds
  /\ (commit {| has_account := true |} (Hex.utf8 "hello") 1 ["0xzz"]
        {| ipfs_local := ∅; ledger := [] |}).1 = inl Py.ValueError.
Proof. split; vm_compute; reflexivity. Qed.

(** X1: swapping two distinct 32-byte parents changes the bytes that are hashed:
    the two identifiers can only agree through a Keccak-256 collision on
    these two distinct inputs. *)
Theorem parent_order_changes_hashed_bytes (A B : bytes) (rnd : Z) (c h a : bytes)
    (uri : string) (e1 e2 : bytes) :
  length A = 32 -> length B = 32 -> A <> B ->
  ABI.encode commit_types (commit_values [A; B] rnd c h a uri) = Some e1 ->
  ABI.encode commit_types (commit_values [B; A] rnd c h a uri) = Some e2 ->
  e1 <> e2
  /\ derive_id [A; B] rnd c h a uri = Some (Keccak.keccak256 e1)
  /\ derive_id [B; A] rnd c h a uri = Some (Keccak.keccak256 e2).
Proof.
  intros HA HB Hne E1 E2. split.
  - intros ->.
    pose proof (proj1 (encoded_parents_words _ _ _ _ _ _ _ E1)) as W1.
    pose proof (proj1 (encoded_parents_words _ _ _ _ _ _ _ E2)) as W2.
    cbn [length map concat] in W1, W2. rewrite W1 in W2.
    apply app_inv_head in W2.
    rewrite !(zpad_right_full 32) in W2 by assumption.
    rewrite !app_nil_r in W2.
    apply app_inj_1 in W2 as [HAB _]; [congruence | congruence].
  - unfold derive_id. rewrite E1, E2. split; reflexivity.
Qed.

Lemma parent_order_changes_hashed_bytes_witness :
  let A := repeat x11 32 in
  let B := repeat x22 32 in
  let c := Keccak.keccak_text "client1,client2" in
  let h := Keccak.keccak_text "lr=0.01,bs=32" in
  let a := SHA256.digest (Hex.utf8 "hello") in
  let uri := "ipfs://" +:+ SHA256.hexdigest (Hex.utf8 "hello") in
  exists e1 e2,
    e1 <> e2
    /\ derive_id [A; B] 1 c h a uri = Some (Keccak.keccak256 e1)
    /\ derive_id [B; A] 1 c h a uri = Some (Keccak.keccak256 e2).
Proof.
  cbv zeta.
  eexists _, _.
  apply (parent_order_changes_hashed_bytes
           (repeat x11 32) (repeat x22 32) 1
           (Keccak.keccak_text "client1,client2") (Keccak.keccak_text "lr=0.01,bs=32")
           (SHA256.digest (Hex.utf8 "hello"))
           ("ipfs://" +:+ SHA256.hexdigest (Hex.utf8 "hello")));
    [reflexivity | reflexivity | vm_compute; discriminate
    | vm_compute; reflexivity | vm_compute; reflexivity].
Defined.

(** X2: for the parents 0x11..11 and 0x22..22 (32 bytes each) over the artifact
    b"hello" in round 1, the two orders give two different identifiers. *)
Theorem parent_order_example :
  let A := repeat x11 32 in
  let B := repeat x22 32 in
  let c := Keccak.keccak_text "client1,client2" in
  let h := Keccak.keccak_text "lr=0.01,bs=32" in
  let a := SHA256.digest (Hex.utf8 "hello") in
  let uri := "ipfs://" +:+ SHA256.hexdigest (Hex.utf8 "hello") in
  Hex.hex <$> derive_id [A; B] 1 c h a uri
  = Some "f296502816b7ebc2cbe0b165a0fb43aa6975a2b45cdad1d4fa8c07c7f83fe541"
  /\ Hex.hex <$> derive_id [B; A] 1 c h a uri
     = Some "f0e6d20f6c2298bf7ee73192beab0eca1d428a4c6be0d37af6680d205dc364ea"
  /\ derive_id [A; B] 1 c h a uri <> derive_id [B; A] 1 c h a uri.
Proof.
  cbv zeta.
  split; [vm_compute; reflexivity|]. split; [vm_compute; reflexivity|].
  intros H.
  apply (f_equal (fmap Hex.hex)) in H. vm_compute in H. discriminate H.
Qed.

End CommitFacts.

(** ** [deploy] *)

Section DeployFacts.
Import Deploy.

Lemma triple_bind {R A B} (m : M R A) (k : A -> M R B) (t : trace)
    (QN : B -> trace -> Prop) (QR : R -> trace -> Prop) :
  triple m t (fun a t' => triple (k a) t' QN QR) QR -> triple (m ≫= k) t QN QR.
Proof.
  unfold triple, mbind, M_bind.
  destruct (m t) as [[a|r|e] t']; auto.
Qed.

Lemma registrations_app (t1 t2 : trace) :
  registrations (t1 ++ t2) = registrations t1 ++ registrations t2.
Proof.
  induction t1 as [|ev t1 IH]; [reflexivity|].
  cbn [app registrations].
  destruct ev as [T c r|line]; [|exact IH].
  destruct c as [pk|name|tx|tx_hash]; try exact IH.
  destruct tx as [code args sender|registry key addr sender]; [exact IH|].
  destruct r as [e|v]; [exact IH|]. cbn [app]. now rewrite IH.
Qed.

(** The rules below follow the registry transactions of the history:
    [regs] is what was registered before the statement. *)
Lemma triple_invoke {R T} (env : environment) (c : call T) (t : trace)
    (regs : list (option string * bytes * string))
    (QN : T -> trace -> Prop) (QR : R -> trace -> Prop) :
  registrations t = regs ->
  (forall v t', registrations t' = regs ++ registrations [Called c (inr v)] ->
                QN v t') ->
  triple (invoke env c) t QN QR.
Proof.
  intros Ht H. unfold triple, invoke.
  destruct (env t T c) as [e|v]; [exact I|].
  apply H. now rewrite registrations_app, Ht.
Qed.

Lemma triple_print {R} (line : string) (t : trace)
    (regs : list (option string * bytes * string))
    (QN : unit -> trace -> Prop) (QR : R -> trace -> Prop) :
  registrations t = regs ->
  (forall t', registrations t' = regs -> QN tt t') ->
  triple (print line) t QN QR.
Proof.
  intros Ht H. apply H. rewrite registrations_app, Ht. apply app_nil_r.
Qed.

Lemma triple_mret {R A} (a : A) (t : trace)
    (QN : A -> trace -> Prop) (QR : R -> trace -> Prop) :
  QN a t -> triple (mret a) t QN QR.
Proof. intros H. exact H. Qed.

Lemma triple_return {R A} (r : R) (t : trace)
    (QN : A -> trace -> Prop) (QR : R -> trace -> Prop) :
  QR r t -> triple (return_ r) t QN QR.
Proof. intros H. exact H. Qed.

(** A statement that never falls through makes what follows it dead. *)
Lemma bind_dead {R A} (m : M R A) (k : A -> M R A) (t : trace) :
  triple m t (fun _ _ => False) (fun _ _ => True) -> (m ≫= k) t = m t.
Proof.
  unfold triple, mbind, M_bind.
  destruct (m t) as [[a|r|e] t']; [intros [] | reflexivity | reflexivity].
Qed.

Lemma triple_weaken {R A} (m : M R A) (t : trace)
    (QN QN' : A -> trace -> Prop) (QR QR' : R -> trace -> Prop) :
  (forall a t', QN a t' -> QN' a t') -> (forall r t', QR r t' -> QR' r t') ->
  triple m t QN QR -> triple m t QN' QR'.
Proof.
  unfold triple. intros HN HR.
  destruct (m t) as [[a|r|e] t']; auto.
Qed.

(** One statement forward; [Hregs] keeps what has been registered so far. *)
Ltac run_statement :=
  lazymatch goal with
  | |- triple (_ ≫= _) _ _ _ => apply triple_bind
  | Hregs : registrations ?t = _ |- triple (invoke _ _) ?t _ _ =>
      apply (triple_invoke _ _ _ _ _ _ Hregs); clear Hregs;
      let v := fresh "v" in
      let t' := fresh "t" in
      intros v t' Hregs; cbn [registrations] in Hregs;
      rewrite ?app_nil_r, <- ?app_assoc in Hregs; cbn [app] in Hregs; clear t
  | Hregs : registrations ?t = _ |- triple (print _) ?t _ _ =>
      apply (triple_print _ _ _ _ _ Hregs); clear Hregs;
      let t' := fresh "t" in
      intros t' Hregs; clear t
  | |- triple (mret _) _ _ _ => apply triple_mret
  | |- triple (return_ _) _ _ _ => apply triple_return
  | |- triple (let '(_, _) := ?p in _) _ _ _ => destruct p
  end.

Lemma first_body_triple (env : environment) (pk : string) (t : trace)
    (regs0 : list (option string * bytes * string)) :
  registrations t = regs0 ->
  triple (first_body env pk) t
    (fun _ _ => False)
    (fun r t' =>
       exists registry deployer ledger_addr manager_addr policy_addr,
         r = [("REGISTRY_ADDRESS", registry); ("DEPLOYER_ADDRESS", deployer)]
         /\ registrations t'
            = regs0
              ++ [(Some registry, Keccak.keccak_text "CommitLedger", ledger_addr);
                  (Some registry, Keccak.keccak_text "BranchManager", manager_addr);
                  (Some registry, Keccak.keccak_text "PolicyRegistry", policy_addr)]).
Proof.
  intros Hregs.
  unfold first_body, send_tx, register_contract.
  repeat run_statement.
  eexists _, _, _, _, _. split; [reflexivity|].
  rewrite Hregs. cbn [address contract_at address_of default from_option id app].
  reflexivity.
Qed.

(** The first body never falls through: it raises, or it returns the two
    addresses after the three registrations. *)
Lemma first_body_returns (env : environment) (pk : string) (t : trace) :
  triple (first_body env pk) t
    (fun _ _ => False)
    (fun r t' =>
       exists registry deployer ledger_addr manager_addr policy_addr,
         r = [("REGISTRY_ADDRESS", registry); ("DEPLOYER_ADDRESS", deployer)]
         /\ registrations t'
            = registrations t
              ++ [(Some registry, Keccak.keccak_text "CommitLedger", ledger_addr);
                  (Some registry, Keccak.keccak_text "BranchManager", manager_addr);
                  (Some registry, Keccak.keccak_text "PolicyRegistry", policy_addr)]).
Proof. now apply first_body_triple. Qed.

(** C9: [deploy] behaves as its body cut after the first [return]: on every
    node and history both give the same outcome and the same history; the
    function never falls through to the statements behind that [return];
    when it returns, it returns the dictionary of REGISTRY_ADDRESS and
    DEPLOYER_ADDRESS, after the registry transactions for CommitLedger,
    BranchManager and PolicyRegistry, in this order. *)
Theorem deploy_second_body_dead (env : environment) (pk : string) (t : trace) :
  deploy env pk t = deploy_truncated env pk t
  /\ triple (deploy env pk) t
       (fun _ _ => False)
       (fun r t' =>
          exists registry deployer ledger_addr manager_addr policy_addr,
            r = [("REGISTRY_ADDRESS", registry); ("DEPLOYER_ADDRESS", deployer)]
            /\ registrations t'
               = registrations t
                 ++ [(Some registry, Keccak.keccak_text "CommitLedger", ledger_addr);
                     (Some registry, Keccak.keccak_text "BranchManager", manager_addr);
                     (Some registry, Keccak.keccak_text "PolicyRegistry", policy_addr)]).
Proof.
  pose proof (first_body_returns env pk t) as H.
  assert (E : deploy env pk t = deploy_truncated env pk t).
  { unfold deploy, deploy_truncated. apply bind_dead.
    revert H. apply triple_weaken; auto. }
  split; [exact E|].
  unfold triple. rewrite E. exact H.
Qed.

(** On a node that accepts every call, [deploy] returns the two addresses
    and leaves behind the three registrations, without running the second
    body: no contract is deployed twice. *)
Example deploy_accepting :
  let '(out, t) := deploy accepting "k" [] in
  out = Returned [("REGISTRY_ADDRESS", "@tx:code:Registry"); ("DEPLOYER_ADDRESS", "0xDk")]
  /\ map (fun x => x.2) (registrations t)
     = ["@tx:code:CommitLedger"; "@tx:code:BranchManager"; "@tx:code:PolicyRegistry"]
  /\ length t = 30.
Proof. vm_compute. repeat split. Qed.

(** When an artifact cannot be read, [deploy] raises where the first body
    raises. *)
Example deploy_lacking :
  (deploy (lacking "CommitLedger") "k" []).1 = Raised Py.FileNotFoundError
  /\ deploy (lacking "CommitLedger") "k" [] = deploy_truncated (lacking "CommitLedger") "k" [].
Proof. vm_compute. split; reflexivity. Qed.

(** The second body alone does run to its own [return] on that node: it is
    dead in [deploy] because of the [return] before it, not because it
    cannot run. *)
Example second_body_alone :
  exists t, second_body accepting "k" []
            = (Returned [("REGISTRY_ADDRESS", "@tx:code:Registry");
                         ("DEPLOYER_ADDRESS", "0xDk")], t).
Proof. eexists. vm_compute. reflexivity. Qed.

End DeployFacts.

(** ** More on the content store *)

Section StoreMore.
Import LocalIPFS.
Implicit Types (p q : bytes) (root : gmap string bytes) (cid : string).

(** On a key that is a plain file name [get_path] is the entry look-up
    [get]. *)
Lemma get_path_plain (outside : string -> Py.exn + bytes) cid root :
  plain_name (Py.replace "ipfs://" "" cid) = true ->
  get_path outside cid root = get cid root.
Proof. intros H. unfold get_path, get. now rewrite H. Qed.

(** The scheme prefix is taken off before the key is joined to the
    directory, whatever the key then denotes. *)
Lemma get_path_strips_scheme (outside : string -> Py.exn + bytes) cid root :
  get_path outside ("ipfs://" +:+ cid) root = get_path outside cid root.
Proof.
  unfold get_path.
  rewrite (replace_prefix "i" "pfs://" "" cid). reflexivity.
Qed.

(** An address [add_bytes] returns names an entry: the digest. *)
Lemma get_path_address (outside : string -> Py.exn + bytes) p root :
  get_path outside ("ipfs://" +:+ SHA256.hexdigest p) root
  = get ("ipfs://" +:+ SHA256.hexdigest p) root.
Proof.
  apply get_path_plain.
  rewrite (replace_prefix "i" "pfs://" "" (SHA256.hexdigest p)).
  change (Py.replace (String "i" "pfs://") "" (SHA256.hexdigest p))
    with (Py.replace "ipfs://" "" (SHA256.hexdigest p)).
  unfold SHA256.hexdigest. rewrite replace_hex.
  apply plain_name_hex. rewrite sha256_digest_length. lia.
Qed.




(** X3: [add_bytes] only ever adds: an entry that exists keeps its bytes, no
    entry is removed, and the only name that can be new is the payload's
    digest. *)
Theorem add_bytes_append_only p root :
  (forall name data, root !! name = Some data ->
                     (add_bytes p root).2 !! name = Some data)
  /\ (forall name, name <> SHA256.hexdigest p ->
                   (add_bytes p root).2 !! name = root !! name)
  /\ dom (add_bytes p root).2 = dom root ∪ {[ SHA256.hexdigest p ]}.
Proof.
  split; [|split].
  - intros name data H.
    destruct (decide (name = SHA256.hexdigest p)) as [->|Hne].
    + rewrite add_bytes_lookup, H. reflexivity.
    + rewrite add_bytes_lookup_ne by exact Hne. exact H.
  - intros name Hne. now apply add_bytes_lookup_ne.
  - unfold add_bytes; cbn [snd].
    destruct (root !! SHA256.hexdigest p) as [q|] eqn:E.
    + apply elem_of_dom_2 in E.
      rewrite (comm_L (∪)). symmetry.
      apply subseteq_union_1_L, singleton_subseteq_l, E.
    + rewrite dom_insert_L. apply (comm_L (∪)).
Qed.

(** X4: A directory in which every file is named by the SHA-256 of its bytes
    stays so under [add_bytes], and then whatever [get] returns for a key
    that is a plain file name hashes to that key, whatever the file system
    around the directory holds. *)
Theorem add_bytes_keeps_content_addressed p root :
  content_addressed root ->
  content_addressed (add_bytes p root).2
  /\ (forall (outside : string -> Py.exn + bytes) cid data,
        plain_name (Py.replace "ipfs://" "" cid) = true ->
        get_path outside cid (add_bytes p root).2 = inr data ->
        Py.replace "ipfs://" "" cid = SHA256.hexdigest data).
Proof.
  intros Hroot.
  assert (Hafter : content_addressed (add_bytes p root).2).
  { intros name data H.
    destruct (decide (name = SHA256.hexdigest p)) as [->|Hne].
    - rewrite add_bytes_lookup in H. injection H as <-.
      destruct (root !! SHA256.hexdigest p) as [q|] eqn:E; cbn [default from_option id].
      + exact (Hroot _ _ E).
      + reflexivity.
    - rewrite add_bytes_lookup_ne in H by exact Hne. exact (Hroot _ _ H). }
  split; [exact Hafter|].
  intros outside cid data Hplain H.
  rewrite (get_path_plain _ _ _ Hplain), get_lookup in H.
  destruct (_ !! Py.replace "ipfs://" "" cid) as [d|] eqn:E; [|discriminate].
  injection H as <-. exact (Hafter _ _ E).
Qed.

Lemma add_bytes_keeps_content_addressed_witness :
  let root : gmap string bytes :=
    {[ "ba7816bf8f01cfea414140de5dae2223b00361a396177a9cb410ff61f20015ad"
       := Hex.utf8 "abc" ]} in
  content_addressed (add_bytes (Hex.utf8 "hello") root).2
  /\ (forall (outside : string -> Py.exn + bytes) cid data,
        plain_name (Py.replace "ipfs://" "" cid) = true ->
        get_path outside cid (add_bytes (Hex.utf8 "hello") root).2 = inr data ->
        Py.replace "ipfs://" "" cid = SHA256.hexdigest data).
Proof.
  cbv zeta. apply add_bytes_keeps_content_addressed.
  intros name data H. apply lookup_singleton_Some in H as [<- <-].
  vm_compute. reflexivity.
Defined.

(** X5: payloads with different digests can be added in either order: the
    directory ends up the same. *)
Theorem add_bytes_commute p q root :
  SHA256.hexdigest p <> SHA256.hexdigest q ->
  (add_bytes q (add_bytes p root).2).2 = (add_bytes p (add_bytes q root).2).2.
Proof.
  intros Hne. apply map_eq. intros name.
  destruct (decide (name = SHA256.hexdigest p)) as [->|Hp].
  - rewrite add_bytes_lookup_ne by exact Hne.
    rewrite !add_bytes_lookup.
    now rewrite add_bytes_lookup_ne by exact Hne.
  - destruct (decide (name = SHA256.hexdigest q)) as [->|Hq].
    + rewrite (add_bytes_lookup_ne p) by exact Hp.
      rewrite !add_bytes_lookup.
      now rewrite add_bytes_lookup_ne by exact Hp.
    + now rewrite !add_bytes_lookup_ne by assumption.
Qed.

Lemma add_bytes_commute_witness :
  (add_bytes (Hex.utf8 "abc") (add_bytes (Hex.utf8 "hello") ∅).2).2
  = (add_bytes (Hex.utf8 "hello") (add_bytes (Hex.utf8 "abc") ∅).2).2.
Proof.
  apply add_bytes_commute. vm_compute. discriminate.
Defined.

Lemma hex_app (x y : bytes) : Hex.hex (x ++ y) = Hex.hex x +:+ Hex.hex y.
Proof.
  induction x as [|b x IH]; [reflexivity|].
  change ((b :: x) ++ y) with (b :: (x ++ y)).
  rewrite !hex_cons, IH. reflexivity.
Qed.

(** Before the first character of [old] shows up nothing is replaced. *)
Lemma replace_absent_prefix (c : ascii) (old new a s : string) :
  Py.all_chars (fun x => negb (Ascii.eqb c x)) a = true ->
  Py.replace (String c old) new (a +:+ s) = a +:+ Py.replace (String c old) new s.
Proof.
  unfold Py.replace. induction a as [|x a IH]; [reflexivity|].
  change (String x a +:+ s) with (String x (a +:+ s)).
  cbn [Py.all_chars Py.replace_skip String.prefix]. intros H.
  apply andb_prop in H as [Hx Ha].
  destruct (ascii_dec c x) as [->|_].
  - rewrite Ascii.eqb_refl in Hx. discriminate.
  - rewrite (IH Ha). reflexivity.
Qed.

(** X6: [get] takes "ipfs://" out wherever it stands, not only in front: an
    argument made of two runs of hexadecimal digits around "ipfs://" is
    resolved to the two runs joined. *)
Theorem get_strips_scheme_anywhere (x y : bytes) root :
  get (Hex.hex x +:+ "ipfs://" +:+ Hex.hex y) root = get (Hex.hex (x ++ y)) root.
Proof.
  rewrite !get_lookup, replace_hex, hex_app.
  rewrite (replace_absent_prefix "i" "pfs://" "" (Hex.hex x) ("ipfs://" +:+ Hex.hex y))
    by exact (all_chars_impl _ _ _ hex_lower_not_i (hex_all_lower x)).
  rewrite (replace_prefix "i" "pfs://" "" (Hex.hex y)).
  change (Py.replace (String "i" "pfs://") "" (Hex.hex y))
    with (Py.replace "ipfs://" "" (Hex.hex y)).
  rewrite replace_hex. reflexivity.
Qed.

End StoreMore.

(** ** More on [commit] *)

Section CommitMore.
Import CLI.

Lemma hex_of_byte_no_space (b : byte) :
  Hex.is_space (Hex.hex_digit (Byte.to_N b / 16)) = false.
Proof. destruct b; vm_compute; reflexivity. Qed.

(** [bytes.fromhex] undoes [hex]. *)
Lemma fromhex_hex (bs : bytes) : Hex.fromhex (Hex.hex bs) = Some bs.
Proof.
  unfold Hex.fromhex. rewrite hex_chars.
  induction bs as [|b bs IH]; [reflexivity|].
  cbn [map concat Hex.hex_of_byte app Hex.fromhex_chars].
  rewrite hex_of_byte_no_space.
  destruct (hex_of_byte_digits b) as (-> & -> & ->).
  rewrite IH. reflexivity.
Qed.

(** X7: line 49 drops the first two characters of a parent argument whatever
    they are: behind "0x" the digits of [bs] give [bs], and a parent
    written without the prefix loses its first byte. *)
Theorem parent_argument_drops_two_characters (c1 c2 : ascii) (b : byte) (bs : bytes) :
  parent_bytes_of [String c1 (String c2 (Hex.hex bs))] = Some [bs]
  /\ parent_bytes_of ["0x" +:+ Hex.hex bs] = Some [bs]
  /\ parent_bytes_of [Hex.hex (b :: bs)] = Some [bs].
Proof.
  assert (H : forall s, Py.slice_from 2 s = Hex.hex bs -> parent_bytes_of [s] = Some [bs]).
  { intros s Hs. cbn [parent_bytes_of mapM]. rewrite Hs, fromhex_hex. reflexivity. }
  split; [|split]; apply H; reflexivity.
Qed.

(** X10: the identifier sees a parent only through its 32-byte form, padded with
    zeros on the right: parents that agree once padded give the same id.
    So a single empty parent (the argument "0x") gets the id of a root
    commit. *)
Theorem derive_id_right_padding (pb pb' : list bytes) (rnd : Z) (c h a : bytes)
    (uri : string) :
  forallb (fun b : bytes => (length b <=? 32)%nat) pb = true ->
  forallb (fun b : bytes => (length b <=? 32)%nat) pb' = true ->
  map (ABI.zpad_right 32) pb = map (ABI.zpad_right 32) pb' ->
  derive_id pb rnd c h a uri = derive_id pb' rnd c h a uri.
Proof.
  intros Hpb Hpb' Hpad. unfold derive_id.
  rewrite !encode_commit_values, Hpb, Hpb', Hpad.
  assert (length pb = length pb') as ->
    by (rewrite <- (length_map (ABI.zpad_right 32) pb), Hpad; apply length_map).
  reflexivity.
Qed.

Lemma derive_id_right_padding_witness :
  derive_id [[]] 1 (repeat x11 32) (repeat x22 32) (repeat x33 32) "ipfs://00"
  = derive_id [repeat x00 32] 1 (repeat x11 32) (repeat x22 32) (repeat x33 32) "ipfs://00".
Proof.
  apply derive_id_right_padding; reflexivity.
Defined.

End CommitMore.

(** ** The encoding of a commit determines its fields *)

Section EncodingMore.
Import ABI.
Local Open Scope Z_scope.

Lemma Z_of_byte_of_Z (z : Z) : Hex.Z_of_byte (Hex.byte_of_Z z) = z mod 256.
Proof.
  unfold Hex.Z_of_byte, Hex.byte_of_Z.
  pose proof (Z.mod_pos_bound z 256 eq_refl) as Hb.
  destruct (Byte.of_N (Z.to_N (z mod 256))) as [b|] eqn:E.
  - apply Byte.to_of_N in E. rewrite E. apply Z2N.id. lia.
  - apply Byte.of_N_None_iff in E. lia.
Qed.

Lemma be_to_Z_snoc (l : bytes) (b : byte) :
  Hex.be_to_Z (l ++ [b]) = Hex.be_to_Z l * 256 + Hex.Z_of_byte b.
Proof. unfold Hex.be_to_Z. now rewrite fold_left_app. Qed.

(** Reading back the big-endian bytes of a number gives its low bits. *)
Lemma be_to_Z_be_bytes (n : nat) (z : Z) :
  Hex.be_to_Z (Hex.be_bytes n z) = z mod 2 ^ (8 * Z.of_nat n).
Proof.
  revert z. induction n as [|n IH]; intros z.
  - cbn. now rewrite Z.mod_1_r.
  - cbn [Hex.be_bytes]. rewrite be_to_Z_snoc, IH, Z_of_byte_of_Z, Z.shiftr_div_pow2 by lia.
    replace (8 * Z.of_nat (S n)) with (8 + 8 * Z.of_nat n) by lia.
    rewrite Z.pow_add_r by lia.
    change (2 ^ 8) with 256.
    rewrite (Z.rem_mul_r z 256 (2 ^ (8 * Z.of_nat n))) by lia.
    lia.
Qed.

Lemma uint256_inj (x y : Z) :
  0 <= x < 2 ^ 256 -> 0 <= y < 2 ^ 256 -> uint256 x = uint256 y -> x = y.
Proof.
  intros Hx Hy E. apply (f_equal Hex.be_to_Z) in E.
  unfold uint256 in E. rewrite !be_to_Z_be_bytes in E.
  change (8 * Z.of_nat 32) with 256 in E.
  now rewrite !Z.mod_small in E by assumption.
Qed.

Lemma map_zpad_right_full (pb : list bytes) :
  Forall (fun b : bytes => length b = 32%nat) pb -> map (zpad_right 32) pb = pb.
Proof.
  induction 1 as [|b pb Hb _ IH]; [reflexivity|].
  cbn [map]. now rewrite IH, zpad_right_full.
Qed.

Lemma forallb_bytes32 (pb : list bytes) :
  Forall (fun b : bytes => length b = 32%nat) pb ->
  forallb (fun b : bytes => (length b <=? 32)%nat) pb = true.
Proof.
  induction 1 as [|b pb Hb _ IH]; [reflexivity|].
  cbn [forallb]. now rewrite Hb, IH.
Qed.

(** Words of one size can be read back from their concatenation. *)
Lemma concat_words_inj (n : nat) (l l' : list bytes) :
  Forall (fun b : bytes => length b = n) l ->
  Forall (fun b : bytes => length b = n) l' ->
  length l = length l' ->
  concat l = concat l' -> l = l'.
Proof.
  intros Hl. revert l'. induction Hl as [|b l Hb _ IH]; intros l' Hl' Hlen E.
  - destruct l'; [reflexivity | discriminate Hlen].
  - destruct Hl' as [|b' l' Hb' Hl']; [discriminate Hlen|].
    cbn [concat] in E. apply app_inj_1 in E as [-> E]; [|congruence].
    f_equal. apply IH; [assumption | now injection Hlen | assumption].
Qed.

Lemma utf8_inj (s s' : string) : Hex.utf8 s = Hex.utf8 s' -> s = s'.
Proof.
  unfold Hex.utf8. intros E.
  rewrite <- (string_of_list_byte_of_string s), E.
  apply string_of_list_byte_of_string.
Qed.

Lemma ceil32_ge (n : nat) : (n <= ceil32 n)%nat.
Proof.
  unfold ceil32.
  pose proof (Nat.div_mod_eq (n + 31) 32) as H.
  pose proof (Nat.mod_upper_bound (n + 31) 32 ltac:(discriminate)) as Hm.
  lia.
Qed.

(** The length of the hashed bytes of a commit with [n] parents. *)
Lemma commit_encoding_length (pb : list bytes) (rnd : Z) (c h a : bytes) (uri : string)
    (enc : bytes) :
  encode CLI.commit_types (CLI.commit_values pb rnd c h a uri) = Some enc ->
  length enc
  = (256 + 32 * length pb + ceil32 (length (Hex.utf8 uri)))%nat.
Proof.
  rewrite encode_commit_values.
  destruct (forallb _ pb) eqn:Hpb; [|discriminate].
  destruct ((0 <=? rnd) && (rnd <? 2 ^ 64)); [|discriminate].
  destruct (length c <=? 32)%nat eqn:Hc; [|discriminate].
  destruct (length h <=? 32)%nat eqn:Hh; [|discriminate].
  destruct (length a <=? 32)%nat eqn:Ha; [|discriminate].
  apply Nat.leb_le in Hc, Hh, Ha.
  cbn [andb]. intros E. apply (inj Some) in E. subst enc.
  rewrite !length_app, !uint256_length, !zpad_right_length,
    (concat_bytes32_length _ Hpb) by (assumption || apply ceil32_ge).
  lia.
Qed.

(** X11: two commits with 32-byte parents and hashes that are encoded to the
    same bytes have the same parents, round, hashes and URI: different
    fields can only share an identifier through a Keccak-256 collision. *)
Theorem commit_encoding_injective (pb pb' : list bytes) (rnd rnd' : Z)
    (c c' h h' a a' : bytes) (uri uri' : string) (enc : bytes) :
  Forall (fun b : bytes => length b = 32%nat) (c :: h :: a :: pb) ->
  Forall (fun b : bytes => length b = 32%nat) (c' :: h' :: a' :: pb') ->
  Z.of_nat (length enc) < 2 ^ 256 ->
  encode CLI.commit_types (CLI.commit_values pb rnd c h a uri) = Some enc ->
  encode CLI.commit_types (CLI.commit_values pb' rnd' c' h' a' uri') = Some enc ->
  pb = pb' /\ rnd = rnd' /\ c = c' /\ h = h' /\ a = a' /\ uri = uri'.
Proof.
  intros F F' Hbound E E'.
  apply Forall_cons in F as [Hc F]. apply Forall_cons in F as [Hh F].
  apply Forall_cons in F as [Ha Hpb].
  apply Forall_cons in F' as [Hc' F']. apply Forall_cons in F' as [Hh' F'].
  apply Forall_cons in F' as [Ha' Hpb'].
  pose proof (commit_encoding_length _ _ _ _ _ _ _ E) as Len.
  pose proof (commit_encoding_length _ _ _ _ _ _ _ E') as Len'.
  pose proof (ceil32_ge (length (Hex.utf8 uri))) as Hu.
  pose proof (ceil32_ge (length (Hex.utf8 uri'))) as Hu'.
  rewrite encode_commit_values in E, E'.
  rewrite (forallb_bytes32 _ Hpb) in E. rewrite (forallb_bytes32 _ Hpb') in E'.
  destruct ((0 <=? rnd) && (rnd <? 2 ^ 64)) eqn:Hr in E; [|discriminate].
  destruct ((0 <=? rnd') && (rnd' <? 2 ^ 64)) eqn:Hr' in E'; [|discriminate].
  rewrite Hc, Hh, Ha in E. rewrite Hc', Hh', Ha' in E'.
  cbn [Nat.leb andb] in E, E'.
  apply (inj Some) in E, E'. rewrite <- E' in E. clear E'.
  rewrite !(map_zpad_right_full _) in E by assumption.
  rewrite !(zpad_right_full 32) in E by assumption.
  rewrite <- !app_assoc in E.
  apply andb_prop in Hr as [Hr0 Hr1]. apply andb_prop in Hr' as [Hr0' Hr1'].
  apply Z.leb_le in Hr0, Hr0'. apply Z.ltb_lt in Hr1, Hr1'.
  apply app_inj_1 in E as [_ E]; [|now rewrite !uint256_length].
  apply app_inj_1 in E as [Ernd E]; [|now rewrite !uint256_length].
  apply app_inj_1 in E as [Ec E]; [|congruence].
  apply app_inj_1 in E as [Eh E]; [|congruence].
  apply app_inj_1 in E as [Ea E]; [|congruence].
  apply app_inj_1 in E as [_ E]; [|now rewrite !uint256_length].
  apply app_inj_1 in E as [En E]; [|now rewrite !uint256_length].
  apply uint256_inj in Ernd; [|lia|lia].
  apply uint256_inj in En; [|lia|lia].
  apply Nat2Z.inj in En.
  assert (Lpb : length (concat pb) = length (concat pb')).
  { rewrite <- (map_zpad_right_full pb), <- (map_zpad_right_full pb') by assumption.
    rewrite !concat_bytes32_length by now apply forallb_bytes32.
    now rewrite En. }
  apply app_inj_1 in E as [Epb E]; [|exact Lpb].
  apply (concat_words_inj 32) in Epb; [|assumption..].
  apply app_inj_1 in E as [Em E]; [|now rewrite !uint256_length].
  apply uint256_inj in Em; [|lia|lia].
  apply Nat2Z.inj in Em.
  unfold zpad_right in E. rewrite Em in E.
  apply app_inj_1 in E as [Eu _]; [|exact Em].
  apply utf8_inj in Eu.
  repeat split; assumption.
Qed.

Lemma commit_encoding_injective_witness :
  [repeat x44 32; repeat x55 32] = [repeat x44 32; repeat x55 32]
  /\ 1 = 1
  /\ repeat x11 32 = repeat x11 32
  /\ repeat x22 32 = repeat x22 32
  /\ repeat x33 32 = repeat x33 32
  /\ "ipfs://00" = "ipfs://00".
Proof.
  apply (commit_encoding_injective
           [repeat x44 32; repeat x55 32] [repeat x44 32; repeat x55 32] 1 1
           (repeat x11 32) (repeat x11 32) (repeat x22 32) (repeat x22 32)
           (repeat x33 32) (repeat x33 32) "ipfs://00" "ipfs://00"
           (default []
              (encode CLI.commit_types
                 (CLI.commit_values [repeat x44 32; repeat x55 32] 1
                    (repeat x11 32) (repeat x22 32) (repeat x33 32) "ipfs://00"))));
    try (repeat constructor; fail);
    vm_compute; reflexivity.
Defined.

End EncodingMore.

(** ** [FLVCSWeb3], [cli] and the branch commands *)

Section ClientFacts.
Import Client.

Lemma queries_app (t1 t2 : trace) : queries (t1 ++ t2) = queries t1 ++ queries t2.
Proof.
  induction t1 as [|ev t1 IH]; [reflexivity|].
  cbn [app queries].
  destruct ev as [T c r|line]; [|exact IH].
  destruct c; try exact IH.
  destruct r as [e|v]; [exact IH|]. cbn [app]. now rewrite IH.
Qed.

Lemma sent_app (t1 t2 : trace) : sent (t1 ++ t2) = sent t1 ++ sent t2.
Proof.
  induction t1 as [|ev t1 IH]; [reflexivity|].
  cbn [app sent].
  destruct ev as [T c r|line]; [|exact IH].
  destruct c; try exact IH.
  destruct r as [e|v]; [exact IH|]. cbn [app]. now rewrite IH.
Qed.

Lemma calls_app (t1 t2 : trace) : calls (t1 ++ t2) = calls t1 + calls t2.
Proof.
  induction t1 as [|ev t1 IH]; [reflexivity|].
  cbn [app calls]. destruct ev; cbn [Nat.add]; now rewrite IH.
Qed.

(** One step of a run: a call to the outside is answered or refused, the
    text of an address is read as a number, the number is compared to 0. *)
Ltac run_step :=
  match goal with
  | |- context [?env ?t ?T ?c] =>
      lazymatch type of env with
      | environment =>
          let v := fresh "v" in
          let e := fresh "e" in
          destruct (env t T c) as [e|v];
          cbv beta iota zeta
      end
  | |- context [match int16 ?s with _ => _ end] =>
      let n := fresh "n" in
      let H := fresh "Hint" in
      destruct (int16 s) as [n|] eqn:H;
      cbv beta iota zeta
  | |- context [if (?n =? 0)%Z then _ else _] =>
      let H := fresh "Hzero" in
      destruct (n =? 0)%Z eqn:H;
      cbv beta iota zeta
  end.

Ltac in_list H :=
  repeat (apply elem_of_cons in H as [->|H]);
  try (apply elem_of_nil in H; destruct H).

(** X12: [load_contracts] asks the registry for CommitLedger, BranchManager and
    PolicyRegistry, in this order, under the Keccak-256 of each name, and
    stops at the first answer that is the zero address: it returns only
    when all three answers are non-zero, and an answer of zero ends it
    with [RuntimeError] before any later name is asked. *)
Theorem load_contracts_registry_answers (env : environment) (addr : string) (t : trace) :
  let '(out, t') := load_contracts env addr t in
  exists qs,
    queries t' = queries t ++ qs
    /\ map fst qs
       = take (length qs) [Keccak.keccak_text "CommitLedger";
                           Keccak.keccak_text "BranchManager";
                           Keccak.keccak_text "PolicyRegistry"]
    /\ (forall cs, out = inr cs ->
          length qs = 3
          /\ forall q, q ∈ qs -> exists n, int16 q.2 = Some n /\ n <> 0%Z)
    /\ (forall q, q ∈ qs -> int16 q.2 = Some 0%Z ->
          out = inl (Raise Py.RuntimeError) /\ last qs = Some q).
Proof.
  unfold load_contracts, _contract, get_addr, try_, invoke, mbind, M_bind, mret, M_ret, raise.
  cbv beta iota zeta.
  repeat run_step.
  all: eexists; split;
    [ rewrite !queries_app; cbn [queries]; rewrite <- ?app_assoc; cbn [app]; reflexivity | ].
  all: split; [reflexivity|].
  all: split;
    [ intros cs Hcs;
      first [ discriminate Hcs
            | split; [reflexivity|];
              intros q Hq; in_list Hq; cbn [snd]; eexists; (split; [eassumption|]);
              intros ->; discriminate ]
    | intros q Hq Hq0; in_list Hq; cbn [snd] in Hq0;
      first [ congruence
            | split; reflexivity
            | exfalso;
              repeat match goal with
                     | H : int16 ?s = Some ?n, H0 : int16 ?s = Some 0%Z |- _ =>
                         rewrite H in H0; injection H0 as ->
                     end;
              discriminate ] ].
Qed.

Ltac in_trace :=
  repeat first
    [ apply list_elem_of_singleton; reflexivity
    | apply elem_of_app; right; apply list_elem_of_singleton; reflexivity
    | apply elem_of_app; left ].

(** The shape the three branch commands share: look the function up,
    decode the head, match the call to the ABI, send. *)
Lemma branch_command_run (env : environment) (obj : session) (fname : string)
    (F : bytes -> function_call) (head : string) (t : trace)
    (run : (failure + unit) * trace) :
  run = (_ ← invoke env (function_named (branch_manager (contracts obj)) fname);
         head_bytes ← try_ Py.ValueError (CLI.to_bytes_hexstr head);
         _ ← invoke env (contract_function (branch_manager (contracts obj)) (F head_bytes));
         _ ← send env (w3_interface obj) (branch_manager (contracts obj)) (F head_bytes);
         mret tt) t ->
  exists txs,
    sent run.2 = sent t ++ txs
    /\ (forall tx, tx ∈ txs ->
          txs = [tx]
          /\ exists head_bytes acct,
               CLI.to_bytes_hexstr head = Some head_bytes
               /\ account (w3_interface obj) = Some acct
               /\ tx_to tx = branch_manager (contracts obj)
               /\ tx_function tx = F head_bytes
               /\ tx_from tx = Deploy.acct_address acct
               /\ Called (get_transaction_count (Deploy.acct_address acct))
                    (inr (tx_nonce tx)) ∈ run.2)
    /\ (run.1 = inr tt -> exists tx, txs = [tx])
    /\ (CLI.to_bytes_hexstr head = None ->
          txs = [] /\ calls run.2 = calls t + 1
          /\ (run.1 = inl (Raise Py.ValueError)
              \/ exists e, run.1 = inl (Raise e)
                           /\ Called (function_named (branch_manager (contracts obj)) fname)
                                (inl e) ∈ run.2))
    /\ (account (w3_interface obj) = None ->
          run.1 <> inr tt /\ txs = [] /\ calls run.2 <= calls t + 2).
Proof.
  intros ->.
  unfold send, try_, invoke, mbind, M_bind, mret, M_ret, raise.
  destruct (CLI.to_bytes_hexstr head) as [head_bytes|] eqn:Hhead;
    destruct (account (w3_interface obj)) as [acct|] eqn:Hacct;
    repeat run_step.
  all: cbn [fst snd].
  all: eexists; split;
    [ rewrite !sent_app; cbn [sent]; rewrite <- ?app_assoc; cbn [app]; reflexivity | ].
  all: split;
    [ intros tx Htx; in_list Htx;
      try solve [ split; [reflexivity|];
                  eexists _, _; repeat (split; [reflexivity|]);
                  cbn [tx_nonce]; in_trace ]
    | ].
  all: split; [ intros Hout; first [discriminate Hout | eexists; reflexivity] | ].
  all: split;
    [ intros Hnone;
      first [ discriminate Hnone
            | split; [reflexivity|]; split; [rewrite !calls_app; cbn [calls]; lia|];
              first [ left; reflexivity
                    | right; eexists; split; [reflexivity | in_trace] ] ]
    | ].
  all: intros Hnone; try discriminate Hnone.
  all: split; [discriminate|]; split; [reflexivity|].
  all: rewrite !calls_app; cbn [calls]; lia.
Qed.

(** X13: [branch_create], [advance] and [rollback] send at most one transaction.
    The one they send goes to BranchManager from the account of the
    session, with the nonce the node gave for that account, and carries the
    name and the bytes of the head ([createBranch] with 32 zero bytes as
    third argument). A head that is not hexadecimal ends the command right
    after the function is looked up in the ABI, with [ValueError] unless the
    look-up itself failed; without a key nothing is sent and the node is
    not asked for a nonce. *)
Theorem branch_commands_send_once (env : environment) (obj : session)
    (name head : string) (t : trace) :
  let post (fname : string) (F : bytes -> function_call)
           (run : (failure + unit) * trace) :=
    exists txs,
      sent run.2 = sent t ++ txs
      /\ (forall tx, tx ∈ txs ->
            txs = [tx]
            /\ exists head_bytes acct,
                 CLI.to_bytes_hexstr head = Some head_bytes
                 /\ account (w3_interface obj) = Some acct
                 /\ tx_to tx = branch_manager (contracts obj)
                 /\ tx_function tx = F head_bytes
                 /\ tx_from tx = Deploy.acct_address acct
                 /\ Called (get_transaction_count (Deploy.acct_address acct))
                      (inr (tx_nonce tx)) ∈ run.2)
      /\ (run.1 = inr tt -> exists tx, txs = [tx])
      /\ (CLI.to_bytes_hexstr head = None ->
            txs = [] /\ calls run.2 = calls t + 1
            /\ (run.1 = inl (Raise Py.ValueError)
                \/ exists e, run.1 = inl (Raise e)
                             /\ Called (function_named (branch_manager (contracts obj)) fname)
                                  (inl e) ∈ run.2))
      /\ (account (w3_interface obj) = None ->
            run.1 <> inr tt /\ txs = [] /\ calls run.2 <= calls t + 2) in
  post "createBranch" (fun h => fn_createBranch name h (repeat x00 32))
       (branch_create env obj name head t)
  /\ post "advance" (fn_advance name) (advance env obj name head t)
  /\ post "rollback" (fn_rollback name) (rollback env obj name head t).
Proof.
  cbv zeta. split; [|split].
  - now apply (branch_command_run env obj "createBranch"
                 (fun h => fn_createBranch name h (repeat x00 32))).
  - now apply (branch_command_run env obj "advance" (fn_advance name)).
  - now apply (branch_command_run env obj "rollback" (fn_rollback name)).
Qed.

Lemma to_bytes_0x_hex (bs : bytes) :
  CLI.to_bytes_hexstr ("0x" +:+ Hex.hex bs) = Some bs
  /\ CLI.to_bytes_hexstr ("0X" +:+ Hex.hex bs) = Some bs.
Proof.
  unfold CLI.to_bytes_hexstr, CLI.remove_0x_prefix.
  rewrite (prefix_append "0x" (Hex.hex bs)), (prefix_append "0X" (Hex.hex bs)).
  assert (String.prefix "0x" ("0X" +:+ Hex.hex bs) = false) as -> by reflexivity.
  cbn [orb].
  change (Py.slice_from 2 ("0x" +:+ Hex.hex bs)) with (Hex.hex bs).
  change (Py.slice_from 2 ("0X" +:+ Hex.hex bs)) with (Hex.hex bs).
  rewrite hex_chars, hex_chars_even, unhex_hex_chars. now split.
Qed.

(** X14: A head written as the hexadecimal text of some bytes, with "0x" in
    front or bare (the form in which [commit] shows an identifier), reaches
    BranchManager as exactly those bytes, in each of the three commands. *)
Theorem head_text_reaches_contract (env : environment) (obj : session)
    (name : string) (b : bytes) (t : trace) :
  let sends (run : (failure + unit) * trace) (f : function_call) :=
    run.1 = inr tt ->
    exists tx, sent run.2 = sent t ++ [tx] /\ tx_function tx = f in
  (sends (branch_create env obj name ("0x" +:+ Hex.hex b) t)
         (fn_createBranch name b (repeat x00 32))
   /\ sends (advance env obj name ("0x" +:+ Hex.hex b) t) (fn_advance name b)
   /\ sends (rollback env obj name ("0x" +:+ Hex.hex b) t) (fn_rollback name b))
  /\ (sends (branch_create env obj name (Hex.hex b) t)
            (fn_createBranch name b (repeat x00 32))
      /\ sends (advance env obj name (Hex.hex b) t) (fn_advance name b)
      /\ sends (rollback env obj name (Hex.hex b) t) (fn_rollback name b)).
Proof.
  cbv zeta.
  assert (G : forall fname F head run,
             CLI.to_bytes_hexstr head = Some b ->
             run = (_ ← invoke env (function_named (branch_manager (contracts obj)) fname);
                    head_bytes ← try_ Py.ValueError (CLI.to_bytes_hexstr head);
                    _ ← invoke env (contract_function (branch_manager (contracts obj))
                                      (F head_bytes));
                    _ ← send env (w3_interface obj) (branch_manager (contracts obj))
                          (F head_bytes);
                    mret tt) t ->
             run.1 = inr tt ->
             exists tx, sent run.2 = sent t ++ [tx] /\ tx_function tx = F b).
  { intros fname F head run Hhead Hrun Hok.
    destruct (branch_command_run env obj fname F head t run Hrun)
      as (txs & Hsent & Htx & Hone & _).
    destruct (Hone Hok) as [tx ->].
    exists tx. split; [exact Hsent|].
    destruct (Htx tx) as (_ & hb & acct & Hhb & _ & _ & Hf & _);
      [apply list_elem_of_singleton; reflexivity|].
    rewrite Hhead in Hhb. injection Hhb as <-. exact Hf. }
  pose proof (proj1 (to_bytes_0x_hex b)) as H0x.
  pose proof (to_bytes_hex b) as Hbare.
  split; (split; [|split]).
  - exact (G "createBranch" (fun h => fn_createBranch name h (repeat x00 32)) _ _ H0x eq_refl).
  - exact (G "advance" (fn_advance name) _ _ H0x eq_refl).
  - exact (G "rollback" (fn_rollback name) _ _ H0x eq_refl).
  - exact (G "createBranch" (fun h => fn_createBranch name h (repeat x00 32)) _ _ Hbare eq_refl).
  - exact (G "advance" (fn_advance name) _ _ Hbare eq_refl).
  - exact (G "rollback" (fn_rollback name) _ _ Hbare eq_refl).
Qed.

(** What [cli] leaves in a session it completes. *)
Lemma cli_account (env : environment) (rpc_url : string) (key registry_addr : option string)
    (t t' : trace) (obj : session) :
  cli env rpc_url key registry_addr t = (inr obj, t') ->
  pk obj = key /\ rpc obj = rpc_url
  /\ (account (w3_interface obj) = None <-> key = None \/ key = Some "")
  /\ exists reg, registry_addr = Some reg /\ reg <> "".
Proof.
  unfold cli, new_FLVCSWeb3, load_contracts, _contract, get_addr, try_, invoke,
    print, exit, mbind, M_bind, mret, M_ret, raise.
  destruct registry_addr as [[|c reg]|]; cbv beta iota zeta; try discriminate.
  destruct key as [[|k key]|]; cbv beta iota zeta; repeat run_step.
  all: intros E; try discriminate E.
  all: injection E as <- <-; cbn [pk rpc account w3_interface].
  all: split; [reflexivity|]; split; [reflexivity|].
  all: split; [|eexists; split; [reflexivity | discriminate]].
  all: split; [intros H; first [discriminate H | now left | now right]
              | intros [H|H]; first [discriminate H | reflexivity]].
Qed.

(** X15: [cli] without a registry address (unset or empty) prints the error and
    exits with status 1 before any call is made; a session it completes has
    an account exactly when a non-empty key was given, and records the key
    and the RPC address it was given. *)
Theorem cli_session (env : environment) (rpc_url : string) (key registry_addr : option string)
    (t : trace) :
  ((registry_addr = None \/ registry_addr = Some "") ->
     (cli env rpc_url key registry_addr t).1 = inl (SystemExit 1)
     /\ calls (cli env rpc_url key registry_addr t).2 = calls t)
  /\ (forall obj, (cli env rpc_url key registry_addr t).1 = inr obj ->
        pk obj = key /\ rpc obj = rpc_url
        /\ (account (w3_interface obj) = None <-> key = None \/ key = Some "")
        /\ exists reg, registry_addr = Some reg /\ reg <> "").
Proof.
  split.
  - intros [-> | ->]; cbn [cli]; unfold mbind, M_bind, print, exit; cbn [fst snd];
      (split; [reflexivity|]); rewrite calls_app; cbn [calls]; lia.
  - intros obj H.
    destruct (cli env rpc_url key registry_addr t) as [out t'] eqn:E.
    cbn [fst] in H. subst out. exact (cli_account _ _ _ _ _ _ _ E).
Qed.

(** *** The [commit] command in a session *)

Lemma drafts_app (t1 t2 : trace) : drafts (t1 ++ t2) = drafts t1 ++ drafts t2.
Proof.
  induction t1 as [|ev t1 IH]; [reflexivity|].
  cbn [app drafts].
  destruct ev as [T c r|line]; [|exact IH].
  destruct c; try exact IH.
  destruct f; try exact IH. cbn [app]. now rewrite IH.
Qed.

Lemma reads_app (t1 t2 : trace) : reads (t1 ++ t2) = reads t1 ++ reads t2.
Proof.
  induction t1 as [|ev t1 IH]; [reflexivity|].
  cbn [app reads].
  destruct ev as [T c r|line]; [|exact IH].
  destruct c; try exact IH.
  destruct r as [e|v]; [exact IH|]. cbn [app]. now rewrite IH.
Qed.

(** [commit] is the read of the artifact, [add_bytes], and the rest run on
    the digest and the address [add_bytes] returned. *)
Lemma commit_unfold (env : environment) (obj : session) (artifact : string) (rnd : Z)
    (ps : list string) (root : gmap string bytes) (t : trace) :
  commit env obj artifact rnd ps root t
  = match read_artifact env artifact t with
    | (inl f, t') => ((inl f, root), t')
    | (inr data, t') =>
        let '(out, t'') :=
          submit env obj (SHA256.hexdigest data) ("ipfs://" +:+ SHA256.hexdigest data)
            rnd ps t' in
        ((out, (LocalIPFS.add_bytes data root).2), t'')
    end.
Proof.
  unfold commit. destruct (read_artifact env artifact t) as [[f|data] t']; reflexivity.
Qed.

(** What the part of [commit] behind [add_bytes] does in any environment. *)
Lemma submit_cases (env : environment) (obj : session) (data : bytes) (rnd : Z)
    (ps : list string) (t : trace) :
  let run := submit env obj (SHA256.hexdigest data) ("ipfs://" +:+ SHA256.hexdigest data)
               rnd ps t in
  exists rs txs,
    reads run.2 = reads t
    /\ drafts run.2 = drafts t ++ rs
    /\ sent run.2 = sent t ++ txs
    /\ (forall r, r ∈ rs ->
          rs = [r]
          /\ exists pb enc,
               CLI.parent_bytes_of ps = Some pb
               /\ ABI.encode CLI.commit_types
                    (CLI.commit_values pb rnd
                       (Keccak.keccak_text "client1,client2")
                       (Keccak.keccak_text "lr=0.01,bs=32")
                       (SHA256.digest data) ("ipfs://" +:+ SHA256.hexdigest data))
                  = Some enc
               /\ r = CLI.commit_input_of (Keccak.keccak256 enc) pb rnd
                        (Keccak.keccak_text "client1,client2")
                        (Keccak.keccak_text "lr=0.01,bs=32")
                        (SHA256.digest data) ("ipfs://" +:+ SHA256.hexdigest data))
    /\ (forall tx, tx ∈ txs ->
          txs = [tx]
          /\ exists r acct,
               rs = [r]
               /\ tx_function tx = fn_addCommit r
               /\ tx_to tx = commit_ledger (contracts obj)
               /\ account (w3_interface obj) = Some acct
               /\ tx_from tx = Deploy.acct_address acct)
    /\ (run.1 = inr tt -> exists tx, txs = [tx])
    /\ (account (w3_interface obj) = None -> txs = [] /\ run.1 <> inr tt).
Proof.
  cbv zeta.
  unfold submit, send, try_, invoke, mbind, M_bind, mret, M_ret, raise.
  rewrite to_bytes_hexdigest.
  set (c1 := Keccak.keccak_text "client1,client2").
  set (c2 := Keccak.keccak_text "lr=0.01,bs=32").
  destruct (CLI.parent_bytes_of ps) as [pb|] eqn:Hps;
    [destruct (ABI.encode _ _) as [enc|] eqn:Henc|];
    destruct (account (w3_interface obj)) as [acct|] eqn:Hacct;
    repeat run_step.
  all: cbn [fst snd].
  all: eexists _, _; split;
    [ rewrite !reads_app; cbn [reads]; rewrite ?app_nil_r; reflexivity | ].
  all: split;
    [ rewrite !drafts_app; cbn [drafts]; rewrite <- ?app_assoc; cbn [app]; reflexivity | ].
  all: split;
    [ rewrite !sent_app; cbn [sent]; rewrite <- ?app_assoc; cbn [app]; reflexivity | ].
  all: split;
    [ intros r Hr; in_list Hr;
      try solve [ split; [reflexivity|];
                  eexists _, _; split; [reflexivity|]; split; [exact Henc | reflexivity] ]
    | ].
  all: split;
    [ intros tx Htx; in_list Htx;
      try solve [ split; [reflexivity|];
                  eexists _, _; repeat (split; [reflexivity|]); reflexivity ]
    | ].
  all: split; [ intros Hout; first [discriminate Hout | eexists; reflexivity] | ].
  all: intros Hnone; first [discriminate Hnone | split; [reflexivity | discriminate]].
Qed.

(** What one invocation of [commit] does in any environment: it reads at
    most one artifact, hands at most one record to [addCommit] and sends at
    most one transaction, which carries that record. *)
Lemma commit_cases (env : environment) (obj : session) (artifact : string) (rnd : Z)
    (ps : list string) (root : gmap string bytes) (t : trace) :
  let run := commit env obj artifact rnd ps root t in
  exists ds rs txs,
    reads run.2 = reads t ++ ds
    /\ drafts run.2 = drafts t ++ rs
    /\ sent run.2 = sent t ++ txs
    /\ (ds = [] -> run.1.2 = root /\ rs = [] /\ txs = [] /\ run.1.1 <> inr tt)
    /\ (forall data, data ∈ ds ->
          ds = [data]
          /\ run.1.2 = (LocalIPFS.add_bytes data root).2
          /\ forall r, r ∈ rs ->
               rs = [r]
               /\ exists pb enc,
                    CLI.parent_bytes_of ps = Some pb
                    /\ ABI.encode CLI.commit_types
                         (CLI.commit_values pb rnd
                            (Keccak.keccak_text "client1,client2")
                            (Keccak.keccak_text "lr=0.01,bs=32")
                            (SHA256.digest data) ("ipfs://" +:+ SHA256.hexdigest data))
                       = Some enc
                    /\ r = CLI.commit_input_of (Keccak.keccak256 enc) pb rnd
                             (Keccak.keccak_text "client1,client2")
                             (Keccak.keccak_text "lr=0.01,bs=32")
                             (SHA256.digest data) ("ipfs://" +:+ SHA256.hexdigest data))
    /\ (forall tx, tx ∈ txs ->
          txs = [tx]
          /\ exists r acct,
               rs = [r]
               /\ tx_function tx = fn_addCommit r
               /\ tx_to tx = commit_ledger (contracts obj)
               /\ account (w3_interface obj) = Some acct
               /\ tx_from tx = Deploy.acct_address acct)
    /\ (run.1.1 = inr tt -> exists tx, txs = [tx])
    /\ (account (w3_interface obj) = None -> txs = [] /\ run.1.1 <> inr tt).
Proof.
  cbv zeta. rewrite commit_unfold.
  unfold read_artifact, invoke, mbind, M_bind.
  repeat run_step.
  4: {
    pose proof (submit_cases env obj v1 rnd ps
                  (((t ++ [Called ipfs_mkdir (inr v)])
                    ++ [Called (console_print
                                  ("Reading artifact from [cyan]" +:+ artifact
                                   +:+ "[/cyan]...")) (inr v0)])
                   ++ [Called (read_bytes artifact) (inr v1)]))
      as (rs & txs & Hreads & Hdrafts & Hsent & Hrs & Htxs & Hok & Hnone).
    cbv zeta in Hreads, Hdrafts, Hsent, Hok, Hnone.
    destruct (submit _ _ _ _ _ _ _) as [out t''].
    cbn [fst snd] in *.
    exists [v1], rs, txs.
    split; [rewrite Hreads, !reads_app; cbn [reads]; rewrite !app_nil_r; reflexivity|].
    split; [rewrite Hdrafts, !drafts_app; cbn [drafts]; rewrite !app_nil_r; reflexivity|].
    split; [rewrite Hsent, !sent_app; cbn [sent]; rewrite !app_nil_r; reflexivity|].
    split; [discriminate|].
    split.
    { intros data Hdata. in_list Hdata.
      split; [reflexivity|]. split; [reflexivity|]. exact Hrs. }
    split; [exact Htxs|]. split; [exact Hok | exact Hnone]. }
  all: cbn [fst snd].
  all: exists [], [], [].
  all: split; [rewrite !reads_app; cbn [reads]; rewrite ?app_nil_r; reflexivity|].
  all: split; [rewrite !drafts_app; cbn [drafts]; rewrite ?app_nil_r; reflexivity|].
  all: split; [rewrite !sent_app; cbn [sent]; rewrite ?app_nil_r; reflexivity|].
  all: split; [intros _; repeat split; discriminate|].
  all: split; [intros data Hdata; in_list Hdata|].
  all: split; [intros tx Htx; in_list Htx|].
  all: split; [discriminate|].
  all: intros _; split; [reflexivity | discriminate].
Qed.

(** One step of a run in an environment that answers every call. *)
Ltac answered_step Hans :=
  match goal with
  | |- context [?env ?t ?T ?c] =>
      lazymatch type of env with
      | environment =>
          let v := fresh "v" in
          let Hv := fresh "Hv" in
          destruct (Hans t T c) as [v Hv]; rewrite Hv; cbv beta iota zeta
      end
  end.

(** The bytes hashed for the identifier exist when every parent fits
    32 bytes and the round fits 64 bits. *)
Lemma commit_values_encode (pb : list bytes) (rnd : Z) (data : bytes) :
  ABI.encode CLI.commit_types
    (CLI.commit_values pb rnd
       (Keccak.keccak_text "client1,client2") (Keccak.keccak_text "lr=0.01,bs=32")
       (SHA256.digest data) ("ipfs://" +:+ SHA256.hexdigest data))
  = None
  <-> forallb (fun b : bytes => (length b <=? 32)%nat) pb
      && ((0 <=? rnd)%Z && (rnd <? 2 ^ 64)%Z) = false.
Proof.
  rewrite encode_commit_values.
  unfold Keccak.keccak_text.
  rewrite !keccak256_length, sha256_digest_length.
  change (32 <=? 32)%nat with true. rewrite !andb_true_r.
  destruct (forallb _ pb && _); split; congruence.
Qed.

(** The part of [commit] behind [add_bytes] when nothing outside refuses:
    the parents are parsed, the bytes are encoded, the record is handed to
    [addCommit] and, with a key, sent. *)
Lemma submit_accepted (env : environment) (obj : session) (data : bytes) (rnd : Z)
    (ps : list string) (t : trace) :
  (forall t0 T (c : call T), exists v, env t0 T c = inr v) ->
  let run := submit env obj (SHA256.hexdigest data) ("ipfs://" +:+ SHA256.hexdigest data)
               rnd ps t in
  match CLI.parent_bytes_of ps with
  | None =>
      run.1 = inl (Raise Py.ValueError)
      /\ drafts run.2 = drafts t /\ sent run.2 = sent t
  | Some pb =>
      match ABI.encode CLI.commit_types
              (CLI.commit_values pb rnd
                 (Keccak.keccak_text "client1,client2")
                 (Keccak.keccak_text "lr=0.01,bs=32")
                 (SHA256.digest data) ("ipfs://" +:+ SHA256.hexdigest data)) with
      | None =>
          run.1 = inl (Raise Py.ValueOutOfBounds)
          /\ drafts run.2 = drafts t /\ sent run.2 = sent t
      | Some enc =>
          let r := CLI.commit_input_of (Keccak.keccak256 enc) pb rnd
                     (Keccak.keccak_text "client1,client2")
                     (Keccak.keccak_text "lr=0.01,bs=32")
                     (SHA256.digest data) ("ipfs://" +:+ SHA256.hexdigest data) in
          drafts run.2 = drafts t ++ [r]
          /\ match account (w3_interface obj) with
             | None => run.1 = inl (Raise Py.RuntimeError) /\ sent run.2 = sent t
             | Some acct =>
                 run.1 = inr tt
                 /\ exists nonce,
                      sent run.2
                      = sent t ++ [{| tx_to := commit_ledger (contracts obj);
                                      tx_function := fn_addCommit r;
                                      tx_from := Deploy.acct_address acct;
                                      tx_nonce := nonce |}]
             end
      end
  end.
Proof.
  intros Hans. cbv zeta.
  unfold submit, send, try_, invoke, mbind, M_bind, mret, M_ret, raise.
  rewrite to_bytes_hexdigest.
  set (c1 := Keccak.keccak_text "client1,client2").
  set (c2 := Keccak.keccak_text "lr=0.01,bs=32").
  destruct (CLI.parent_bytes_of ps) as [pb|] eqn:Hps;
    [destruct (ABI.encode _ _) as [enc|] eqn:Henc|];
    destruct (account (w3_interface obj)) as [acct|] eqn:Hacct;
    repeat answered_step Hans.
  all: cbn [fst snd].
  all: rewrite ?drafts_app, ?sent_app; cbn [drafts sent];
    rewrite <- ?app_assoc; cbn [app]; rewrite ?app_nil_r.
  all: repeat split.
  eexists. reflexivity.
Qed.

(** One invocation of [commit] when nothing outside refuses. *)
Lemma commit_accepted (env : environment) (obj : session) (artifact : string) (rnd : Z)
    (ps : list string) (root : gmap string bytes) (t : trace) :
  (forall t0 T (c : call T), exists v, env t0 T c = inr v) ->
  let run := commit env obj artifact rnd ps root t in
  exists data,
    reads run.2 = reads t ++ [data]
    /\ run.1.2 = (LocalIPFS.add_bytes data root).2
    /\ match CLI.parent_bytes_of ps with
       | None =>
           run.1.1 = inl (Raise Py.ValueError)
           /\ drafts run.2 = drafts t /\ sent run.2 = sent t
       | Some pb =>
           match ABI.encode CLI.commit_types
                   (CLI.commit_values pb rnd
                      (Keccak.keccak_text "client1,client2")
                      (Keccak.keccak_text "lr=0.01,bs=32")
                      (SHA256.digest data) ("ipfs://" +:+ SHA256.hexdigest data)) with
           | None =>
               run.1.1 = inl (Raise Py.ValueOutOfBounds)
               /\ drafts run.2 = drafts t /\ sent run.2 = sent t
           | Some enc =>
               let r := CLI.commit_input_of (Keccak.keccak256 enc) pb rnd
                          (Keccak.keccak_text "client1,client2")
                          (Keccak.keccak_text "lr=0.01,bs=32")
                          (SHA256.digest data) ("ipfs://" +:+ SHA256.hexdigest data) in
               drafts run.2 = drafts t ++ [r]
               /\ match account (w3_interface obj) with
                  | None => run.1.1 = inl (Raise Py.RuntimeError) /\ sent run.2 = sent t
                  | Some acct =>
                      run.1.1 = inr tt
                      /\ exists nonce,
                           sent run.2
                           = sent t ++ [{| tx_to := commit_ledger (contracts obj);
                                           tx_function := fn_addCommit r;
                                           tx_from := Deploy.acct_address acct;
                                           tx_nonce := nonce |}]
                  end
           end
       end.
Proof.
  intros Hans. cbv zeta. rewrite commit_unfold.
  unfold read_artifact, invoke, mbind, M_bind.
  repeat answered_step Hans.
  set (t3 := ((t ++ [Called ipfs_mkdir (inr v)])
               ++ [Called (console_print
                             ("Reading artifact from [cyan]" +:+ artifact
                              +:+ "[/cyan]...")) (inr v0)])
              ++ [Called (read_bytes artifact) (inr v1)]).
  pose proof (submit_accepted env obj v1 rnd ps t3 Hans) as H.
  destruct (submit_cases env obj v1 rnd ps t3) as (rs & txs & Hreads & _).
  cbv zeta in H, Hreads.
  destruct (submit _ _ _ _ _ _ _) as [out t''].
  cbn [fst snd] in *.
  assert (Hd : drafts t3 = drafts t)
    by (subst t3; rewrite !drafts_app; cbn [drafts]; now rewrite !app_nil_r).
  assert (Hs : sent t3 = sent t)
    by (subst t3; rewrite !sent_app; cbn [sent]; now rewrite !app_nil_r).
  assert (Hr : reads t3 = reads t ++ [v1])
    by (subst t3; rewrite !reads_app; cbn [reads]; now rewrite !app_nil_r).
  rewrite Hd, Hs in H.
  exists v1. split; [now rewrite Hreads|]. split; [reflexivity | exact H].
Qed.

(** C1: the record [commit] sends to the ledger carries as [id] the
    Keccak-256 of the ABI encoding, under the types
    bytes32[], uint64, bytes32, bytes32, bytes32, string, of that record's
    own parents, round, clientsHash, hyperparamsHash, artifactHash and
    artifactURI, in this order.  Whatever the console, the files, web3 and
    the node answer, an invocation sends at most one transaction, to the
    CommitLedger contract, and a completed invocation has sent one.  And
    [commit] does send: when nothing outside refuses, a key is set, the
    round fits 64 bits and the parents are hexadecimal texts of at most
    32 bytes, the invocation completes. *)
Theorem commit_id_is_derived (env : environment) (obj : session) (artifact : string)
    (rnd : Z) (ps : list string) (root : gmap string bytes) (t : trace) :
  let '(res, root', t') := commit env obj artifact rnd ps root t in
  exists txs,
    sent t' = sent t ++ txs
    /\ (forall tx, tx ∈ txs ->
          txs = [tx]
          /\ tx_to tx = commit_ledger (contracts obj)
          /\ exists r enc,
               tx_function tx = fn_addCommit r
               /\ ABI.encode
                    [ABI.T_array (ABI.T_bytesN 32); ABI.T_uint 64; ABI.T_bytesN 32;
                     ABI.T_bytesN 32; ABI.T_bytesN 32; ABI.T_string]
                    [ABI.V_list (map ABI.V_bytes (CLI.parents r)); ABI.V_int (CLI.round r);
                     ABI.V_bytes (CLI.clientsHash r); ABI.V_bytes (CLI.hyperparamsHash r);
                     ABI.V_bytes (CLI.artifactHash r); ABI.V_str (CLI.artifactURI r)]
                  = Some enc
               /\ CLI.id r = Keccak.keccak256 enc)
    /\ (res = inr tt -> exists tx, txs = [tx])
    /\ ((forall t0 T (c : call T), exists v, env t0 T c = inr v) ->
        account (w3_interface obj) <> None ->
        (0 <= rnd < 2 ^ 64)%Z ->
        (exists pb, CLI.parent_bytes_of ps = Some pb
                    /\ forallb (fun b : bytes => (length b <=? 32)%nat) pb = true) ->
        res = inr tt).
Proof.
  pose proof (commit_cases env obj artifact rnd ps root t) as Hc.
  pose proof (commit_accepted env obj artifact rnd ps root t) as Ha.
  cbv zeta in Hc, Ha.
  destruct (commit env obj artifact rnd ps root t) as [[res root'] t'].
  cbn [fst snd] in Hc, Ha.
  destruct Hc as (ds & rs & txs & _ & _ & Hsent & Hnil & Hdata & Htx & Hok & _).
  exists txs. split; [exact Hsent|]. split; [|split; [exact Hok|]].
  - intros tx Hin.
    destruct (Htx tx Hin) as (Htxs & r & acct & Hrs & Hf & Hto & _ & _).
    split; [exact Htxs|]. split; [exact Hto|].
    destruct ds as [|data ds'].
    { destruct (Hnil eq_refl) as (_ & Hrs' & _). rewrite Hrs in Hrs'. discriminate. }
    destruct (Hdata data) as (_ & _ & Hrec); [apply list_elem_of_here|].
    destruct (Hrec r) as (_ & pb & enc & _ & Henc & ->);
      [rewrite Hrs; apply list_elem_of_singleton; reflexivity|].
    eexists _, enc. split; [exact Hf|].
    cbn [CLI.id CLI.parents CLI.round CLI.clientsHash CLI.hyperparamsHash
         CLI.artifactHash CLI.artifactURI CLI.commit_input_of].
    split; [exact Henc | reflexivity].
  - intros Hans Hacct Hrnd (pb & Hps & Hpb).
    destruct (Ha Hans) as (data & _ & _ & H).
    rewrite Hps in H.
    destruct (ABI.encode _ _) as [enc|] eqn:Henc.
    + cbv zeta in H. destruct H as (_ & H).
      destruct (account (w3_interface obj)); [exact (proj1 H) | congruence].
    + apply commit_values_encode in Henc. rewrite Hpb in Henc.
      assert ((0 <=? rnd)%Z && (rnd <? 2 ^ 64)%Z = true)
        by (apply andb_true_intro; split; [apply Z.leb_le | apply Z.ltb_lt]; lia).
      cbn [andb] in Henc. congruence.
Qed.

Lemma commit_id_is_derived_witness :
  let env := with_file (Hex.utf8 "hello") (answering (fun _ => "0xa1")) in
  let run := commit env (session_at (Some "k")) "model.bin" 1 [] ∅ [] in
  run.1.1 = inr tt
  /\ exists tx r enc,
       sent run.2 = [tx]
       /\ tx_function tx = fn_addCommit r
       /\ ABI.encode CLI.commit_types
            (CLI.commit_values (CLI.parents r) (CLI.round r) (CLI.clientsHash r)
               (CLI.hyperparamsHash r) (CLI.artifactHash r) (CLI.artifactURI r))
          = Some enc
       /\ CLI.id r = Keccak.keccak256 enc.
Proof.
  cbv zeta.
  pose proof (commit_id_is_derived
                (with_file (Hex.utf8 "hello") (answering (fun _ => "0xa1")))
                (session_at (Some "k")) "model.bin" 1 [] ∅ []) as H.
  destruct (commit _ _ _ _ _ _ _) as [[res root'] t'].
  destruct H as (txs & Hsent & Hid & Hok & Hrun).
  cbn [fst snd].
  assert (Hres : res = inr tt).
  { apply Hrun.
    - intros t0 T c. destruct c; eexists; reflexivity.
    - discriminate.
    - lia.
    - exists [repeat x00 32]. split; reflexivity. }
  split; [exact Hres|].
  destruct (Hok Hres) as (tx & ->).
  destruct (Hid tx) as (_ & _ & r & enc & Hf & Henc & Hr);
    [apply list_elem_of_singleton; reflexivity|].
  exists tx, r, enc. split; [exact Hsent|]. split; [exact Hf|].
  split; [exact Henc | exact Hr].
Defined.

(** C5: an invocation without parent arguments uses one all-zero 32-byte
    parent, in the record it hands to [addCommit] and in the bytes it
    hashes for the id, which carry, right after the six head words, the
    count 1 and that zero word; this holds for every record built, whether
    web3 and the node then take it or not, and a transaction sent carries
    a record so built.  Such a record is built in every invocation in which
    the round fits 64 bits and nothing outside refuses: without a key the
    run then ends in [RuntimeError] with the record built, with a key the
    record is sent.  With any parent arguments, the parents of a record
    are never empty: the count word of the hashed bytes is the number of
    parents, at least one. *)
Theorem root_commit_sentinel :
  (forall (env : environment) (obj : session) (artifact : string) (rnd : Z)
          (root : gmap string bytes) (t : trace),
      let '(res, root', t') := commit env obj artifact rnd [] root t in
      exists rs txs,
        drafts t' = drafts t ++ rs
        /\ sent t' = sent t ++ txs
        /\ (forall r, r ∈ rs ->
              rs = [r]
              /\ CLI.parents r = [repeat x00 32]
              /\ exists enc,
                   ABI.encode CLI.commit_types
                     (CLI.commit_values [repeat x00 32] (CLI.round r) (CLI.clientsHash r)
                        (CLI.hyperparamsHash r) (CLI.artifactHash r) (CLI.artifactURI r))
                   = Some enc
                   /\ CLI.id r = Keccak.keccak256 enc
                   /\ take 64 (drop 192 enc) = ABI.uint256 1 ++ repeat x00 32)
        /\ (forall tx, tx ∈ txs -> exists r, rs = [r] /\ tx_function tx = fn_addCommit r)
        /\ ((forall t0 T (c : call T), exists v, env t0 T c = inr v) ->
            (0 <= rnd < 2 ^ 64)%Z ->
            exists r,
              rs = [r]
              /\ (account (w3_interface obj) = None ->
                    res = inl (Raise Py.RuntimeError) /\ txs = [])
              /\ (account (w3_interface obj) <> None ->
                    res = inr tt
                    /\ exists tx, txs = [tx] /\ tx_function tx = fn_addCommit r)))
  /\ (forall (env : environment) (obj : session) (artifact : string) (rnd : Z)
             (ps : list string) (root : gmap string bytes) (t : trace),
        let '(res, root', t') := commit env obj artifact rnd ps root t in
        exists rs txs,
          drafts t' = drafts t ++ rs
          /\ sent t' = sent t ++ txs
          /\ (forall r, r ∈ rs ->
                CLI.parents r <> []
                /\ length (CLI.parents r) = Nat.max 1 (length ps)
                /\ exists enc,
                     ABI.encode CLI.commit_types
                       (CLI.commit_values (CLI.parents r) (CLI.round r) (CLI.clientsHash r)
                          (CLI.hyperparamsHash r) (CLI.artifactHash r) (CLI.artifactURI r))
                     = Some enc
                     /\ CLI.id r = Keccak.keccak256 enc
                     /\ take (32 + 32 * length (CLI.parents r)) (drop 192 enc)
                        = ABI.uint256 (Z.of_nat (length (CLI.parents r)))
                          ++ concat (map (ABI.zpad_right 32) (CLI.parents r)))
          /\ (forall tx, tx ∈ txs -> exists r, r ∈ rs /\ tx_function tx = fn_addCommit r))
  /\ CLI.parent_bytes_of [] = Some [repeat x00 32].
Proof.
  assert (Hrecord : forall env obj artifact rnd ps root t,
            let run := commit env obj artifact rnd ps root t in
            exists rs txs,
              drafts run.2 = drafts t ++ rs
              /\ sent run.2 = sent t ++ txs
              /\ (forall r, r ∈ rs ->
                    rs = [r]
                    /\ exists pb enc,
                         CLI.parent_bytes_of ps = Some pb
                         /\ CLI.parents r = pb
                         /\ ABI.encode CLI.commit_types
                              (CLI.commit_values pb (CLI.round r) (CLI.clientsHash r)
                                 (CLI.hyperparamsHash r) (CLI.artifactHash r)
                                 (CLI.artifactURI r))
                            = Some enc
                         /\ CLI.id r = Keccak.keccak256 enc)
              /\ (forall tx, tx ∈ txs ->
                    exists r, rs = [r] /\ tx_function tx = fn_addCommit r)).
  { intros env obj artifact rnd ps root t. cbv zeta.
    destruct (commit_cases env obj artifact rnd ps root t)
      as (ds & rs & txs & _ & Hdrafts & Hsent & Hnil & Hdata & Htx & _).
    exists rs, txs. split; [exact Hdrafts|]. split; [exact Hsent|]. split.
    - intros r Hr.
      destruct ds as [|data ds'].
      { destruct (Hnil eq_refl) as (_ & -> & _). apply elem_of_nil in Hr. destruct Hr. }
      destruct (Hdata data) as (_ & _ & Hrec); [apply list_elem_of_here|].
      destruct (Hrec r Hr) as (Hrs & pb & enc & Hps & Henc & ->).
      split; [exact Hrs|]. exists pb, enc.
      cbn [CLI.id CLI.parents CLI.round CLI.clientsHash CLI.hyperparamsHash
           CLI.artifactHash CLI.artifactURI CLI.commit_input_of].
      split; [exact Hps|]. split; [reflexivity|]. split; [exact Henc | reflexivity].
    - intros tx Hin.
      destruct (Htx tx Hin) as (_ & r & _ & Hrs & Hf & _).
      exists r. split; [exact Hrs | exact Hf]. }
  split; [|split; [|reflexivity]].
  - intros env obj artifact rnd root t.
    pose proof (Hrecord env obj artifact rnd [] root t) as Hc.
    pose proof (commit_accepted env obj artifact rnd [] root t) as Ha.
    cbv zeta in Hc, Ha.
    destruct (commit env obj artifact rnd [] root t) as [[res root'] t'].
    cbn [fst snd] in Hc, Ha.
    destruct Hc as (rs & txs & Hdrafts & Hsent & Hrec & Htx).
    exists rs, txs. split; [exact Hdrafts|]. split; [exact Hsent|].
    split; [|split; [exact Htx|]].
    + intros r Hr.
      destruct (Hrec r Hr) as (Hrs & pb & enc & Hps & Hpar & Henc & Hid).
      cbn [CLI.parent_bytes_of] in Hps. apply (inj Some) in Hps. subst pb.
      split; [exact Hrs|]. split; [exact Hpar|].
      exists enc. split; [exact Henc|]. split; [exact Hid|].
      exact (proj1 (encoded_parents_words _ _ _ _ _ _ _ Henc)).
    + intros Hans Hrnd.
      destruct (Ha Hans) as (data & _ & _ & H).
      cbn [CLI.parent_bytes_of] in H.
      destruct (ABI.encode _ _) as [enc|] eqn:Henc.
      * cbv zeta in H. destruct H as (Hd & H).
        rewrite Hdrafts in Hd. apply app_inv_head in Hd.
        eexists. split; [exact Hd|].
        destruct (account (w3_interface obj)) as [acct|].
        -- split; [discriminate|]. intros _.
           destruct H as (Hres & nonce & Hs).
           rewrite Hsent in Hs. apply app_inv_head in Hs.
           split; [exact Hres|]. eexists. split; [exact Hs | reflexivity].
        -- split; [|congruence]. intros _.
           destruct H as (Hres & Hs).
           rewrite Hsent in Hs. rewrite <- (app_nil_r (sent t)) in Hs at 2.
           apply app_inv_head in Hs. split; [exact Hres | exact Hs].
      * apply commit_values_encode in Henc.
        assert ((0 <=? rnd)%Z && (rnd <? 2 ^ 64)%Z = true)
          by (apply andb_true_intro; split; [apply Z.leb_le | apply Z.ltb_lt]; lia).
        cbn [forallb length Nat.leb repeat andb] in Henc. congruence.
  - intros env obj artifact rnd ps root t.
    pose proof (Hrecord env obj artifact rnd ps root t) as Hc.
    cbv zeta in Hc.
    destruct (commit env obj artifact rnd ps root t) as [[res root'] t'].
    cbn [fst snd] in Hc.
    destruct Hc as (rs & txs & Hdrafts & Hsent & Hrec & Htx).
    exists rs, txs. split; [exact Hdrafts|]. split; [exact Hsent|]. split.
    + intros r Hr.
      destruct (Hrec r Hr) as (_ & pb & enc & Hps & Hpar & Henc & Hid).
      pose proof (parent_bytes_of_length _ _ Hps) as Hlen.
      rewrite Hpar.
      split; [intros ->; cbn [length] in Hlen; lia|].
      split; [exact Hlen|].
      exists enc. split; [exact Henc|]. split; [exact Hid|].
      exact (proj1 (encoded_parents_words _ _ _ _ _ _ _ Henc)).
    + intros tx Hin. destruct (Htx tx Hin) as (r & -> & Hf).
      exists r. split; [apply list_elem_of_singleton; reflexivity | exact Hf].
Qed.

Lemma root_commit_sentinel_witness :
  let env := with_file (Hex.utf8 "hello") (answering (fun _ => "0xa1")) in
  (let run := commit env (session_at None) "model.bin" 1 [] ∅ [] in
   run.1.1 = inl (Raise Py.RuntimeError)
   /\ sent run.2 = []
   /\ exists r, drafts run.2 = [r] /\ CLI.parents r = [repeat x00 32])
  /\ (let run := commit env (session_at (Some "k")) "model.bin" 1 [] ∅ [] in
      run.1.1 = inr tt
      /\ exists tx r,
           sent run.2 = [tx] /\ tx_function tx = fn_addCommit r
           /\ CLI.parents r = [repeat x00 32]).
Proof.
  cbv zeta.
  assert (Hans : forall t0 T (c : call T),
             exists v, with_file (Hex.utf8 "hello") (answering (fun _ => "0xa1")) t0 T c
                       = inr v)
    by (intros t0 T c; destruct c; eexists; reflexivity).
  split.
  - pose proof (proj1 root_commit_sentinel
                  (with_file (Hex.utf8 "hello") (answering (fun _ => "0xa1")))
                  (session_at None) "model.bin" 1%Z ∅ []) as H.
    destruct (commit _ _ _ _ _ _ _) as [[res root'] t'].
    destruct H as (rs & txs & Hdrafts & Hsent & Hrec & _ & Hrun).
    cbn [fst snd].
    destruct (Hrun Hans) as (r & -> & Hnone & _); [lia|].
    destruct (Hnone eq_refl) as (Hres & ->).
    split; [exact Hres|]. split; [exact Hsent|].
    exists r. split; [exact Hdrafts|].
    destruct (Hrec r) as (_ & Hpar & _); [apply list_elem_of_singleton; reflexivity|].
    exact Hpar.
  - pose proof (proj1 root_commit_sentinel
                  (with_file (Hex.utf8 "hello") (answering (fun _ => "0xa1")))
                  (session_at (Some "k")) "model.bin" 1%Z ∅ []) as H.
    destruct (commit _ _ _ _ _ _ _) as [[res root'] t'].
    destruct H as (rs & txs & Hdrafts & Hsent & Hrec & _ & Hrun).
    cbn [fst snd].
    destruct (Hrun Hans) as (r & -> & _ & Hsome); [lia|].
    destruct Hsome as (Hres & tx & -> & Hf); [discriminate|].
    split; [exact Hres|].
    exists tx, r. split; [exact Hsent|]. split; [exact Hf|].
    destruct (Hrec r) as (_ & Hpar & _); [apply list_elem_of_singleton; reflexivity|].
    exact Hpar.
Defined.

(** X8: [commit] stores the artifact as soon as it has read it, and no later
    failure (a parent that is not hexadecimal, a round out of range, a
    missing key, a refusal by web3 or by the node) undoes the write: the
    store is then what [add_bytes] left and the artifact can be read back
    under its address.  A run that ends before the artifact is read (the
    store directory cannot be made, the first line cannot be printed, the
    file cannot be read) leaves the store as it was, sends nothing and
    fails; a run that completes has read the artifact. *)
Theorem commit_keeps_artifact (env : environment) (obj : session) (artifact : string)
    (rnd : Z) (ps : list string) (root : gmap string bytes) (t : trace) :
  let '(res, root', t') := commit env obj artifact rnd ps root t in
  exists ds,
    reads t' = reads t ++ ds
    /\ (ds = [] -> root' = root /\ res <> inr tt /\ sent t' = sent t)
    /\ (forall data, data ∈ ds ->
          ds = [data]
          /\ root' = (LocalIPFS.add_bytes data root).2
          /\ exists stored_bytes,
               LocalIPFS.get ("ipfs://" +:+ SHA256.hexdigest data) root' = inr stored_bytes
               /\ (forall outside,
                      LocalIPFS.get_path outside ("ipfs://" +:+ SHA256.hexdigest data) root'
                      = inr stored_bytes)
               /\ (root !! SHA256.hexdigest data = None -> stored_bytes = data))
    /\ (res = inr tt -> exists data, ds = [data]).
Proof.
  pose proof (commit_cases env obj artifact rnd ps root t) as Hc.
  cbv zeta in Hc.
  destruct (commit env obj artifact rnd ps root t) as [[res root'] t'].
  cbn [fst snd] in Hc.
  destruct Hc as (ds & rs & txs & Hreads & _ & Hsent & Hnil & Hdata & _ & _ & _).
  exists ds. split; [exact Hreads|]. split; [|split].
  - intros Hds. destruct (Hnil Hds) as (Hroot & _ & -> & Hres).
    split; [exact Hroot|]. split; [exact Hres|].
    now rewrite app_nil_r in Hsent.
  - intros data Hin. destruct (Hdata data Hin) as (Hds & -> & _).
    split; [exact Hds|]. split; [reflexivity|].
    exists (default data (root !! SHA256.hexdigest data)).
    assert (Hget : LocalIPFS.get ("ipfs://" +:+ SHA256.hexdigest data)
                     (LocalIPFS.add_bytes data root).2
                   = inr (default data (root !! SHA256.hexdigest data))).
    { rewrite get_strips_scheme. unfold SHA256.hexdigest at 1.
      rewrite get_digest. fold (SHA256.hexdigest data).
      now rewrite add_bytes_lookup. }
    split; [exact Hget|]. split.
    + intros outside. rewrite get_path_address. exact Hget.
    + intros ->. reflexivity.
  - intros Hres. destruct ds as [|data ds'].
    + destruct (Hnil eq_refl) as (_ & _ & _ & Hne). contradiction.
    + destruct (Hdata data) as (Hds & _); [apply list_elem_of_here|].
      exists data. exact Hds.
Qed.

(** X9: which way an invocation ends when the console, the files, web3 and
    the node refuse nothing: the artifact is read and stored; then parents
    that are not hexadecimal give [ValueError]; else a parent longer than
    32 bytes or a round outside uint64 gives [ValueOutOfBounds]; else the
    record, with the parsed parents, the round and the digest of the
    artifact, is handed to [addCommit], and a missing key gives
    [RuntimeError]; else exactly one transaction is sent to CommitLedger
    from the account of the session, carrying that record.  Only the last
    case sends anything. *)
Theorem commit_outcome (env : environment) (obj : session) (artifact : string)
    (rnd : Z) (ps : list string) (root : gmap string bytes) (t : trace) :
  (forall t0 T (c : call T), exists v, env t0 T c = inr v) ->
  let '(res, root', t') := commit env obj artifact rnd ps root t in
  exists data,
    reads t' = reads t ++ [data]
    /\ root' = (LocalIPFS.add_bytes data root).2
    /\ match CLI.parent_bytes_of ps with
       | None =>
           res = inl (Raise Py.ValueError)
           /\ drafts t' = drafts t /\ sent t' = sent t
       | Some pb =>
           if forallb (fun b : bytes => (length b <=? 32)%nat) pb
              && ((0 <=? rnd)%Z && (rnd <? 2 ^ 64)%Z)
           then
             exists r,
               drafts t' = drafts t ++ [r]
               /\ CLI.parents r = pb /\ CLI.round r = rnd
               /\ CLI.artifactHash r = SHA256.digest data
               /\ match account (w3_interface obj) with
                  | None => res = inl (Raise Py.RuntimeError) /\ sent t' = sent t
                  | Some acct =>
                      res = inr tt
                      /\ exists nonce,
                           sent t'
                           = sent t ++ [{| tx_to := commit_ledger (contracts obj);
                                           tx_function := fn_addCommit r;
                                           tx_from := Deploy.acct_address acct;
                                           tx_nonce := nonce |}]
                  end
           else
             res = inl (Raise Py.ValueOutOfBounds)
             /\ drafts t' = drafts t /\ sent t' = sent t
       end.
Proof.
  intros Hans.
  pose proof (commit_accepted env obj artifact rnd ps root t Hans) as Ha.
  cbv zeta in Ha.
  destruct (commit env obj artifact rnd ps root t) as [[res root'] t'].
  cbn [fst snd] in Ha.
  destruct Ha as (data & Hreads & Hroot & H).
  exists data. split; [exact Hreads|]. split; [exact Hroot|].
  destruct (CLI.parent_bytes_of ps) as [pb|]; [|exact H].
  pose proof (commit_values_encode pb rnd data) as Henc.
  destruct (ABI.encode _ _) as [enc|].
  - destruct (forallb _ pb && _).
    + cbv zeta in H. destruct H as (Hd & H).
      eexists. split; [exact Hd|].
      cbn [CLI.parents CLI.round CLI.artifactHash CLI.commit_input_of].
      split; [reflexivity|]. split; [reflexivity|]. split; [reflexivity | exact H].
    + destruct Henc as [_ Henc]. specialize (Henc eq_refl). discriminate.
  - destruct Henc as [Henc _]. rewrite (Henc eq_refl). exact H.
Qed.

Lemma commit_outcome_witness :
  let env := with_file (Hex.utf8 "hello") (answering (fun _ => "0xa1")) in
  let '(res, root', t') := commit env (session_at (Some "k")) "model.bin" 1 [] ∅ [] in
  exists data,
    reads t' = [data]
    /\ root' = (LocalIPFS.add_bytes data ∅).2
    /\ exists r,
         drafts t' = [r]
         /\ CLI.parents r = [repeat x00 32] /\ CLI.round r = 1%Z
         /\ CLI.artifactHash r = SHA256.digest data
         /\ res = inr tt
         /\ exists nonce,
              sent t' = [{| tx_to := Deploy.contract_at "0xa1" [];
                            tx_function := fn_addCommit r;
                            tx_from := "0xDk";
                            tx_nonce := nonce |}].
Proof.
  cbv zeta.
  pose proof (commit_outcome
                (with_file (Hex.utf8 "hello") (answering (fun _ => "0xa1")))
                (session_at (Some "k")) "model.bin" 1 [] ∅ []) as H.
  destruct (commit _ _ _ _ _ _ _) as [[res root'] t'].
  destruct H as (data & Hreads & Hroot & r & H).
  { intros t0 T c. destruct c; eexists; reflexivity. }
  exists data. split; [exact Hreads|]. split; [exact Hroot|].
  exists r. exact H.
Defined.

(** Every record [commit] sends is the record that [CLI.commit] appends for
    the bytes read: the command with the console, the files, web3 and the
    node can fail where [CLI.commit] does not, and sends nothing else. *)
Lemma commit_sends_the_record (env : environment) (obj : session) (artifact : string)
    (rnd : Z) (ps : list string) (root : gmap string bytes) (t : trace) (w : CLI.world) :
  let run := commit env obj artifact rnd ps root t in
  exists ds txs,
    reads run.2 = reads t ++ ds
    /\ sent run.2 = sent t ++ txs
    /\ forall data tx, data ∈ ds -> tx ∈ txs ->
         exists r,
           tx_function tx = fn_addCommit r
           /\ CLI.commit (context_of obj) data rnd ps w
              = (inr tt, {| CLI.ipfs_local := (LocalIPFS.add_bytes data (CLI.ipfs_local w)).2;
                            CLI.ledger := CLI.ledger w ++ [r] |}).
Proof.
  cbv zeta.
  destruct (commit_cases env obj artifact rnd ps root t)
    as (ds & rs & txs & Hreads & _ & Hsent & _ & Hdata & Htx & _).
  exists ds, txs. split; [exact Hreads|]. split; [exact Hsent|].
  intros data tx Hd Hin.
  destruct (Htx tx Hin) as (_ & r & acct & Hrs & Hf & _ & Hacct & _).
  destruct (Hdata data Hd) as (_ & _ & Hrec).
  destruct (Hrec r) as (_ & pb & enc & Hps & Henc & ->);
    [rewrite Hrs; apply list_elem_of_singleton; reflexivity|].
  eexists. split; [exact Hf|].
  rewrite commit_run, Hps, Henc.
  unfold CLI.send_addCommit, context_of. rewrite Hacct.
  rewrite bool_decide_eq_true_2 by discriminate. reflexivity.
Qed.

(** X16: In a session started without a key nothing is ever sent: [commit]
    fails without sending a transaction whatever the console, the files,
    web3 and the node answer, and the three branch commands send no
    transaction. *)
Theorem session_without_key_sends_nothing (env : environment) (rpc_url : string)
    (key registry_addr : option string) (t : trace) :
  key = None \/ key = Some "" ->
  match (cli env rpc_url key registry_addr t).1 with
  | inr obj =>
      (forall env' artifact rnd ps root t0,
          (commit env' obj artifact rnd ps root t0).1.1 <> inr tt
          /\ sent (commit env' obj artifact rnd ps root t0).2 = sent t0)
      /\ (forall env' name head t0,
            sent (branch_create env' obj name head t0).2 = sent t0
            /\ sent (advance env' obj name head t0).2 = sent t0
            /\ sent (rollback env' obj name head t0).2 = sent t0)
  | inl _ => True
  end.
Proof.
  intros Hkey.
  destruct (cli env rpc_url key registry_addr t) as [[f|obj] t'] eqn:E; [exact I|].
  cbn [fst].
  destruct (cli_account _ _ _ _ _ _ _ E) as (_ & _ & Hacct & _).
  apply Hacct in Hkey. clear Hacct.
  split.
  - intros env' artifact rnd ps root t0.
    destruct (commit_cases env' obj artifact rnd ps root t0)
      as (ds & rs & txs & _ & _ & Hsent & _ & _ & _ & _ & Hnone).
    destruct (Hnone Hkey) as (-> & Hres).
    split; [exact Hres|]. now rewrite app_nil_r in Hsent.
  - intros env' name head t0.
    assert (G : forall fname F run,
               run = (_ ← invoke env' (function_named (branch_manager (contracts obj)) fname);
                      head_bytes ← try_ Py.ValueError (CLI.to_bytes_hexstr head);
                      _ ← invoke env' (contract_function (branch_manager (contracts obj))
                                         (F head_bytes));
                      _ ← send env' (w3_interface obj) (branch_manager (contracts obj))
                            (F head_bytes);
                      mret tt) t0 ->
               sent run.2 = sent t0).
    { intros fname F run Hrun.
      destruct (branch_command_run env' obj fname F head t0 run Hrun)
        as (txs & Hsent & _ & _ & _ & Hnone).
      destruct (Hnone Hkey) as (_ & -> & _).
      now rewrite app_nil_r in Hsent. }
    split; [|split].
    + exact (G "createBranch" (fun h => fn_createBranch name h (repeat x00 32)) _ eq_refl).
    + exact (G "advance" (fn_advance name) _ eq_refl).
    + exact (G "rollback" (fn_rollback name) _ eq_refl).
Qed.

(** *** Sessions run, and [deploy] against [load_contracts] *)

Lemma session_without_key_sends_nothing_witness :
  match (cli (answering (fun _ => "0x00000000000000000000000000000000000000a1"))
             "http://127.0.0.1:8545" None (Some "0xa0") []).1 with
  | inr obj =>
      (forall env' artifact rnd ps root t0,
          (commit env' obj artifact rnd ps root t0).1.1 <> inr tt
          /\ sent (commit env' obj artifact rnd ps root t0).2 = sent t0)
      /\ (forall env' name head t0,
            sent (branch_create env' obj name head t0).2 = sent t0
            /\ sent (advance env' obj name head t0).2 = sent t0
            /\ sent (rollback env' obj name head t0).2 = sent t0)
  | inl _ => True
  end.
Proof.
  apply (session_without_key_sends_nothing
           (answering (fun _ => "0x00000000000000000000000000000000000000a1"))
           "http://127.0.0.1:8545" None (Some "0xa0") []).
  left. reflexivity.
Defined.

(** A root commit of the artifact b"hello" in round 1, run in a session
    with a key on a node that takes everything. *)
Example session_commit_hello_root :
  let env := with_file (Hex.utf8 "hello") (answering (fun _ => "0xa1")) in
  let '(res, root', t') := commit env (session_at (Some "k")) "model.bin" 1 [] ∅ [] in
  res = inr tt
  /\ size root' = 1
  /\ map (fun tx =>
            match tx_function tx with
            | fn_addCommit r =>
                (Hex.hex (CLI.id r), map Hex.hex (CLI.parents r), CLI.artifactURI r,
                 tx_from tx)
            | _ => ("", [], "", "")
            end) (sent t')
     = [("3ceabf51406d3cae04b18d9e3bb9db9d2ba37eb7a0f23ee030f766e37f8ef922",
         ["0000000000000000000000000000000000000000000000000000000000000000"],
         "ipfs://2cf24dba5fb0a30e26e83b2ac5b9e29e1b161e5c1fa7425e73043362938b9824",
         "0xDk")].
Proof. vm_compute. repeat split. Qed.

(** The same invocation when the console refuses the first line: nothing
    is read, stored or sent. *)
Example commit_first_line_refused :
  let env := refusing_console
               (with_file (Hex.utf8 "hello") (answering (fun _ => "0xa1"))) in
  let '(res, root', t') := commit env (session_at (Some "k")) "model.bin" 1 [] ∅ [] in
  res = inl (Raise Py.Exception)
  /\ size root' = 0 /\ reads t' = [] /\ sent t' = [] /\ calls t' = 2.
Proof. vm_compute. repeat split. Qed.

(** The parent argument "0x" on a web3 that matches [bytes32[]] strictly:
    the record, with one empty parent, is built and refused; the artifact
    stays stored, nothing is sent. *)
Example commit_short_parent_refused :
  let env := strict_bytes32
               (with_file (Hex.utf8 "hello") (answering (fun _ => "0xa1"))) in
  let '(res, root', t') := commit env (session_at (Some "k")) "model.bin" 1 ["0x"] ∅ [] in
  res = inl (Raise Py.Exception)
  /\ size root' = 1 /\ map CLI.parents (drafts t') = [[[]]] /\ sent t' = [].
Proof. vm_compute. repeat split. Qed.

(** A root commit in a session without a key: the artifact is stored and
    the record is built, nothing is sent. *)
Example commit_without_key_in_session :
  let env := with_file (Hex.utf8 "hello") (answering (fun _ => "0xa1")) in
  let '(res, root', t') := commit env (session_at None) "model.bin" 1 [] ∅ [] in
  res = inl (Raise Py.RuntimeError)
  /\ size root' = 1 /\ length (drafts t') = 1 /\ sent t' = [].
Proof. vm_compute. repeat split. Qed.

(** A session on a registry that knows the three contracts, then a branch
    advanced to a commit identifier: one transaction, with the nonce of the
    node. *)
Example session_then_advance :
  let env := answering (fun _ => "0x00000000000000000000000000000000000000a1") in
  match cli env "http://127.0.0.1:8545" (Some "k") (Some "0xa0") [] with
  | (inr obj, t) =>
      length (queries t) = 3
      /\ (advance env obj "main" "0xab" t).1 = inr tt
      /\ map (fun tx => (tx_function tx, tx_from tx, tx_nonce tx))
           (sent (advance env obj "main" "0xab" t).2)
         = [(fn_advance "main" [xab], "0xDk", 7%Z)]
  | (inl _, _) => False
  end.
Proof. vm_compute. repeat split. Qed.

(** A registry that does not know BranchManager: [load_contracts] stops
    there, PolicyRegistry is not asked for. *)
Example load_contracts_missing_name :
  let answer (key : bytes) :=
    if String.eqb (Hex.hex key) (Hex.hex (Keccak.keccak_text "BranchManager"))
    then "0x0000000000000000000000000000000000000000"
    else "0x00000000000000000000000000000000000000a1" in
  (load_contracts (answering answer) "0xa0" []).1 = inl (Raise Py.RuntimeError)
  /\ length (queries (load_contracts (answering answer) "0xa0" []).2) = 2.
Proof. vm_compute. split; reflexivity. Qed.

(** X17: the names [deploy] registers are the names [load_contracts] looks up:
    every key asked of the registry by [load_contracts] is a key that a
    completed [deploy] has set, whatever the two nodes answer. *)
Theorem deployed_names_are_looked_up (envd : Deploy.environment) (key : string)
    (td : Deploy.trace) (envc : environment) (addr : string) (tc : trace) :
  match Deploy.deploy envd key td with
  | (Deploy.Returned _, td') =>
      exists regs qs,
        Deploy.registrations td' = Deploy.registrations td ++ regs
        /\ queries (load_contracts envc addr tc).2 = queries tc ++ qs
        /\ forall k, k ∈ map fst qs -> k ∈ map (fun x => x.1.2) regs
  | _ => True
  end.
Proof.
  pose proof (first_body_returns envd key td) as H.
  assert (E : Deploy.deploy envd key td = Deploy.first_body envd key td).
  { unfold Deploy.deploy. apply bind_dead. revert H. apply triple_weaken; auto. }
  rewrite E. unfold Deploy.triple in H.
  destruct (Deploy.first_body envd key td) as [[u|r|e] td']; [exact I| |exact I].
  destruct H as (registry & deployer & la & ma & pa & _ & Hregs).
  eexists. 
  unfold load_contracts, _contract, get_addr, try_, invoke, mbind, M_bind, mret, M_ret, raise.
  cbv beta iota zeta.
  repeat run_step.
  all: cbn [snd]; eexists; split; [exact Hregs|]; split;
    [ rewrite !queries_app; cbn [queries]; rewrite <- ?app_assoc; cbn [app]; reflexivity | ].
  all: cbn [map fst snd]; intros k Hk; in_list Hk.
  all: repeat (apply elem_of_cons;
               first [ left; lazymatch goal with |- ?x = ?y => constr_eq x y end; reflexivity
                     | right ]).
Qed.

End ClientFacts.

(** ** More on [deploy] and on the records [commit] sends *)

Section WiringFacts.

Lemma deploy_transactions_app (t1 t2 : Deploy.trace) :
  deploy_transactions (t1 ++ t2) = deploy_transactions t1 ++ deploy_transactions t2.
Proof.
  induction t1 as [|ev t1 IH]; [reflexivity|].
  cbn [app deploy_transactions].
  destruct ev as [T c r|line]; [|exact IH].
  destruct c; try exact IH.
  destruct r as [e|v]; [exact IH|]. cbn [app]. now rewrite IH.
Qed.

Ltac deploy_step :=
  match goal with
  | |- context [?env ?t ?T ?c] =>
      lazymatch type of env with
      | Deploy.environment =>
          let v := fresh "v" in
          let e := fresh "e" in
          destruct (env t T c) as [e|v];
          cbv beta iota zeta
      end
  | |- context [let '(_, _) := ?p in _] => is_var p; destruct p; cbv beta iota zeta
  end.

Lemma deploy_calls_app (t1 t2 : Deploy.trace) :
  deploy_calls (t1 ++ t2) = deploy_calls t1 ++ deploy_calls t2.
Proof.
  induction t1 as [|ev t1 IH]; [reflexivity|].
  cbn [app deploy_calls]. destruct ev; [cbn [app]; now rewrite IH | exact IH].
Qed.

Ltac deploy_in_list H :=
  repeat (apply elem_of_cons in H as [->|H]);
  try (apply elem_of_nil in H; destruct H).

Ltac deploy_in_trace :=
  repeat first
    [ apply list_elem_of_singleton; reflexivity
    | apply elem_of_app; right; apply list_elem_of_singleton; reflexivity
    | apply elem_of_app; left ].

(** X18: [deploy] sends at most seven transactions, each from the address of
    the account the key gave.  When it returns, its calls were, in order:
    the account of the key; for Registry, PolicyRegistry and CommitLedger
    the artifact loaded, a constructor transaction with the bytecode of
    that artifact and no argument, and its receipt; the same for
    BranchManager, with the contract addresses of the CommitLedger and the
    PolicyRegistry receipts as arguments; then CommitLedger, BranchManager
    and PolicyRegistry set, under the Keccak-256 of each name, to the
    contract address of their own receipt, in the registry at the contract
    address of the Registry receipt, which is the address returned. *)
Theorem deploy_wiring (env : Deploy.environment) (key : string) (t : Deploy.trace) :
  let '(out, t') := Deploy.deploy env key t in
  exists txs,
    deploy_transactions t' = deploy_transactions t ++ txs
    /\ length txs <= 7
    /\ (forall tx, tx ∈ txs ->
          exists acct,
            Deploy.Called (Deploy.from_key key) (inr acct) ∈ t'
            /\ tx_sender tx = Deploy.acct_address acct)
    /\ forall r, out = Deploy.Returned r ->
         exists acct reg_abi reg_bin pol_abi pol_bin cl_abi cl_bin bm_abi bm_bin
                h1 h2 h3 h4 reg pol cl bm s1 s2 s3 q1 q2 q3,
           let deployer := Deploy.acct_address acct in
           let construct name abi_bin args h rcpt :=
             [Deploy.Called (Deploy.load_abi_bytecode name) (inr abi_bin);
              Deploy.Called (Deploy.transact (Deploy.Construct (Some abi_bin.2) args deployer))
                (inr h);
              Deploy.Called (Deploy.wait_for_transaction_receipt h) (inr rcpt)] in
           let set name addr h rcpt :=
             [Deploy.Called
                (Deploy.transact
                   (Deploy.RegistrySet (Some (Deploy.contractAddress reg))
                      (Keccak.keccak_text name) addr deployer)) (inr h);
              Deploy.Called (Deploy.wait_for_transaction_receipt h) (inr rcpt)] in
           deploy_calls t'
           = deploy_calls t
             ++ [Deploy.Called (Deploy.from_key key) (inr acct)]
             ++ construct "Registry" (reg_abi, reg_bin) [] h1 reg
             ++ construct "PolicyRegistry" (pol_abi, pol_bin) [] h2 pol
             ++ construct "CommitLedger" (cl_abi, cl_bin) [] h3 cl
             ++ construct "BranchManager" (bm_abi, bm_bin)
                  [Deploy.contractAddress cl; Deploy.contractAddress pol] h4 bm
             ++ set "CommitLedger" (Deploy.contractAddress cl) s1 q1
             ++ set "BranchManager" (Deploy.contractAddress bm) s2 q2
             ++ set "PolicyRegistry" (Deploy.contractAddress pol) s3 q3
           /\ txs = [Deploy.Construct (Some reg_bin) [] deployer;
                     Deploy.Construct (Some pol_bin) [] deployer;
                     Deploy.Construct (Some cl_bin) [] deployer;
                     Deploy.Construct (Some bm_bin)
                       [Deploy.contractAddress cl; Deploy.contractAddress pol] deployer;
                     Deploy.RegistrySet (Some (Deploy.contractAddress reg))
                       (Keccak.keccak_text "CommitLedger") (Deploy.contractAddress cl)
                       deployer;
                     Deploy.RegistrySet (Some (Deploy.contractAddress reg))
                       (Keccak.keccak_text "BranchManager") (Deploy.contractAddress bm)
                       deployer;
                     Deploy.RegistrySet (Some (Deploy.contractAddress reg))
                       (Keccak.keccak_text "PolicyRegistry") (Deploy.contractAddress pol)
                       deployer]
           /\ r = [("REGISTRY_ADDRESS", Deploy.contractAddress reg);
                   ("DEPLOYER_ADDRESS", deployer)].
Proof.
  assert (E : Deploy.deploy env key t = Deploy.first_body env key t).
  { unfold Deploy.deploy. apply bind_dead.
    generalize (first_body_returns env key t). apply triple_weaken; auto. }
  rewrite E.
  unfold Deploy.first_body, Deploy.send_tx, Deploy.register_contract, Deploy.invoke,
    Deploy.print, Deploy.return_, mbind, Deploy.M_bind, mret, Deploy.M_ret.
  cbv beta iota zeta.
  repeat deploy_step.
  all: eexists; split;
    [ rewrite !deploy_transactions_app; cbn [deploy_transactions];
      rewrite <- ?app_assoc; cbn [app]; reflexivity | ].
  all: split; [cbn [length]; lia|].
  all: split;
    [ intros tx Htx; deploy_in_list Htx;
      eexists; (split; [deploy_in_trace | reflexivity])
    | ].
  all: intros r Hr; try discriminate Hr.
  all: injection Hr as <-.
  all: eexists _, _, _, _, _, _, _, _, _, _, _, _, _, _, _, _, _, _, _, _, _, _, _.
  all: cbv zeta; cbn [snd].
  all: split;
    [ rewrite !deploy_calls_app; cbn [deploy_calls]; rewrite <- ?app_assoc; cbn [app];
      reflexivity
    | split; reflexivity ].
Qed.

(** X19: A record that [commit] sends points at the artifact: its artifactHash
    is the 32-byte SHA-256 of the artifact bytes, its artifactURI is
    "ipfs://" followed by the hexadecimal text of that hash, its id is 32
    bytes long, and [get] of the artifactURI on the store left behind
    returns bytes (the artifact itself when its digest was not in the store
    before). *)
Theorem commit_record_points_to_artifact (ctx : CLI.context) (data : bytes) (rnd : Z)
    (ps : list string) (w : CLI.world) :
  let '(res, w') := CLI.commit ctx data rnd ps w in
  match res with
  | inr _ =>
      exists r,
        CLI.ledger w' = CLI.ledger w ++ [r]
        /\ CLI.artifactHash r = SHA256.digest data
        /\ length (CLI.artifactHash r) = 32
        /\ CLI.artifactURI r = "ipfs://" +:+ Hex.hex (CLI.artifactHash r)
        /\ length (CLI.id r) = 32
        /\ exists stored_bytes,
             LocalIPFS.get (CLI.artifactURI r) (CLI.ipfs_local w') = inr stored_bytes
             /\ (CLI.ipfs_local w !! SHA256.hexdigest data = None -> stored_bytes = data)
  | inl _ => CLI.ledger w' = CLI.ledger w
  end.
Proof.
  rewrite commit_run.
  destruct (CLI.parent_bytes_of ps) as [pb|]; [|reflexivity].
  destruct (ABI.encode _ _) as [enc|]; [|reflexivity].
  unfold CLI.send_addCommit. destruct (CLI.has_account ctx); [|reflexivity].
  eexists. split; [reflexivity|].
  cbn [CLI.artifactHash CLI.artifactURI CLI.id CLI.commit_input_of CLI.ipfs_local CLI.stored].
  split; [reflexivity|]. split; [apply sha256_digest_length|].
  split; [reflexivity|]. split; [apply keccak256_length|].
  exists (default data (CLI.ipfs_local w !! SHA256.hexdigest data)).
  split.
  - rewrite get_strips_scheme. unfold SHA256.hexdigest at 1.
    rewrite get_digest. fold (SHA256.hexdigest data).
    now rewrite add_bytes_lookup.
  - intros ->. reflexivity.
Qed.

End WiringFacts.
